(** * Authorization core of the dashboard template

    A shallow embedding of the session resolver, the role gate, the
    data-fetch template ([lib/auth/dal.ts]), the login rate limiter
    ([lib/rate-limiting.ts]), the credential verifier ([auth.config.ts]) and
    the edge request filter ([middleware.ts]), with the properties the
    specification states about them.

    Conventions.
    - JavaScript strings are [string]; [undefined]/[null] is [None].
    - [process.env] is a finite map from names to strings.
    - [Date.now()] and the attempt counter are integers ([Z]); the counter
      would need 2^53 calls before a JavaScript number stops being exact.
    - [redirect()] of next/navigation never returns: it throws a dedicated
      error, so a computation ends in a value or in something thrown.
    - Console output and the calls made to caller-supplied functions are
      recorded in a trace. *)

From Stdlib Require Import ZArith Lia Ascii String.
From stdpp Require Import gmap strings list fin_maps.

Open Scope string_scope.
Open Scope list_scope.
Open Scope Z_scope.

(** ** JavaScript string and truthiness helpers *)

Module JS.

(** [s.startsWith(p)] *)
Definition startsWith (s p : string) : bool := String.prefix p s.

(** [s.includes(sub)]: [sub] occurs somewhere in [s]. *)
Fixpoint includes (s sub : string) : bool :=
  String.prefix sub s ||
  match s with
  | EmptyString => false
  | String _ s' => includes s' sub
  end.

(** [s.split(sep)] for a one-character separator. *)
Fixpoint split (sep : ascii) (s : string) : list string :=
  match s with
  | EmptyString => [EmptyString]
  | String a s' =>
      if Ascii.eqb a sep then EmptyString :: split sep s'
      else match split sep s' with
           | h :: t => String a h :: t
           | [] => [String a EmptyString]
           end
  end.

(** [l.join(sep)] *)
Definition join (sep : string) (l : list string) : string := String.concat sep l.

(** Truthiness of a possibly undefined string: defined and not empty. *)
Definition truthy (v : option string) : bool :=
  match v with
  | Some s => negb (String.eqb s EmptyString)
  | None => false
  end.

(** [v || d] on a possibly undefined string. *)
Definition or_default (v : option string) (d : string) : string :=
  match v with
  | Some s => if String.eqb s EmptyString then d else s
  | None => d
  end.

(** [v === s] *)
Definition strict_eq (v : option string) (s : string) : bool :=
  match v with
  | Some s' => String.eqb s' s
  | None => false
  end.

(** [l.includes(v)] on an array of strings, [v] possibly undefined. *)
Definition array_includes (l : list string) (v : option string) : bool :=
  match v with
  | Some s => existsb (String.eqb s) l
  | None => false
  end.

(** The double-quote character. *)
Definition dquote : string := String (ascii_of_nat 34) EmptyString.

(** [a < b] on numbers that may be [undefined]: [undefined] converts to
    NaN and every comparison with NaN is false. *)
Definition lt (a b : option Z) : bool :=
  match a, b with
  | Some x, Some y => x <? y
  | _, _ => false
  end.

End JS.

(** ** Rate limiter ([lib/rate-limiting.ts]) *)

Module RateLimiting.

(** One value of the [RateLimitStore] index signature. *)
Record Entry := { count : Z; resetTime : Z }.

(** What [checkRateLimit] returns; its third field is called [resetTime]
    in the source too. *)
Record RateLimitResult :=
  { allowed : bool; remaining : Z; resultResetTime : Z }.

Definition RATE_LIMIT_WINDOW : Z := 15 * 60 * 1000.
Definition MAX_ATTEMPTS : Z := 5.

(** [`auth:${identifier}`] *)
Definition storeKey (identifier : string) : string := "auth:" +:+ identifier.

(** [store[key].count++] *)
Definition increment (e : Entry) : Entry :=
  {| count := count e + 1; resetTime := resetTime e |}.

(** [store[key]] read after the initialisation step, where the entry is
    always there ([checkRateLimit_initialised] below). *)
Definition entryAt (key : string) (store : gmap string Entry) : Entry :=
  default {| count := 0; resetTime := 0 |} (store !! key).

Definition checkRateLimit (now : Z) (identifier : string) (store : gmap string Entry)
  : RateLimitResult * gmap string Entry :=
  let key := storeKey identifier in
  (* Clean expired entries *)
  let store1 :=
    match store !! key with
    | Some e => if resetTime e <? now then delete key store else store
    | None => store
    end in
  (* Initialize if not exists *)
  let store2 :=
    match store1 !! key with
    | Some _ => store1
    | None => <[key := {| count := 0; resetTime := now + RATE_LIMIT_WINDOW |}]> store1
    end in
  (* Increment counter *)
  let store3 := alter increment key store2 in
  let allowed := count (entryAt key store3) <=? MAX_ATTEMPTS in
  let remaining := Z.max 0 (MAX_ATTEMPTS - count (entryAt key store3)) in
  ({| allowed := allowed; remaining := remaining;
      resultResetTime := resetTime (entryAt key store3) |}, store3).

(** [delete store[key]] *)
Definition resetRateLimit (identifier : string) (store : gmap string Entry)
  : gmap string Entry :=
  delete (storeKey identifier) store.

(** A sequence of calls [(now, identifier)], made one after the other on
    the shared store; the results are paired with their identifier. *)
Fixpoint run (calls : list (Z * string)) (store : gmap string Entry)
  : list (string * RateLimitResult) * gmap string Entry :=
  match calls with
  | [] => ([], store)
  | (now, identifier) :: rest =>
      let '(r, store') := checkRateLimit now identifier store in
      let '(rs, store'') := run rest store' in
      ((identifier, r) :: rs, store'')
  end.

(** The results of the calls made for one identifier, in call order. *)
Fixpoint resultsFor (identifier : string) (rs : list (string * RateLimitResult))
  : list RateLimitResult :=
  match rs with
  | [] => []
  | (i, r) :: rest =>
      if String.eqb i identifier then r :: resultsFor identifier rest
      else resultsFor identifier rest
  end.

(** The calls of a sequence made for one identifier. *)
Definition callsFor (identifier : string) (calls : list (Z * string)) : list (Z * string) :=
  List.filter (fun c => String.eqb (snd c) identifier) calls.

(** The entry an identifier has at time [now], as the cleaning step sees
    it: an expired entry counts as absent. *)
Definition liveEntry (now : Z) (identifier : string) (store : gmap string Entry)
  : option Entry :=
  match store !! storeKey identifier with
  | Some e => if resetTime e <? now then None else Some e
  | None => None
  end.

(** The attempts already counted for an identifier in its current window. *)
Definition attemptsSoFar (now : Z) (identifier : string) (store : gmap string Entry) : Z :=
  match liveEntry now identifier store with
  | Some e => count e
  | None => 0
  end.

(** The result the limiter gives once the counter has reached [c]. *)
Definition resultAt (c reset : Z) : RateLimitResult :=
  {| allowed := c <=? MAX_ATTEMPTS;
     remaining := Z.max 0 (MAX_ATTEMPTS - c);
     resultResetTime := reset |}.

End RateLimiting.

(** ** The session provider's types (next-auth, as augmented in
    [lib/auth/definitions.ts]) *)

Module NextAuth.

(** [session.user]; every field may be missing at run time. *)
Record User := { id : option string; email : option string; role : option string }.

(** What [auth()] resolves to when there is a session. *)
Record Session := { user : option User }.

End NextAuth.

(** ** Computations that log, call out and may throw *)

Module Eff.

(** What a computation can end in instead of a value. [redirect(path)]
    throws the framework's redirect error; like every thrown value it is
    caught by an enclosing [catch]. *)
Inductive Thrown :=
| NextRedirect (path : string)
| JsError (message : string)
| ThrownValue (description : string).

Inductive Outcome (A : Type) :=
| Returned (a : A)
| Threw (e : Thrown).
Arguments Returned {A} a.
Arguments Threw {A} e.

(** What can be observed of a run: console output, the call to [auth()],
    the entry into a caller-supplied fetcher with its argument, and
    whatever that fetcher does. *)
Inductive Event :=
| ConsoleLog (message : string)
| ConsoleWarn (message : string)
| ConsoleLogWith (message : string) (cause : Thrown)
| ConsoleError (message : string) (cause : Thrown)
| AuthCalled
| Invoke (userId : string)
| FetcherDid (effect : string).

(** The surroundings of one request: [process.env] and what [auth()]
    gives for the request's session token. *)
Record World := {
  env : gmap string string;
  authResult : Outcome (option NextAuth.Session)
}.

Definition M (A : Type) : Type := World -> list Event * Outcome A.

Definition ret {A} (a : A) : M A := fun _ => ([], Returned a).

Definition bind {A B} (m : M A) (k : A -> M B) : M B :=
  fun w =>
    match m w with
    | (t, Returned a) => let '(t', o) := k a w in (t ++ t', o)
    | (t, Threw e) => (t, Threw e)
    end.

Definition throw {A} (e : Thrown) : M A := fun _ => ([], Threw e).

Definition emit (ev : Event) : M unit := fun _ => ([ev], Returned tt).

Definition getEnv : M (gmap string string) := fun w => ([], Returned (env w)).

(** [await auth()] *)
Definition auth : M (option NextAuth.Session) := fun w => ([AuthCalled], authResult w).

(** [redirect(path)] *)
Definition redirect {A} (path : string) : M A := throw (NextRedirect path).

(** [try { m } catch (error) { h error }] *)
Definition try_catch {A} (m : M A) (h : Thrown -> M A) : M A :=
  fun w =>
    match m w with
    | (t, Returned a) => (t, Returned a)
    | (t, Threw e) => let '(t', o) := h e w in (t ++ t', o)
    end.

(** A caller-supplied data fetcher: given the user id and the
    surroundings it does something observable and returns or throws. *)
Definition Fetcher (T : Type) : Type := string -> World -> list string * Outcome T.

(** [await dataFetcher(userId)]: the entry into the fetcher is recorded,
    then whatever it does. *)
Definition call {T} (dataFetcher : Fetcher T) (userId : string) : M T :=
  fun w =>
    let '(effects, o) := dataFetcher userId w in
    (Invoke userId :: map FetcherDid effects, o).

Definition trace {A} (r : list Event * Outcome A) : list Event := fst r.
Definition outcome {A} (r : list Event * Outcome A) : Outcome A := snd r.

End Eff.

Import Eff.

Notation "x <- m ;; k" := (Eff.bind m (fun x => k))
  (at level 100, m at next level, right associativity).
Notation "m ;;; k" := (Eff.bind m (fun _ => k))
  (at level 100, right associativity).

(** ** Data access layer ([lib/auth/dal.ts] and the template's [lib/dal.ts]) *)

Module Dal.

(** The record [verifySession] resolves to. *)
Record Verified := {
  isAuth : bool;
  userId : string;
  userEmail : option string;
  userRole : option string
}.

(** The operands of the [&&] chain of [isDevelopmentBypass], in order. *)
Definition bypassGuards (env : gmap string string) : list bool :=
  [ JS.strict_eq (env !! "NODE_ENV") "development";
    JS.strict_eq (env !! "DEV_DAL_BYPASS") "true";
    match env !! "DATABASE_URL" with
    | Some url => JS.includes url "localhost"
    | None => false
    end;
    negb (JS.truthy (env !! "VERCEL_ENV"));
    negb (JS.truthy (env !! "RAILWAY_ENVIRONMENT"));
    negb (JS.truthy (env !! "HEROKU_APP_NAME")) ].

Definition isDevelopmentBypass (env : gmap string string) : bool :=
  JS.strict_eq (env !! "NODE_ENV") "development" &&
  JS.strict_eq (env !! "DEV_DAL_BYPASS") "true" &&
  match env !! "DATABASE_URL" with
  | Some url => JS.includes url "localhost"
  | None => false
  end &&
  negb (JS.truthy (env !! "VERCEL_ENV")) &&
  negb (JS.truthy (env !! "RAILWAY_ENVIRONMENT")) &&
  negb (JS.truthy (env !! "HEROKU_APP_NAME")).

(** The synthetic identity of the bypass path. *)
Definition bypassIdentity (env : gmap string string) : Verified :=
  {| isAuth := true;
     userId := JS.or_default (env !! "DEV_USER_ID") "dev-dal-user-id-default";
     userEmail := Some (JS.or_default (env !! "DEV_USER_EMAIL") "dev-dal-default@example.com");
     userRole := Some (JS.or_default (env !! "DEV_USER_ROLE") "ADMIN") |}.

(** [session?.user?.id] when it is truthy. *)
Definition sessionUserId (session : option NextAuth.Session) : option string :=
  match session with
  | Some s =>
      match NextAuth.user s with
      | Some u => if JS.truthy (NextAuth.id u) then NextAuth.id u else None
      | None => None
      end
  | None => None
  end.

Definition sessionUserEmail (session : option NextAuth.Session) : option string :=
  s ← session; u ← NextAuth.user s; NextAuth.email u.

Definition sessionUserRole (session : option NextAuth.Session) : option string :=
  s ← session; u ← NextAuth.user s; NextAuth.role u.

(** [verifySession]. The source wraps it in React's [cache], which only
    saves recomputation within a request: the surroundings of a request
    are fixed here, so a second call computes the same outcome. *)
Definition verifySession : M Verified :=
  emit (ConsoleLog "DAL: verifySession called") ;;;
  env <- getEnv ;;
  if isDevelopmentBypass env then
    let v := bypassIdentity env in
    emit (ConsoleLog ("DAL: Bypass activo. Sesión inyectada para User ID: " +:+ userId v
                      +:+ ", Email: " +:+ default "" (userEmail v))) ;;;
    ret v
  else
    session <- auth ;;
    match sessionUserId session with
    | None =>
        emit (ConsoleLog "DAL: verifySession - No session found. Redirecting to /es/auth/signin") ;;;
        redirect "/es/signin"
    | Some uid =>
        emit (ConsoleLog ("DAL: verifySession - Sesión válida para usuario: " +:+ uid)) ;;;
        ret {| isAuth := true;
               userId := uid;
               userEmail := sessionUserEmail session;
               userRole := sessionUserRole session |}
    end.

(** [roleHierarchy[label]]: the rank of an own key, [undefined] otherwise. *)
Fixpoint rankOf (roleHierarchy : list (string * Z)) (label : string) : option Z :=
  match roleHierarchy with
  | [] => None
  | (k, v) :: rest => if String.eqb k label then Some v else rankOf rest label
  end.

(** The text of the second warning of [requireRole]: a template literal
    without interpolations (its braces are not preceded by a dollar sign). *)
Definition insufficientRoleWarning : string :=
  "DAL: requireRole - Usuario con rol '<span class=" +:+ JS.dquote +:+ "math-inline"
  +:+ JS.dquote +:+ ">{userRole}' intentó acceder a recurso de rol '</span>{requiredRole}'."
  +:+ " Redirigiendo a /unauthorized.".

(** [requireRole], for the object literal [roleHierarchy] each copy of the
    file declares. *)
Definition requireRoleIn (roleHierarchy : list (string * Z)) (requiredRole : string) : M bool :=
  v <- verifySession ;;
  (if negb (JS.array_includes (map fst roleHierarchy) (userRole v)) then
     emit (ConsoleWarn ("DAL: requireRole - Rol de usuario desconocido: "
                        +:+ default "undefined" (userRole v)
                        +:+ ". Redirigiendo a /unauthorized.")) ;;;
     redirect "/unauthorized"
   else ret tt) ;;;
  (if JS.lt (userRole v ≫= rankOf roleHierarchy) (rankOf roleHierarchy requiredRole) then
     emit (ConsoleWarn insufficientRoleWarning) ;;;
     redirect "/unauthorized"
   else ret tt) ;;;
  ret true.

(** [getSecureData] *)
Definition getSecureData {T} (dataFetcher : Fetcher T) : M T :=
  v <- verifySession ;;
  try_catch (call dataFetcher (userId v))
    (fun error =>
       emit (ConsoleError "DAL: Secure data fetch error:" error) ;;;
       throw (JsError "Data access denied")).

End Dal.

(** The six-tier copy, [sifrex-frontend/src/lib/auth/dal.ts]. *)
Module SifrexDal.

Definition roleHierarchy : list (string * Z) :=
  [ ("BASIC", 0); ("PLUS", 1); ("PREMIUM", 2);
    ("PREMIUM_PLUS", 3); ("ADMIN", 4); ("SUPER_ADMIN", 5) ].

Definition requireRole (requiredRole : string) : M bool :=
  Dal.requireRoleIn roleHierarchy requiredRole.

End SifrexDal.

(** The three-tier copy, [template-frontend/src/lib/dal.ts]. *)
Module TemplateDal.

Definition roleHierarchy : list (string * Z) :=
  [ ("USER", 0); ("ADMIN", 1); ("SUPER_ADMIN", 2) ].

Definition requireRole (requiredRole : string) : M bool :=
  Dal.requireRoleIn roleHierarchy requiredRole.

End TemplateDal.

(** The six role labels of the spec's ordinal table. *)
Inductive Role := BASIC | PLUS | PREMIUM | PREMIUM_PLUS | ADMIN | SUPER_ADMIN.

Definition label (r : Role) : string :=
  match r with
  | BASIC => "BASIC"
  | PLUS => "PLUS"
  | PREMIUM => "PREMIUM"
  | PREMIUM_PLUS => "PREMIUM_PLUS"
  | ADMIN => "ADMIN"
  | SUPER_ADMIN => "SUPER_ADMIN"
  end.

Definition rank (r : Role) : Z :=
  match r with
  | BASIC => 0
  | PLUS => 1
  | PREMIUM => 2
  | PREMIUM_PLUS => 3
  | ADMIN => 4
  | SUPER_ADMIN => 5
  end.

(** A role string is recognized when it is one of the six labels. *)
Definition recognized (userRole : option string) : Prop :=
  exists r, userRole = Some (label r).

(** ** Credential verifier ([auth.config.ts], the [authorize] callback) *)

Module Prisma.

(** The columns [authorize] selects from the identity table. *)
Record UserRow := {
  id : string;
  email : string;
  name : option string;
  password : option string;
  role : string
}.

End Prisma.

Module AuthConfig.

(** The object [authorize] returns on success: no password field. *)
Record User := { id : string; email : string; name : option string; role : string }.

(** What [authorize] finds around it: [process.env.NODE_ENV], the clock,
    and the identity table behind [prisma.user.findUnique({where: {email}})],
    a query that returns a row, returns [null], or throws. *)
Record Surroundings := {
  NODE_ENV : option string;
  now : Z;
  findUnique : string -> Outcome (option Prisma.UserRow)
}.

(** [if (process.env.NODE_ENV === 'development') console.log(message)] *)
Definition devLog (w : Surroundings) (message : string) : list Event :=
  if JS.strict_eq (NODE_ENV w) "development" then [ConsoleLog message] else [].

(** [console.log('Error in authorize:', error)] of the final [catch]. *)
Definition caughtLog (error : Thrown) : list Event :=
  [ConsoleLogWith "Error in authorize:" error].

Section Authorize.

(** The raw form fields, and the two library calls [authorize] makes:
    [SigninFormSchema.safeParse] (zod; it gives the parsed email and
    password or fails) and [bcrypt.compare]. *)
Variable Credentials : Type.
Variable safeParse : Credentials -> option (string * string).
Variable bcryptCompare : string -> string -> Outcome bool.

(** [authorize]: the trace, the returned user or [null], and the rate
    limit store afterwards. Everything thrown inside is caught and
    turned into [null]. *)
Definition authorize (credentials : Credentials) (w : Surroundings)
    (store : gmap string RateLimiting.Entry)
  : list Event * option User * gmap string RateLimiting.Entry :=
  match safeParse credentials with
  | None => (devLog w "Invalid credentials format", None, store)
  | Some (email, password) =>
      let '(rateLimitResult, store') := RateLimiting.checkRateLimit (now w) email store in
      if negb (RateLimiting.allowed rateLimitResult) then
        (devLog w ("Rate limit exceeded for " +:+ email), None, store')
      else
        match findUnique w email with
        | Threw error => (caughtLog error, None, store')
        | Returned None => (devLog w "User not found or no password set", None, store')
        | Returned (Some user) =>
            match Prisma.password user with
            | None => (devLog w "User not found or no password set", None, store')
            | Some hash =>
                if String.eqb hash "" then
                  (devLog w "User not found or no password set", None, store')
                else
                  match bcryptCompare password hash with
                  | Threw error => (caughtLog error, None, store')
                  | Returned false => (devLog w "Password does not match", None, store')
                  | Returned true =>
                      ([], Some {| id := Prisma.id user;
                                   email := Prisma.email user;
                                   name := Prisma.name user;
                                   role := Prisma.role user |}, store')
                  end
            end
        end
  end.

End Authorize.

End AuthConfig.

(** ** Edge request filter ([middleware.ts]) *)

(** The [Headers] class: names are case-insensitive and kept in lower case. *)
Module Headers.

Definition lowerAscii (c : ascii) : ascii :=
  let n := nat_of_ascii c in
  if ((65 <=? n)%nat && (n <=? 90)%nat)%bool then ascii_of_nat (n + 32) else c.

Fixpoint lower (s : string) : string :=
  match s with
  | EmptyString => EmptyString
  | String c s' => String (lowerAscii c) (lower s')
  end.

Definition get (name : string) (h : list (string * string)) : option string :=
  snd <$> List.find (fun p => String.eqb (fst p) (lower name)) h.

Definition has (name : string) (h : list (string * string)) : bool :=
  existsb (fun p => String.eqb (fst p) (lower name)) h.

Definition delete (name : string) (h : list (string * string)) : list (string * string) :=
  List.filter (fun p => negb (String.eqb (fst p) (lower name))) h.

Definition set (name value : string) (h : list (string * string)) : list (string * string) :=
  delete name h ++ [(lower name, value)].

End Headers.

Module Next.

(** A parsed URL. The [pathname] of an http(s) URL starts with a slash
    and holds no raw question mark or hash sign. *)
Record URL := {
  origin : string;
  pathname : string;
  searchParams : list (string * string)
}.

#[global] Instance URL_eq_dec : EqDecision URL.
Proof. solve_decision. Defined.

(** [new URL(path, base)] for an absolute path: the path is taken on the
    base's origin, without a query. *)
Definition newURL (path : string) (base : URL) : URL :=
  {| origin := origin base; pathname := path; searchParams := [] |}.

(** [url.searchParams.set(name, value)] *)
Definition searchParamsSet (name value : string) (url : URL) : URL :=
  {| origin := origin url;
     pathname := pathname url;
     searchParams :=
       List.filter (fun p => negb (String.eqb (fst p) name)) (searchParams url)
       ++ [(name, value)] |}.

(** The request the handler receives; [auth] is the property the session
    provider's wrapper adds, [nextUrl] also stands for [request.url]. *)
Record Request := {
  nextUrl : URL;
  method : string;
  headers : list (string * string);
  auth : option NextAuth.Session
}.

(** A response of the handler. A redirect names its target, which stands
    for its [Location] header; a pass-through may carry replacement
    request headers, which only [NextResponse.next({request: {headers}})]
    sets. [responseHeaders] are the other headers of the response. *)
Inductive Kind :=
| Redirect (location : URL)
| Continue (requestHeaders : option (list (string * string))).

#[global] Instance Kind_eq_dec : EqDecision Kind.
Proof. solve_decision. Defined.

Record Response := { kind : Kind; responseHeaders : list (string * string) }.

(** [NextResponse.redirect(url)] *)
Definition redirect (url : URL) : Response :=
  {| kind := Redirect url; responseHeaders := [] |}.

(** [NextResponse.next()] *)
Definition next : Response :=
  {| kind := Continue None; responseHeaders := [("x-middleware-next", "1")] |}.

(** [response.headers.set(name, value)] and [response.headers.delete(name)] *)
Definition setHeader (name value : string) (r : Response) : Response :=
  {| kind := kind r; responseHeaders := Headers.set name value (responseHeaders r) |}.

Definition deleteHeader (name : string) (r : Response) : Response :=
  {| kind := kind r; responseHeaders := Headers.delete name (responseHeaders r) |}.

(** The request headers the next handler sees after a pass-through: the
    inbound ones unless the response carries replacements. *)
Definition forwardedHeaders (request : Request) (r : Response)
  : option (list (string * string)) :=
  match kind r with
  | Redirect _ => None
  | Continue None => Some (headers request)
  | Continue (Some h) => Some h
  end.

(** The request a client makes when it follows a redirect to [location]. *)
Definition follow (request : Request) (location : URL) : Request :=
  {| nextUrl := location; method := method request;
     headers := headers request; auth := auth request |}.

End Next.

(** The locale handling the three copies of the handler share. *)
Module I18n.

Definition locales : list string := ["es"; "en"].
Definition defaultLocale : string := "es".

(** [getLocale(request)]: no detection yet, the default locale. *)
Definition getLocale (request : Next.Request) : string := defaultLocale.

(** [locales.some(locale => pathname.startsWith(`/${locale}/`) ||
    pathname === `/${locale}`)] *)
Definition pathnameHasLocale (pathname : string) : bool :=
  existsb (fun locale =>
             JS.startsWith pathname ("/" +:+ locale +:+ "/")
             || String.eqb pathname ("/" +:+ locale))
          locales.

(** [pathname.split('/')[1]], printed as a template literal prints it. *)
Definition firstSegment (pathname : string) : string :=
  default "undefined" (JS.split "/" pathname !! 1%nat).

(** [getPathnameWithoutLocale] *)
Definition getPathnameWithoutLocale (pathname : string) : string :=
  let segments := JS.split "/" pathname in
  if JS.array_includes locales (segments !! 1%nat)
  then "/" +:+ JS.join "/" (drop 2 segments)
  else pathname.

(** The target of the locale redirect: [`/${locale}${pathname}`] on the
    request's origin. *)
Definition localized (locale : string) (request : Next.Request) : Next.URL :=
  Next.newURL ("/" +:+ locale +:+ Next.pathname (Next.nextUrl request)) (Next.nextUrl request).

End I18n.

(** The handler of the [middleware.ts] that sanitizes headers (public
    routes list, security headers): the function given to the session
    provider's [auth] wrapper, which [NextAuthMiddleware] below puts
    around it. *)
Module SifrexMiddleware.

Import I18n.

Definition publicRoutes : list string :=
  [ "/auth/signin"; "/auth/signup"; "/auth/forgot-password"; "/auth/reset-password" ].

(** [new Request(request.url, {method, headers: modifiedHeaders, ...})] *)
Definition cleanRequestOf (request : Next.Request) : Next.Request :=
  let modifiedHeaders :=
    Headers.delete "x-forwarded-middleware"
      (Headers.delete "x-middleware-subrequest" (Next.headers request)) in
  {| Next.nextUrl := Next.nextUrl request;
     Next.method := Next.method request;
     Next.headers := modifiedHeaders;
     Next.auth := None |}.

Definition middleware (request : Next.Request) : Next.Response :=
  let pathname := Next.pathname (Next.nextUrl request) in
  let isAuthenticated := bool_decide (is_Some (Next.auth request)) in
  (* 1. the cleaned copy of the request; nothing below refers to it *)
  let cleanRequest := cleanRequestOf request in
  (* 2. i18n *)
  let hasLocale := pathnameHasLocale pathname in
  let currentLocale := if hasLocale then firstSegment pathname else getLocale request in
  if negb hasLocale then
    Next.redirect (Next.newURL ("/" +:+ currentLocale +:+ pathname) (Next.nextUrl request))
  else
    let pathnameWithoutLocale := getPathnameWithoutLocale pathname in
    (* 3. optimistic redirects *)
    let isPublicRoute := existsb (JS.startsWith pathnameWithoutLocale) publicRoutes in
    if negb isPublicRoute && negb isAuthenticated then
      let loginUrl := Next.newURL ("/" +:+ currentLocale +:+ "/auth/signin") (Next.nextUrl request) in
      Next.redirect (Next.searchParamsSet "callbackUrl" pathname loginUrl)
    else if isPublicRoute && isAuthenticated then
      Next.redirect (Next.newURL ("/" +:+ currentLocale +:+ "/dashboard") (Next.nextUrl request))
    else
      (* 4. security headers on the pass-through response *)
      let response := Next.next in
      let response := Next.setHeader "X-Frame-Options" "DENY" response in
      let response := Next.setHeader "X-Content-Type-Options" "nosniff" response in
      let response := Next.setHeader "Referrer-Policy" "strict-origin-when-cross-origin" response in
      let response := Next.setHeader "X-XSS-Protection" "1; mode=block" response in
      let response := Next.setHeader "Strict-Transport-Security"
                        "max-age=31536000; includeSubDomains; preload" response in
      let response := Next.deleteHeader "x-middleware-subrequest" response in
      let response := Next.deleteHeader "x-forwarded-middleware" response in
      response.

End SifrexMiddleware.

(** The handler of [template-frontend/src/middleware.ts], given to the same
    wrapper. *)
Module TemplateMiddleware.

Import I18n.

Definition protectedRoutes : list string := [ "/dashboard"; "/profile"; "/settings" ].
Definition authRoutes : list string :=
  [ "/auth/signin"; "/auth/signup"; "/auth/forgot-password" ].

Definition middleware (request : Next.Request) : Next.Response :=
  let pathname := Next.pathname (Next.nextUrl request) in
  let isAuthenticated := bool_decide (is_Some (Next.auth request)) in
  let hasLocale := pathnameHasLocale pathname in
  let currentLocale := if hasLocale then firstSegment pathname else getLocale request in
  if negb hasLocale then
    Next.redirect (Next.newURL ("/" +:+ currentLocale +:+ pathname) (Next.nextUrl request))
  else
    let pathnameWithoutLocale := getPathnameWithoutLocale pathname in
    let isProtectedRoute := existsb (JS.startsWith pathnameWithoutLocale) protectedRoutes in
    let isAuthRoute := existsb (JS.startsWith pathnameWithoutLocale) authRoutes in
    if isProtectedRoute && negb isAuthenticated then
      let loginUrl := Next.newURL ("/" +:+ currentLocale +:+ "/auth/signin") (Next.nextUrl request) in
      Next.redirect (Next.searchParamsSet "callbackUrl" pathname loginUrl)
    else if isAuthRoute && isAuthenticated then
      Next.redirect (Next.newURL ("/" +:+ currentLocale +:+ "/dashboard") (Next.nextUrl request))
    else Next.next.

End TemplateMiddleware.

(** The locale-only [middleware] function (the variant without a session):
    a request that already has a locale is left alone, which the handler
    signals by returning nothing. *)
Module LocaleMiddleware.

Import I18n.

Definition middleware (request : Next.Request) : option Next.Response :=
  let pathname := Next.pathname (Next.nextUrl request) in
  let hasLocale := pathnameHasLocale pathname in
  if hasLocale then None
  else
    let locale := getLocale request in
    Some (Next.redirect (Next.newURL ("/" +:+ locale +:+ pathname) (Next.nextUrl request))).

End LocaleMiddleware.

(** *** Following locale redirects *)

(** In the claim's words: the path carries a supported two-letter locale
    prefix, "es" or "en", when it is that locale behind a slash, alone or
    followed by a slash and the rest of the path. *)
Definition carriesSupportedPrefix (pathname : string) : bool :=
  String.eqb pathname "/es" || JS.startsWith pathname "/es/"
  || String.eqb pathname "/en" || JS.startsWith pathname "/en/".

(** In the claim's words: the same path prefixed with the default locale,
    "es", on the request's origin. *)
Definition prefixedWithDefault (request : Next.Request) : Next.URL :=
  {| Next.origin := Next.origin (Next.nextUrl request);
     Next.pathname := "/es" +:+ Next.pathname (Next.nextUrl request);
     Next.searchParams := [] |}.

(** A response is a locale redirect of a request when it redirects to the
    request's own path behind the default locale. *)
Definition isLocaleRedirect (request : Next.Request) (r : Next.Response) : bool :=
  bool_decide (Next.kind r = Next.Redirect (prefixedWithDefault request)).

(** The number of locale redirects a client goes through when it sends
    [request] to [handler] and follows every locale redirect it gets, at
    most [fuel] times. *)
Fixpoint localeRedirects (handler : Next.Request -> Next.Response) (fuel : nat)
    (request : Next.Request) : nat :=
  match fuel with
  | O => O
  | S fuel' =>
      if isLocaleRedirect request (handler request)
      then S (localeRedirects handler fuel'
                (Next.follow request (prefixedWithDefault request)))
      else O
  end.

(** The five security headers of the handler's step 4. *)
Definition securityHeaders : list (string * string) :=
  [ ("X-Frame-Options", "DENY");
    ("X-Content-Type-Options", "nosniff");
    ("Referrer-Policy", "strict-origin-when-cross-origin");
    ("X-XSS-Protection", "1; mode=block");
    ("Strict-Transport-Security", "max-age=31536000; includeSubDomains; preload") ].

(** A response carries a set of headers when each is there with its value. *)
Definition carries (expected : list (string * string)) (r : Next.Response) : bool :=
  forallb (fun p => bool_decide (Headers.get (fst p) (Next.responseHeaders r) = Some (snd p)))
          expected.

(** ** The bypass guard in words *)

(** An environment marker counts for the guard when it is set to a
    non-empty string. *)
Definition markerSet (env : gmap string string) (name : string) : Prop :=
  exists v, env !! name = Some v /\ v <> "".

(** The guard as the specification words it: development mode, the opt-in
    flag, a storage URL containing "localhost", and none of the three
    platform markers present in the environment. *)
Definition claimedBypassCondition (env : gmap string string) : Prop :=
  env !! "NODE_ENV" = Some "development"
  /\ env !! "DEV_DAL_BYPASS" = Some "true"
  /\ (exists pre post, env !! "DATABASE_URL" = Some (pre +:+ "localhost" +:+ post))
  /\ env !! "VERCEL_ENV" = None
  /\ env !! "RAILWAY_ENVIRONMENT" = None
  /\ env !! "HEROKU_APP_NAME" = None.

(** The events of session resolution: console output and the call to
    [auth()], never the entry into a fetcher or what a fetcher does. *)
Definition sessionEvent (ev : Event) : Prop :=
  match ev with
  | Invoke _ | FetcherDid _ => False
  | _ => True
  end.

(** ** Sample inputs *)

Module Sample.

(** A local development environment with the opt-in flag set. *)
Definition devEnv : gmap string string :=
  <["NODE_ENV" := "development"]>
    (<["DEV_DAL_BYPASS" := "true"]>
       (<["DATABASE_URL" := "postgresql://dev@localhost:5432/app"]> ∅)).

(** The same with the Vercel marker present but empty. *)
Definition devEnvEmptyMarker : gmap string string :=
  <["VERCEL_ENV" := ""]> devEnv.

(** A production environment. *)
Definition prodEnv : gmap string string :=
  <["NODE_ENV" := "production"]>
    (<["DATABASE_URL" := "postgresql://app@db.internal:5432/app"]> ∅).

Definition sessionOf (id role : string) : NextAuth.Session :=
  {| NextAuth.user :=
       Some {| NextAuth.id := Some id;
               NextAuth.email := Some "user@example.com";
               NextAuth.role := Some role |} |}.

(** A production request carrying the session of an ADMIN. *)
Definition adminWorld : World :=
  {| env := prodEnv; authResult := Returned (Some (sessionOf "u1" "ADMIN")) |}.

(** A production request without a session. *)
Definition anonymousWorld : World :=
  {| env := prodEnv; authResult := Returned None |}.

(** A fetcher that fails with a storage error naming a table. *)
Definition failingFetcher : Fetcher Z :=
  fun userId _ => (["SELECT"], Threw (JsError "relation users does not exist")).

(** A fetcher that succeeds. *)
Definition countingFetcher : Fetcher Z :=
  fun userId _ => (["SELECT count"], Returned 42).

(** A production request carrying the session of a BASIC user. *)
Definition basicWorld : World :=
  {| env := prodEnv; authResult := Returned (Some (sessionOf "u2" "BASIC")) |}.

(** Stand-ins for the form parser and the hash comparison: the parser
    wants an "@" in the email and a non-empty password, a hash is the
    password behind "hash:". *)
Definition parse (credentials : string * string) : option (string * string) :=
  if JS.includes (fst credentials) "@" && negb (String.eqb (snd credentials) "")
  then Some credentials else None.

Definition compare (password hash : string) : Outcome bool :=
  Returned (String.eqb ("hash:" +:+ password) hash).

Definition alice : Prisma.UserRow :=
  {| Prisma.id := "u1"; Prisma.email := "alice@example.com";
     Prisma.name := Some "Alice"; Prisma.password := Some "hash:correct horse";
     Prisma.role := "ADMIN" |}.

(** An identity table that holds Alice only. *)
Definition withAlice : AuthConfig.Surroundings :=
  {| AuthConfig.NODE_ENV := Some "production";
     AuthConfig.now := 1000;
     AuthConfig.findUnique :=
       fun email => Returned (if String.eqb email "alice@example.com"
                              then Some alice else None) |}.

(** An empty identity table. *)
Definition withNobody : AuthConfig.Surroundings :=
  {| AuthConfig.NODE_ENV := Some "production";
     AuthConfig.now := 1000;
     AuthConfig.findUnique := fun _ => Returned None |}.

Definition origin : Next.URL :=
  {| Next.origin := "https://app.example.com"; Next.pathname := "/";
     Next.searchParams := [] |}.

Definition requestTo (pathname : string) (headers : list (string * string))
    (auth : option NextAuth.Session) : Next.Request :=
  {| Next.nextUrl := Next.newURL pathname origin;
     Next.method := "GET";
     Next.headers := headers;
     Next.auth := auth |}.

(** A signed-in request for a dashboard page that carries the header the
    handler means to strip. *)
Definition forgedRequest : Next.Request :=
  requestTo "/es/dashboard"
    [("x-middleware-subrequest", "middleware:middleware:middleware:middleware:middleware");
     ("accept", "text/html")]
    (Some (sessionOf "u1" "ADMIN")).

(** A request for a path without a locale. *)
Definition plainRequest : Next.Request :=
  requestTo "/dashboard" [("accept", "text/html")] None.

(** Failed logins one minute apart, after a first one at time 0: five
    more for one email, with one for another email in between. *)
Definition laterCalls : list (Z * string) :=
  [ (60000, "user@example.com"); (120000, "other@example.com");
    (180000, "user@example.com"); (240000, "user@example.com");
    (300000, "user@example.com"); (360000, "user@example.com") ].

End Sample.

(** ** The rest of the data access layer *)

Module DalData.

(** The row [getCurrentUser] selects, and the [User] of [definitions.ts]. *)
Record User := {
  id : string;
  name : option string;
  email : string;
  role : string
}.

(** What the layer finds behind [prisma]: whether the client object is
    there at all, and the queries it makes on the identity table. A query
    returns or throws. *)
Record Db := {
  connected : bool;
  findUnique : string -> Outcome (option User);
  findFirst : string -> Outcome (option string);
  count : Outcome Z
}.

(** A query through [prisma]: reading a property of a missing client
    throws a [TypeError]. *)
Definition query {A} (db : Db) (result : Outcome A) : M A :=
  fun _ =>
    if connected db then ([], result)
    else ([], Threw (JsError "TypeError: Cannot read properties of undefined (reading 'user')")).

(** [process.env.NODE_ENV === 'development' && process.env.DEV_DAL_BYPASS
    === 'true'], the test the data functions make on their own. *)
Definition devFlags (env : gmap string string) : bool :=
  JS.strict_eq (env !! "NODE_ENV") "development"
  && JS.strict_eq (env !! "DEV_DAL_BYPASS") "true".

(** The simulated user of [getCurrentUser], under one of its two names. *)
Definition simulatedUser (env : gmap string string) (userId name : string) : User :=
  {| id := userId;
     name := Some name;
     email := JS.or_default (env !! "DEV_USER_EMAIL") "dev-dal-default@example.com";
     role := JS.or_default (env !! "DEV_USER_ROLE") "ADMIN" |}.

(** [getCurrentUser] *)
Definition getCurrentUser (db : Db) : M (option User) :=
  v <- Dal.verifySession ;;
  env <- getEnv ;;
  if devFlags env && negb (connected db) then
    emit (ConsoleWarn
            "DAL: getCurrentUser - No DB connected or bypass active. Returning simulated user.") ;;;
    ret (Some (simulatedUser env (Dal.userId v) "Dev Bypass User"))
  else
    try_catch
      (user <- query db (findUnique db (Dal.userId v)) ;;
       match user with
       | None =>
           if devFlags env then
             emit (ConsoleWarn ("DAL: getCurrentUser - Usuario con ID inyectado '"
                                +:+ Dal.userId v +:+ "' no encontrado en DB real.")) ;;;
             ret (Some (simulatedUser env (Dal.userId v) "Dev Bypass User (from DB check)"))
           else ret None
       | Some u => ret (Some u)
       end)
      (fun error =>
         emit (ConsoleError "DAL: getCurrentUser error (DB not connected or query failed):"
                 error) ;;;
         ret None).

(** The text of the warning of [getUserTenantData], a template literal
    without interpolations. *)
Definition noTenantAccessWarning : string :=
  "DAL: getUserTenantData - Usuario '<span class=" +:+ JS.dquote +:+ "math-inline"
  +:+ JS.dquote +:+ ">{userId}' no tiene acceso al tenant '</span>{tenantId}'."
  +:+ " Redirigiendo a /unauthorized.".

(** [getUserTenantData]: the pair stands for [{ userId, tenantId }]. The
    query is made outside any [try]. *)
Definition getUserTenantData (db : Db) (tenantId : string) : M (string * string) :=
  v <- Dal.verifySession ;;
  env <- getEnv ;;
  if devFlags env && negb (connected db) then
    emit (ConsoleWarn
            "DAL: getUserTenantData - No DB connected or bypass active. Simulating tenant access.") ;;;
    ret (Dal.userId v, tenantId)
  else
    userTenant <- query db (findFirst db (Dal.userId v)) ;;
    match userTenant with
    | None =>
        emit (ConsoleWarn noTenantAccessWarning) ;;;
        redirect "/unauthorized"
    | Some _ => ret (Dal.userId v, tenantId)
    end.

(** How an event of a nested computation shows when that computation runs
    inside a fetcher. *)
Definition describe (ev : Event) : string :=
  match ev with
  | ConsoleLog m => "console.log: " +:+ m
  | ConsoleWarn m => "console.warn: " +:+ m
  | ConsoleLogWith m _ => "console.log: " +:+ m
  | ConsoleError m _ => "console.error: " +:+ m
  | AuthCalled => "auth()"
  | Invoke u => "fetcher(" +:+ u +:+ ")"
  | FetcherDid e => e
  end.

(** A fetcher written as a computation of the layer. *)
Definition asFetcher {T} (body : string -> M T) : Fetcher T :=
  fun userId w => (map describe (trace (body userId w)), outcome (body userId w)).

(** [getDashboardData]: the returned user stands for [{ user }]. *)
Definition getDashboardData (db : Db) : M User :=
  Dal.getSecureData
    (asFetcher (fun userId =>
                  user <- getCurrentUser db ;;
                  match user with
                  | None => throw (JsError "User not found or simulated user failed")
                  | Some u => ret u
                  end)).

(** What [getAdminData] returns: the count, and the reports of the
    simulated answer. *)
Record AdminData := { totalUsers : Z; reports : option (list string) }.

(** The fetcher [getAdminData] hands to [getSecureData]. *)
Definition adminFetcher (db : Db) : Fetcher AdminData :=
  asFetcher (fun userId =>
               env <- getEnv ;;
               if devFlags env && negb (connected db) then
                 emit (ConsoleWarn
                         "DAL: getAdminData - No DB connected or bypass active. Returning simulated admin data.") ;;;
                 ret {| totalUsers := 999;
                        reports := Some ["Simulated Report 1"; "Simulated Report 2"] |}
               else
                 stats <- query db (count db) ;;
                 ret {| totalUsers := stats; reports := None |}).

(** [getAdminData], over the role table of the copy it sits in. *)
Definition getAdminDataIn (roleHierarchy : list (string * Z)) (db : Db) : M AdminData :=
  Dal.requireRoleIn roleHierarchy "ADMIN" ;;;
  Dal.getSecureData (adminFetcher db).

(** What [getBusinessData] and [getHIPAACompliantData] return: the selected
    [id] and [name] of a row, or the simulated object, which has one more
    property. *)
Record Selected := {
  selectedId : string;
  selectedName : option string;
  more : list (string * string)
}.

(** [select: { id: true, name: true }] *)
Definition selectIdName (u : User) : Selected :=
  {| selectedId := id u; selectedName := name u; more := [] |}.

(** [getBusinessData] of the six-tier copy. The fetcher ignores its
    argument and looks the resource up by [resourceId]. *)
Definition getBusinessData (db : Db) (resourceId : string) : M (option Selected) :=
  v <- Dal.verifySession ;;
  Dal.getSecureData
    (asFetcher (fun _ =>
                  env <- getEnv ;;
                  if devFlags env && negb (connected db) then
                    emit (ConsoleWarn
                            "DAL: getBusinessData - No DB connected or bypass active. Returning simulated data.") ;;;
                    ret (Some {| selectedId := resourceId;
                                 selectedName := Some "Simulated Resource";
                                 more := [("data", "Sample business data")] |})
                  else
                    row <- query db (findUnique db resourceId) ;;
                    ret (selectIdName <$> row))).

(** [verifyHIPAAAccess] of the template copy: a placeholder that grants. *)
Definition verifyHIPAAAccess (db : Db) (userId patientId : string) : M bool :=
  env <- getEnv ;;
  if devFlags env && negb (connected db) then ret true else ret true.

(** [logHIPAAAccess]; [timestamp] is [new Date().toISOString()]. *)
Definition logHIPAAAccess (timestamp userId patientId action : string) : M unit :=
  emit (ConsoleLog ("HIPAA ACCESS LOG: User " +:+ userId +:+ " performed " +:+ action
                    +:+ " on patient " +:+ patientId +:+ " at " +:+ timestamp)).

(** The fetcher [getHIPAACompliantData] hands to [getSecureData]; it
    ignores its argument and looks the patient up by [patientId]. *)
Definition patientFetcher (db : Db) (patientId : string) : Fetcher (option Selected) :=
  asFetcher (fun _ =>
               env <- getEnv ;;
               if devFlags env && negb (connected db) then
                 emit (ConsoleWarn
                         "DAL: getHIPAACompliantData - No DB connected or bypass active. Returning simulated PHI.") ;;;
                 ret (Some {| selectedId := patientId;
                              selectedName := Some "Simulated Patient";
                              more := [("diagnosis", "Simulated Diagnosis")] |})
               else
                 row <- query db (findUnique db patientId) ;;
                 ret (selectIdName <$> row)).

(** [getHIPAACompliantData] of the template copy. *)
Definition getHIPAACompliantData (db : Db) (timestamp patientId : string)
  : M (option Selected) :=
  v <- Dal.verifySession ;;
  hasAccess <- verifyHIPAAAccess db (Dal.userId v) patientId ;;
  (if negb hasAccess then
     emit (ConsoleWarn ("HIPAA: Unauthorized access attempt by user " +:+ Dal.userId v
                        +:+ " to patient " +:+ patientId)) ;;;
     redirect "/unauthorized"
   else ret tt) ;;;
  logHIPAAAccess timestamp (Dal.userId v) patientId "READ" ;;;
  Dal.getSecureData (patientFetcher db patientId).

(** The protected layout ([app/[locale]/(app)/layout.tsx]) up to the point
    where it renders: the triple stands for the rendered tree, which shows
    the locale and was reached with this [isAuth] and [userId]. *)
Definition AppProtectedLocaleLayout (locale : string) : M (string * bool * string) :=
  emit (ConsoleLog ("RENDER: app/[locale]/(app)/layout.tsx (Main App Layout) for locale: "
                    +:+ locale)) ;;;
  (if negb (JS.array_includes I18n.locales (Some locale)) then
     emit (ConsoleLog ("REDIRECT: app/[locale]/layout.tsx - Invalid locale: " +:+ locale
                       +:+ ". Redirecting to /es")) ;;;
     redirect "/es"
   else ret tt) ;;;
  emit (ConsoleLog "CALL: verifySession from app/[locale]/layout.tsx") ;;;
  v <- Dal.verifySession ;;
  emit (ConsoleLog ("AUTH_STATUS: User isAuth: "
                    +:+ (if Dal.isAuth v then "true" else "false")
                    +:+ ", userId: " +:+ Dal.userId v +:+ " in app/[locale]/layout.tsx")) ;;;
  ret (locale, Dal.isAuth v, Dal.userId v).

End DalData.

(** ** The callbacks of [auth.config.ts] *)

Module AuthCallbacks.

(** What the [authorized] callback answers: [true], [false], or a redirect
    response. *)
Inductive Authorized :=
| Allow
| Deny
| Respond (location : Next.URL).

(** [authorized({ auth, request: { nextUrl } })] *)
Definition authorized (auth : option NextAuth.Session) (nextUrl : Next.URL) : Authorized :=
  let isLoggedIn := bool_decide (is_Some (auth ≫= NextAuth.user)) in
  let isOnDashboard := JS.includes (Next.pathname nextUrl) "/dashboard" in
  let locale := JS.or_default (JS.split "/" (Next.pathname nextUrl) !! 1%nat) "es" in
  if isOnDashboard then
    if isLoggedIn then Allow else Deny
  else if isLoggedIn then
    Respond (Next.newURL ("/" +:+ locale +:+ "/dashboard") nextUrl)
  else Allow.

(** The part of the token and of the signed-in user the callbacks touch. *)
Record Token := { sub : option string; role : option string }.

(** [jwt({ token, user })]: [user] is there at sign-in only. *)
Definition jwt (token : Token) (user : option (option string)) : Token :=
  match user with
  | Some userRole => {| sub := sub token; role := userRole |}
  | None => token
  end.

(** [session({ session, token })], on the [user] of the session. *)
Definition session (user : NextAuth.User) (token : Token) : NextAuth.User :=
  if JS.truthy (role token)
  then {| NextAuth.id := NextAuth.id user;
          NextAuth.email := NextAuth.email user;
          NextAuth.role := role token |}
  else user.

(** The token after sign-in and [n] later calls of [jwt] without a user. *)
Fixpoint refreshed (n : nat) (token : Token) : Token :=
  match n with
  | O => token
  | S n' => refreshed n' (jwt token None)
  end.

End AuthCallbacks.

(** ** The session provider's wrapper around a handler *)

Module NextAuthMiddleware.

(** [finalResponse.headers.append("set-cookie", cookie)] for the cookies
    of the session response. *)
Definition appendCookies (cookies : list string) (r : Next.Response) : Next.Response :=
  {| Next.kind := Next.kind r;
     Next.responseHeaders :=
       Next.responseHeaders r ++ map (fun cookie => ("set-cookie", cookie)) cookies |}.

(** [auth(handler)], the middleware that [middleware.ts] exports. The
    wrapper resolves the session and asks the [authorized] callback of the
    configuration first. A response of the callback's own is the answer,
    and the handler is not run. Otherwise the handler runs on the request
    with [auth] set, after [true] and after [false] alike: the default
    redirect to the sign-in page is made only when no handler was given.
    The answer is copied and gets the session's cookies. [request.auth]
    already stands for the resolved session, and [Response.redirect(url)]
    for a redirect to [url] without further headers. *)
Definition auth
    (authorized : option NextAuth.Session -> Next.URL -> AuthCallbacks.Authorized)
    (cookies : list string) (handler : Next.Request -> Next.Response)
    (request : Next.Request) : Next.Response :=
  let response :=
    match authorized (Next.auth request) (Next.nextUrl request) with
    | AuthCallbacks.Respond location => Next.redirect location
    | AuthCallbacks.Allow | AuthCallbacks.Deny => handler request
    end in
  appendCookies cookies response.

(** The wrapper runs the handler on a request when the callback has no
    response of its own for it. *)
Definition runsHandler
    (authorized : option NextAuth.Session -> Next.URL -> AuthCallbacks.Authorized)
    (request : Next.Request) : bool :=
  match authorized (Next.auth request) (Next.nextUrl request) with
  | AuthCallbacks.Respond _ => false
  | AuthCallbacks.Allow | AuthCallbacks.Deny => true
  end.

(** A configuration without an [authorized] callback: the wrapper takes
    the request as authorized. *)
Definition noCallback (auth : option NextAuth.Session) (nextUrl : Next.URL)
  : AuthCallbacks.Authorized := AuthCallbacks.Allow.

End NextAuthMiddleware.

(** The edge request filter of the header-sanitizing copy, as exported:
    its handler inside the wrapper, with the callback of [auth.config.ts]. *)
Definition sifrexEdgeFilter (cookies : list string) : Next.Request -> Next.Response :=
  NextAuthMiddleware.auth AuthCallbacks.authorized cookies SifrexMiddleware.middleware.

(** The edge request filter of the template copy, as exported. The
    configuration its [auth] comes from is not among the sources, so its
    [authorized] callback is an argument. *)
Definition templateEdgeFilter
    (authorized : option NextAuth.Session -> Next.URL -> AuthCallbacks.Authorized)
    (cookies : list string) : Next.Request -> Next.Response :=
  NextAuthMiddleware.auth authorized cookies TemplateMiddleware.middleware.

(** ** Following the redirects of a handler *)

(** The number of redirects a client goes through, following each one with
    the same headers and session, until the handler lets the request pass;
    [None] when [fuel] redirects were not enough. *)
Fixpoint redirectsUntilPass (handler : Next.Request -> Next.Response) (fuel : nat)
    (request : Next.Request) : option nat :=
  match Next.kind (handler request) with
  | Next.Continue _ => Some O
  | Next.Redirect location =>
      match fuel with
      | O => None
      | S fuel' => S <$> redirectsUntilPass handler fuel' (Next.follow request location)
      end
  end.

(** The classification of a localized path by the two handlers. *)
Definition isPublicRoute (pathname : string) : bool :=
  existsb (JS.startsWith (I18n.getPathnameWithoutLocale pathname))
    SifrexMiddleware.publicRoutes.

Definition isProtectedRoute (pathname : string) : bool :=
  existsb (JS.startsWith (I18n.getPathnameWithoutLocale pathname))
    TemplateMiddleware.protectedRoutes.

Definition isAuthRoute (pathname : string) : bool :=
  existsb (JS.startsWith (I18n.getPathnameWithoutLocale pathname))
    TemplateMiddleware.authRoutes.

(** ** Server actions for authentication ([lib/actions/auth.ts]) *)

Module AuthActions.

(** What a call to the database layer or to [bcrypt] can throw: the
    client's known request error with its code, or anything else. *)
Inductive DbError :=
| KnownRequestError (code : string)
| OtherError (message : string).

Inductive Result (A : Type) :=
| Ok (a : A)
| Failed (e : DbError).
Arguments Ok {A} a.
Arguments Failed {A} e.

(** The [data] of [prisma.user.create]. *)
Record NewUser := { name : string; email : string; password : string; role : string }.

(** The calls an action makes, in order, and what it writes to the
    server console. *)
Inductive Call :=
| FindUnique (email : string)
| Hash (password : string) (rounds : Z)
| Create (data : NewUser)
| LogError (message : string) (e : DbError).

(** The identity table and the hash function behind the actions:
    [findUnique] gives the id of the row with an email, if any. *)
Record Backend := {
  findUnique : string -> Result (option string);
  hash : string -> Z -> Result string;
  create : NewUser -> Result unit
}.

(** [FormState]: field errors or a message. *)
Inductive FormState :=
| Errors (fieldErrors : list (string * list string))
| Message (message : string).

Definition emailTaken : string := "A user with this email already exists.".
Definition unexpected : string := "An unexpected error occurred. Please try again.".
Definition accountCreated : string := "Account created successfully! Please sign in.".
Definition resetSent : string :=
  "If an account exists with this email, you will receive password reset instructions.".

(** The [catch] of [signup]. *)
Definition signupCaught (error : DbError) : FormState :=
  match error with
  | KnownRequestError code =>
      if String.eqb code "P2002" then Message emailTaken else Message unexpected
  | OtherError _ => Message unexpected
  end.

Section Actions.

(** The form data and the two schema checks (zod): [SignupFormSchema]
    gives field errors or the parsed name, email and password;
    [z.string().email()] gives the email or fails. *)
Variable FormData : Type.
Variable parseSignup : FormData -> list (string * list string) + (string * string * string).
Variable parseEmail : string -> option string.

(** [signup] *)
Definition signup (formData : FormData) (b : Backend) : list Call * FormState :=
  match parseSignup formData with
  | inl fieldErrors => ([], Errors fieldErrors)
  | inr (name, email, password) =>
      match findUnique b email with
      | Failed e => ([FindUnique email; LogError "Signup error:" e], signupCaught e)
      | Ok (Some _) => ([FindUnique email], Message emailTaken)
      | Ok None =>
          match hash b password 12 with
          | Failed e =>
              ([FindUnique email; Hash password 12; LogError "Signup error:" e],
               signupCaught e)
          | Ok hashedPassword =>
              let data := {| name := name; email := email;
                             password := hashedPassword; role := "USER" |} in
              match create b data with
              | Failed e =>
                  ([FindUnique email; Hash password 12; Create data;
                    LogError "Signup error:" e],
                   signupCaught e)
              | Ok _ =>
                  ([FindUnique email; Hash password 12; Create data],
                   Message accountCreated)
              end
          end
      end
  end.

(** [checkEmailAvailability] *)
Definition checkEmailAvailability (email : string) (b : Backend) : list Call * bool :=
  match parseEmail email with
  | None => ([], false)
  | Some data =>
      match findUnique b data with
      | Ok existingUser => ([FindUnique data], negb (bool_decide (is_Some existingUser)))
      | Failed e =>
          ([FindUnique data; LogError "Email availability check error:" e], false)
      end
  end.

(** [requestPasswordReset] *)
Definition requestPasswordReset (email : string) (b : Backend) : list Call * FormState :=
  match parseEmail email with
  | None => ([], Errors [("email", ["Please enter a valid email address."])])
  | Some data =>
      match findUnique b data with
      | Ok None => ([FindUnique data], Message resetSent)
      | Ok (Some _) => ([FindUnique data], Message resetSent)
      | Failed e =>
          ([FindUnique data; LogError "Password reset request error:" e],
           Message unexpected)
      end
  end.

End Actions.

End AuthActions.

(** ** The shared database client ([lib/prisma.ts]) *)

Module PrismaModule.

(** What outlives an evaluation of the module: [globalThis.prisma], and
    how many clients have been constructed. A client is named by its
    construction number. *)
Record Globals := { prisma : option nat; constructed : nat }.

(** One evaluation of the module: the exported client and the globals
    afterwards. *)
Definition evaluate (NODE_ENV : option string) (g : Globals) : nat * Globals :=
  let '(client, g1) :=
    match prisma g with
    | Some c => (c, g)
    | None => (constructed g, {| prisma := None; constructed := S (constructed g) |})
    end in
  if negb (JS.strict_eq NODE_ENV "production")
  then (client, {| prisma := Some client; constructed := constructed g1 |})
  else (client, g1).

(** The clients exported by [n] evaluations in a row, and the globals
    afterwards. *)
Fixpoint evaluations (n : nat) (NODE_ENV : option string) (g : Globals)
  : list nat * Globals :=
  match n with
  | O => ([], g)
  | S n' =>
      let '(client, g1) := evaluate NODE_ENV g in
      let '(clients, g2) := evaluations n' NODE_ENV g1 in
      (client :: clients, g2)
  end.

End PrismaModule.

(** ** An invariant of the rate-limit store *)

(** Every stored counter has counted at least one attempt. *)
Definition countedStore (store : gmap string RateLimiting.Entry) : Prop :=
  forall key e, store !! key = Some e -> 1 <= RateLimiting.count e.

(** ** More sample inputs *)

Module Sample2.

(** A deployment on a hosting platform that still has the two development
    settings: the bypass guard is off, the settings are on. *)
Definition platformDevEnv : gmap string string :=
  <["VERCEL_ENV" := "preview"]>
    (<["NODE_ENV" := "development"]>
       (<["DEV_DAL_BYPASS" := "true"]>
          (<["DATABASE_URL" := "postgresql://app@db.internal:5432/app"]> ∅))).

(** A request of a BASIC user in that deployment. *)
Definition platformDevWorld : World :=
  {| env := platformDevEnv;
     authResult := Returned (Some (Sample.sessionOf "u9" "BASIC")) |}.

(** A database with one user, "u1". *)
Definition oneUserDb : DalData.Db :=
  {| DalData.connected := true;
     DalData.findUnique :=
       fun id => Returned (if String.eqb id "u1"
                           then Some {| DalData.id := "u1"; DalData.name := Some "Alice";
                                        DalData.email := "alice@example.com";
                                        DalData.role := "ADMIN" |}
                           else None);
     DalData.findFirst := fun id => Returned (if String.eqb id "u1" then Some "u1" else None);
     DalData.count := Returned 1 |}.

(** A database whose queries fail. *)
Definition brokenDb : DalData.Db :=
  {| DalData.connected := true;
     DalData.findUnique := fun _ => Threw (JsError "connection refused");
     DalData.findFirst := fun _ => Threw (JsError "connection refused");
     DalData.count := Threw (JsError "connection refused") |}.

(** Signed-in requests for the root and for a profile page, both without
    a locale. *)
Definition signedInRoot : Next.Request :=
  Sample.requestTo "/" [] (Some (Sample.sessionOf "u1" "ADMIN")).

Definition signedInProfile : Next.Request :=
  Sample.requestTo "/profile" [] (Some (Sample.sessionOf "u1" "ADMIN")).

(** A signed-in request for a path without a locale. *)
Definition signedInPlainRequest : Next.Request :=
  Sample.requestTo "/auth/signin" [] (Some (Sample.sessionOf "u1" "ADMIN")).

(** A form that is taken as it is, and the email check of
    [Sample.parse]. *)
Definition parseForm (form : string * string * string)
  : list (string * list string) + (string * string * string) :=
  inr form.

Definition parseEmail (email : string) : option string :=
  if JS.includes email "@" then Some email else None.

(** An identity table without rows, and one that has a row for every
    email; hashes are the password behind a fixed prefix. *)
Definition emptyBackend : AuthActions.Backend :=
  {| AuthActions.findUnique := fun _ => AuthActions.Ok None;
     AuthActions.hash := fun password _ => AuthActions.Ok ("$2a$12$" +:+ password);
     AuthActions.create := fun _ => AuthActions.Ok tt |}.

Definition fullBackend : AuthActions.Backend :=
  {| AuthActions.findUnique := fun _ => AuthActions.Ok (Some "u1");
     AuthActions.hash := fun password _ => AuthActions.Ok ("$2a$12$" +:+ password);
     AuthActions.create :=
       fun _ => AuthActions.Failed (AuthActions.KnownRequestError "P2002") |}.

(** A rate-limit store in which Alice's email has used its five attempts
    in a window that ends at 900000. *)
Definition exhaustedStore : gmap string RateLimiting.Entry :=
  <[RateLimiting.storeKey "alice@example.com" :=
      {| RateLimiting.count := 5; RateLimiting.resetTime := 900000 |}]> ∅.

End Sample2.

(** * Properties *)

(** ** The rate limiter *)

Section RateLimitingProperties.

Import RateLimiting.

Implicit Types (store : gmap string Entry) (calls : list (Z * string)).

Lemma storeKey_inj i j : storeKey i = storeKey j -> i = j.
Proof. unfold storeKey. apply String.app_inj. Qed.

(** After the initialisation step the entry is there, so the reads of
    [store[key]] that follow never meet [undefined]. *)
Lemma checkRateLimit_initialised now i store :
  is_Some (snd (checkRateLimit now i store) !! storeKey i).
Proof.
  unfold checkRateLimit; cbn [snd].
  rewrite lookup_alter_eq.
  destruct (store !! storeKey i) as [e|] eqn:He.
  - destruct (resetTime e <? now).
    + rewrite lookup_delete_eq, lookup_insert_eq. eauto.
    + rewrite He, He. eauto.
  - rewrite He, lookup_insert_eq. eauto.
Qed.

(** A call inside the window of a live entry counts one more attempt. *)
Lemma checkRateLimit_live now i store e :
  liveEntry now i store = Some e ->
  checkRateLimit now i store =
    (resultAt (count e + 1) (resetTime e), <[storeKey i := increment e]> store).
Proof.
  unfold liveEntry, checkRateLimit. intros H.
  destruct (store !! storeKey i) as [e0|] eqn:He; [|discriminate].
  destruct (resetTime e0 <? now); [discriminate|].
  injection H as ->. rewrite He.
  rewrite (alter_alt_Some _ _ _ _ He).
  unfold entryAt. rewrite lookup_insert_eq. reflexivity.
Qed.

(** A call that finds no entry, or an expired one, opens a window. *)
Lemma checkRateLimit_fresh now i store :
  liveEntry now i store = None ->
  checkRateLimit now i store =
    (resultAt 1 (now + RATE_LIMIT_WINDOW),
     <[storeKey i := {| count := 1; resetTime := now + RATE_LIMIT_WINDOW |}]> store).
Proof.
  unfold liveEntry, checkRateLimit. intros H.
  destruct (store !! storeKey i) as [e0|] eqn:He.
  - destruct (resetTime e0 <? now); [|discriminate].
    rewrite lookup_delete_eq, alter_insert_eq, insert_delete_eq.
    unfold entryAt. rewrite lookup_insert_eq. reflexivity.
  - rewrite He, alter_insert_eq.
    unfold entryAt. rewrite lookup_insert_eq. reflexivity.
Qed.

(** Either way the call writes the entry of its own identifier only. *)
Lemma checkRateLimit_writes now i store :
  exists e', snd (checkRateLimit now i store) = <[storeKey i := e']> store.
Proof.
  destruct (liveEntry now i store) as [e|] eqn:H.
  - rewrite (checkRateLimit_live _ _ _ _ H). eauto.
  - rewrite (checkRateLimit_fresh _ _ _ H). eauto.
Qed.

Lemma checkRateLimit_other now i j store :
  i <> j ->
  snd (checkRateLimit now i store) !! storeKey j = store !! storeKey j.
Proof.
  intros Hne. destruct (checkRateLimit_writes now i store) as [e' ->].
  apply lookup_insert_ne. intros H. apply Hne, storeKey_inj, H.
Qed.

Lemma run_cons now i calls store :
  run ((now, i) :: calls) store =
    ((i, fst (checkRateLimit now i store))
       :: fst (run calls (snd (checkRateLimit now i store))),
     snd (run calls (snd (checkRateLimit now i store)))).
Proof.
  cbn [run]. destruct (checkRateLimit now i store) as [r s'].
  cbn [fst snd]. destruct (run calls s') as [rs s'']. reflexivity.
Qed.

(** Inside one window the k-th further call of an identifier sees the
    counter at [count e + k + 1], whatever is asked about other
    identifiers in between. *)
Lemma run_in_window i calls : forall store e,
  store !! storeKey i = Some e ->
  Forall (fun c => snd c = i -> fst c <= resetTime e) calls ->
  resultsFor i (fst (run calls store)) =
    imap (fun k _ => resultAt (count e + Z.of_nat k + 1) (resetTime e)) (callsFor i calls).
Proof.
  induction calls as [|[now j] calls IH]; intros store e He Hall; [reflexivity|].
  rewrite run_cons. cbn [fst resultsFor callsFor List.filter snd].
  inversion Hall as [|? ? Hhd Htl]; subst.
  destruct (String.eqb_spec j i) as [->|Hne].
  - assert (Hlive : liveEntry now i store = Some e).
    { unfold liveEntry. rewrite He. cbn [fst snd] in Hhd.
      destruct (Z.ltb_spec (resetTime e) now); [specialize (Hhd eq_refl); lia|reflexivity]. }
    rewrite (checkRateLimit_live _ _ _ _ Hlive). cbn [fst snd].
    rewrite (IH _ (increment e)); [|apply lookup_insert_eq|exact Htl].
    cbn [imap]. f_equal.
    + f_equal. lia.
    + apply imap_ext. intros k c _. cbn. f_equal. lia.
  - apply (IH _ e); [|exact Htl].
    rewrite checkRateLimit_other; [exact He|exact Hne].
Qed.

Lemma resultsFor_window_lookup i calls store e k r :
  store !! storeKey i = Some e ->
  Forall (fun c => snd c = i -> fst c <= resetTime e) calls ->
  resultsFor i (fst (run calls store)) !! k = Some r ->
  r = resultAt (count e + Z.of_nat k + 1) (resetTime e).
Proof.
  intros He Hall. rewrite (run_in_window _ _ _ _ He Hall).
  rewrite list_lookup_imap.
  destruct (callsFor i calls !! k); cbn; congruence.
Qed.

Lemma resultsFor_window_length i calls store e :
  store !! storeKey i = Some e ->
  Forall (fun c => snd c = i -> fst c <= resetTime e) calls ->
  length (resultsFor i (fst (run calls store))) = length (callsFor i calls).
Proof.
  intros He Hall. rewrite (run_in_window _ _ _ _ He Hall). apply length_imap.
Qed.

Lemma resultAt_antitone c d reset reset' :
  c <= d ->
  remaining (resultAt d reset') <= remaining (resultAt c reset)
  /\ (allowed (resultAt c reset) = false -> allowed (resultAt d reset') = false).
Proof.
  intros Hcd. unfold resultAt, MAX_ATTEMPTS; cbn. split; [lia|].
  intros H. apply Z.leb_gt in H. apply Z.leb_gt. lia.
Qed.

(** C3. Starting where an identifier has no live entry at time [t0], the
    call at [t0] opens a window that lasts until [t0 + 15 min]; of the
    calls made for that identifier inside the window (calls for other
    identifiers may come in between) exactly the first five are allowed
    and the k-th leaves [max 0 (5 - k)] attempts, so the sixth is
    rejected with nothing remaining. A call made after the reset
    timestamp of an entry behaves as if the entry were not there: no
    attempt is counted so far, the call is allowed with four attempts
    remaining, and a new window starts at the time of the call. *)
Theorem rate_limit_window i store t0 calls :
  liveEntry t0 i store = None ->
  Forall (fun c => snd c = i -> fst c <= t0 + RATE_LIMIT_WINDOW) calls ->
  RATE_LIMIT_WINDOW = 900000
  /\ length (resultsFor i (fst (run ((t0, i) :: calls) store)))
     = S (length (callsFor i calls))
  /\ (forall k r,
        resultsFor i (fst (run ((t0, i) :: calls) store)) !! k = Some r ->
        allowed r = bool_decide (k < 5)%nat
        /\ remaining r = Z.max 0 (4 - Z.of_nat k)
        /\ resultResetTime r = t0 + RATE_LIMIT_WINDOW
        /\ (k = 5%nat -> allowed r = false /\ remaining r = 0))
  /\ (forall now store' e,
        store' !! storeKey i = Some e ->
        resetTime e < now ->
        attemptsSoFar now i store' = 0
        /\ checkRateLimit now i store' = checkRateLimit now i (delete (storeKey i) store')
        /\ fst (checkRateLimit now i store')
           = {| allowed := true; remaining := 4;
                resultResetTime := now + RATE_LIMIT_WINDOW |}
        /\ snd (checkRateLimit now i store') !! storeKey i
           = Some {| count := 1; resetTime := now + RATE_LIMIT_WINDOW |}).
Proof.
  intros Hfresh Hall.
  set (e1 := {| count := 1; resetTime := t0 + RATE_LIMIT_WINDOW |}).
  assert (Hrun : resultsFor i (fst (run ((t0, i) :: calls) store))
                 = resultAt 1 (t0 + RATE_LIMIT_WINDOW)
                     :: resultsFor i (fst (run calls (<[storeKey i := e1]> store)))).
  { rewrite run_cons, (checkRateLimit_fresh _ _ _ Hfresh). cbn [fst snd resultsFor].
    rewrite String.eqb_refl. reflexivity. }
  assert (He1 : <[storeKey i := e1]> store !! storeKey i = Some e1)
    by apply lookup_insert_eq.
  split; [reflexivity|]. split; [|split].
  - rewrite Hrun. cbn [length]. f_equal.
    apply (resultsFor_window_length _ _ _ e1 He1). exact Hall.
  - intros k r. rewrite Hrun. destruct k as [|k]; cbn [lookup list_lookup].
    + intros [= <-]. cbn. do 3 (split; [reflexivity|]). intros [=].
    + intros Hk.
      rewrite (resultsFor_window_lookup _ _ _ e1 _ _ He1 Hall Hk).
      unfold resultAt, MAX_ATTEMPTS; cbn [allowed remaining resultResetTime count resetTime e1].
      split; [|split; [|split]].
      * case_bool_decide; [apply Z.leb_le|apply Z.leb_gt]; lia.
      * lia.
      * reflexivity.
      * intros [= ->]. split; reflexivity.
  - intros now store' e He Hexp.
    assert (Hnone : liveEntry now i store' = None).
    { unfold liveEntry. rewrite He. apply Z.ltb_lt in Hexp. rewrite Hexp. reflexivity. }
    assert (Hnone' : liveEntry now i (delete (storeKey i) store') = None).
    { unfold liveEntry. rewrite lookup_delete_eq. reflexivity. }
    split; [unfold attemptsSoFar; rewrite Hnone; reflexivity|].
    rewrite (checkRateLimit_fresh _ _ _ Hnone), (checkRateLimit_fresh _ _ _ Hnone').
    cbn [fst snd]. rewrite insert_delete_eq, lookup_insert_eq.
    repeat split; reflexivity.
Qed.

(** C10. Every call, allowed or not, leaves the identifier's counter one
    above the attempts counted so far in its window, and so changes the
    store. Among a call and the later calls for the same identifier that
    fall before the reset timestamp it returned (with calls for other
    identifiers in between), [remaining] never goes up and a rejection is
    never followed by an allowed call. The statement is about sequences
    of [checkRateLimit] calls; [resetRateLimit] is not part of them. *)
Theorem rate_limit_counts_every_call i store now calls :
  (snd (checkRateLimit now i store) !! storeKey i
     = Some {| count := attemptsSoFar now i store + 1;
               resetTime := resultResetTime (fst (checkRateLimit now i store)) |}
   /\ snd (checkRateLimit now i store) <> store)
  /\ (Forall (fun c => snd c = i ->
                       fst c <= resultResetTime (fst (checkRateLimit now i store))) calls ->
      forall m n a b,
        (m <= n)%nat ->
        (fst (checkRateLimit now i store)
           :: resultsFor i (fst (run calls (snd (checkRateLimit now i store))))) !! m = Some a ->
        (fst (checkRateLimit now i store)
           :: resultsFor i (fst (run calls (snd (checkRateLimit now i store))))) !! n = Some b ->
        remaining b <= remaining a /\ (allowed a = false -> allowed b = false)).
Proof.
  assert (Hshape : exists e',
             checkRateLimit now i store
             = (resultAt (count e') (resetTime e'), <[storeKey i := e']> store)
             /\ count e' = attemptsSoFar now i store + 1
             /\ store !! storeKey i <> Some e').
  { unfold attemptsSoFar. destruct (liveEntry now i store) as [e|] eqn:Hlive.
    - exists (increment e). rewrite (checkRateLimit_live _ _ _ _ Hlive).
      repeat split. unfold liveEntry in Hlive.
      destruct (store !! storeKey i) as [e0|]; [|discriminate].
      destruct (resetTime e0 <? now); [discriminate|].
      injection Hlive as ->. intros [= H]. unfold increment in H.
      destruct e as [c t]; cbn in H. injection H as H. lia.
    - exists {| count := 1; resetTime := now + RATE_LIMIT_WINDOW |}.
      rewrite (checkRateLimit_fresh _ _ _ Hlive). repeat split.
      unfold liveEntry in Hlive.
      destruct (store !! storeKey i) as [e0|]; [|discriminate].
      destruct (Z.ltb_spec (resetTime e0) now); [|discriminate].
      intros [= ->]. cbn in *. unfold RATE_LIMIT_WINDOW in *. lia. }
  destruct Hshape as (e' & -> & Hcount & Hneq). cbn [fst snd resultResetTime resultAt].
  split.
  - split.
    + rewrite lookup_insert_eq, <- Hcount. destruct e'; reflexivity.
    + intros Heq. apply Hneq. rewrite <- Heq at 1. apply lookup_insert_eq.
  - intros Hall m n a b Hmn Ha Hb.
    assert (He' : <[storeKey i := e']> store !! storeKey i = Some e')
      by apply lookup_insert_eq.
    assert (Hat : forall k r,
               (resultAt (count e') (resetTime e')
                  :: resultsFor i (fst (run calls (<[storeKey i := e']> store)))) !! k = Some r ->
               r = resultAt (count e' + Z.of_nat k) (resetTime e')).
    { intros [|k] r; cbn [lookup list_lookup].
      - intros [= <-]. f_equal. lia.
      - intros Hk. rewrite (resultsFor_window_lookup _ _ _ e' _ _ He' Hall Hk).
        f_equal. lia. }
    rewrite (Hat _ _ Ha), (Hat _ _ Hb).
    apply resultAt_antitone. lia.
Qed.

End RateLimitingProperties.

(** ** Strings *)

Section StringFacts.

Lemma startsWith_spec s p :
  JS.startsWith s p = true <-> exists r, s = p +:+ r.
Proof.
  unfold JS.startsWith. revert s.
  induction p as [|a p IH]; intros s; cbn.
  - split; [intros _; exists s; reflexivity|intros _; destruct s; reflexivity].
  - destruct s as [|b s]; cbn.
    + split; [discriminate|intros [r [=]]].
    + destruct (ascii_dec a b) as [->|Hne].
      * rewrite IH. split; intros [r Hr]; exists r; [rewrite Hr; reflexivity|].
        injection Hr as ->. reflexivity.
      * split; [discriminate|intros [r [= -> _]]; contradiction].
Qed.

Lemma includes_spec s sub :
  JS.includes s sub = true <-> exists pre post, s = pre +:+ sub +:+ post.
Proof.
  induction s as [|a s IH]; cbn [JS.includes].
  - rewrite orb_false_r. fold (JS.startsWith "" sub). rewrite startsWith_spec.
    split.
    + intros [r Hr]. exists "", r. exact Hr.
    + intros (pre & post & H). destruct pre; cbn in H; [eauto|discriminate].
  - rewrite orb_true_iff, IH. fold (JS.startsWith (String a s) sub).
    rewrite startsWith_spec. split.
    + intros [[r Hr]|(pre & post & H)].
      * exists "", r. exact Hr.
      * exists (String a pre), post. cbn. rewrite H. reflexivity.
    + intros (pre & post & H). destruct pre as [|b pre]; cbn in H.
      * left. eauto.
      * right. injection H as -> ->. eauto.
Qed.

Lemma truthy_false v : JS.truthy v = false <-> v = None \/ v = Some "".
Proof.
  destruct v as [s|]; cbn.
  - rewrite negb_false_iff, String.eqb_eq. split; [intros ->; auto|].
    intros [[=]|[= ->]]. reflexivity.
  - split; auto.
Qed.

Lemma strict_eq_spec v s : JS.strict_eq v s = true <-> v = Some s.
Proof.
  destruct v as [s'|]; cbn.
  - rewrite String.eqb_eq. split; [intros ->; reflexivity|intros [= ->]; reflexivity].
  - split; discriminate.
Qed.

End StringFacts.

(** ** The session resolver and the role gate *)

Section DalProperties.

Import Dal.

(** The guard is the conjunction of its six operands. *)
Lemma isDevelopmentBypass_guards env :
  isDevelopmentBypass env = forallb (fun b : bool => b) (bypassGuards env).
Proof.
  unfold isDevelopmentBypass, bypassGuards. cbn [forallb].
  rewrite andb_true_r, !andb_assoc. reflexivity.
Qed.

(** What the resolver does on the bypass path. *)
Lemma verifySession_bypass w :
  isDevelopmentBypass (env w) = true ->
  exists message,
    verifySession w =
      ([ConsoleLog "DAL: verifySession called"; ConsoleLog message],
       Returned (bypassIdentity (env w))).
Proof.
  intros H. unfold verifySession, bind, emit, getEnv, ret. cbn.
  rewrite H. cbn. eauto.
Qed.

(** What the resolver does on the normal path. *)
Lemma verifySession_normal w :
  isDevelopmentBypass (env w) = false ->
  exists rest, trace (verifySession w)
               = ConsoleLog "DAL: verifySession called" :: AuthCalled :: rest.
Proof.
  intros H. unfold verifySession, bind, emit, getEnv, ret, auth, trace. cbn.
  rewrite H. cbn. destruct (authResult w) as [session|e]; cbn; [|eauto].
  destruct (sessionUserId session); cbn; eauto.
Qed.

(** The resolver only logs and calls [auth()]: it never enters a fetcher. *)
Lemma verifySession_events w : Forall sessionEvent (trace (verifySession w)).
Proof.
  unfold verifySession, bind, emit, getEnv, ret, auth, redirect, throw, trace. cbn.
  destruct (isDevelopmentBypass (env w)); cbn.
  - repeat constructor.
  - destruct (authResult w) as [session|e]; cbn; [|repeat constructor].
    destruct (sessionUserId session); cbn; repeat constructor.
Qed.

(** The bypass is off as soon as one operand of the guard is false. *)
Lemma bypass_off_when_guard_false env k :
  bypassGuards env !! k = Some false -> isDevelopmentBypass env = false.
Proof.
  intros Hk. rewrite isDevelopmentBypass_guards.
  apply not_true_is_false. intros Hall. rewrite forallb_forall in Hall.
  apply list_elem_of_lookup_2, list_elem_of_In in Hk. specialize (Hall _ Hk). discriminate.
Qed.

(** C2, as the code has it. The bypass is active exactly when the run
    mode is 'development', the opt-in flag is 'true', the storage URL
    contains "localhost" and none of the three platform markers is set
    to a non-empty string. These are the six operands of the guard, and
    the bypass is off as soon as any one of them is false: whatever the
    rest of the environment, it is off after the run mode or the flag is
    set to another value, after the storage URL is set to one without
    "localhost", after any of these three is unset, and after any marker
    is set to a non-empty string. When the bypass is active the resolver
    returns the identity built from the configuration without calling
    [auth()]; when it is not, the resolver goes on to call [auth()]. *)
Theorem bypass_guard env :
  (isDevelopmentBypass env = true <->
     env !! "NODE_ENV" = Some "development"
     /\ env !! "DEV_DAL_BYPASS" = Some "true"
     /\ (exists pre post, env !! "DATABASE_URL" = Some (pre +:+ "localhost" +:+ post))
     /\ ~ markerSet env "VERCEL_ENV"
     /\ ~ markerSet env "RAILWAY_ENVIRONMENT"
     /\ ~ markerSet env "HEROKU_APP_NAME")
  /\ length (bypassGuards env) = 6%nat
  /\ (forall k, bypassGuards env !! k = Some false -> isDevelopmentBypass env = false)
  /\ ((forall v, v <> "development" -> isDevelopmentBypass (<["NODE_ENV" := v]> env) = false)
      /\ (forall v, v <> "true" -> isDevelopmentBypass (<["DEV_DAL_BYPASS" := v]> env) = false)
      /\ (forall v, JS.includes v "localhost" = false ->
                    isDevelopmentBypass (<["DATABASE_URL" := v]> env) = false)
      /\ isDevelopmentBypass (delete "NODE_ENV" env) = false
      /\ isDevelopmentBypass (delete "DEV_DAL_BYPASS" env) = false
      /\ isDevelopmentBypass (delete "DATABASE_URL" env) = false
      /\ (forall v, v <> "" -> isDevelopmentBypass (<["VERCEL_ENV" := v]> env) = false)
      /\ (forall v, v <> "" -> isDevelopmentBypass (<["RAILWAY_ENVIRONMENT" := v]> env) = false)
      /\ (forall v, v <> "" -> isDevelopmentBypass (<["HEROKU_APP_NAME" := v]> env) = false))
  /\ (forall w, Eff.env w = env ->
        if isDevelopmentBypass env
        then outcome (verifySession w) = Returned (bypassIdentity env)
             /\ AuthCalled ∉ trace (verifySession w)
        else AuthCalled ∈ trace (verifySession w)).
Proof.
  assert (Hmarker : forall name,
             negb (JS.truthy (env !! name)) = true <-> ~ markerSet env name).
  { intros name. rewrite negb_true_iff, truthy_false. unfold markerSet. split.
    - intros [H|H] (v & Hv & Hne); rewrite H in Hv; [discriminate|].
      injection Hv as <-. apply Hne. reflexivity.
    - intros H. destruct (env !! name) as [v|]; [|auto].
      destruct (String.eqb_spec v "") as [->|Hne]; [auto|].
      exfalso. apply H. eauto. }
  split; [|split; [reflexivity|split; [|split]]].
  - unfold isDevelopmentBypass. rewrite !andb_true_iff, !strict_eq_spec, !Hmarker.
    assert (Hurl : match env !! "DATABASE_URL" with
                   | Some url => JS.includes url "localhost"
                   | None => false
                   end = true
                   <-> exists pre post,
                         env !! "DATABASE_URL" = Some (pre +:+ "localhost" +:+ post)).
    { destruct (env !! "DATABASE_URL") as [url|].
      - rewrite includes_spec. split; intros (pre & post & H); exists pre, post; congruence.
      - split; [discriminate|intros (? & ? & [=])]. }
    rewrite Hurl. tauto.
  - apply bypass_off_when_guard_false.
  - repeat split.
    + intros v Hv. apply (bypass_off_when_guard_false _ 0%nat). cbn.
      rewrite lookup_insert_eq. cbn. f_equal. apply String.eqb_neq. exact Hv.
    + intros v Hv. apply (bypass_off_when_guard_false _ 1%nat). cbn.
      rewrite lookup_insert_eq. cbn. f_equal. apply String.eqb_neq. exact Hv.
    + intros v Hv. apply (bypass_off_when_guard_false _ 2%nat). cbn.
      rewrite lookup_insert_eq. f_equal. exact Hv.
    + apply (bypass_off_when_guard_false _ 0%nat). cbn.
      rewrite lookup_delete_eq. reflexivity.
    + apply (bypass_off_when_guard_false _ 1%nat). cbn.
      rewrite lookup_delete_eq. reflexivity.
    + apply (bypass_off_when_guard_false _ 2%nat). cbn.
      rewrite lookup_delete_eq. reflexivity.
    + intros v Hv. apply (bypass_off_when_guard_false _ 3%nat). cbn.
      rewrite lookup_insert_eq. cbn. apply String.eqb_neq in Hv. rewrite Hv. reflexivity.
    + intros v Hv. apply (bypass_off_when_guard_false _ 4%nat). cbn.
      rewrite lookup_insert_eq. cbn. apply String.eqb_neq in Hv. rewrite Hv. reflexivity.
    + intros v Hv. apply (bypass_off_when_guard_false _ 5%nat). cbn.
      rewrite lookup_insert_eq. cbn. apply String.eqb_neq in Hv. rewrite Hv. reflexivity.
  - intros w <-. destruct (isDevelopmentBypass (env w)) eqn:Hb.
    + destruct (verifySession_bypass w Hb) as [message ->]. cbn. split; [reflexivity|].
      rewrite !elem_of_cons, elem_of_nil. intros [H|[H|[]]]; discriminate.
    + destruct (verifySession_normal w Hb) as [rest ->].
      rewrite !elem_of_cons. auto.
Qed.

(** C2 as stated does not hold: with the Vercel marker present but empty
    the bypass is active although a platform marker is present, and the
    guard has six operands, not five. *)
Lemma bypass_guard_counterexample :
  isDevelopmentBypass Sample.devEnvEmptyMarker = true
  /\ Sample.devEnvEmptyMarker !! "VERCEL_ENV" = Some ""
  /\ ~ claimedBypassCondition Sample.devEnvEmptyMarker
  /\ length (bypassGuards Sample.devEnvEmptyMarker) <> 5%nat.
Proof.
  assert (H : Sample.devEnvEmptyMarker !! "VERCEL_ENV" = Some "") by reflexivity.
  split; [vm_compute; reflexivity|]. split; [exact H|]. split.
  - intros (_ & _ & _ & Hv & _). rewrite H in Hv. discriminate.
  - cbn. lia.
Qed.

(** The outcome of the gate once the session is resolved: the two tests
    of the source, in order. *)
Lemma requireRoleIn_outcome roleHierarchy requiredRole w t v :
  verifySession w = (t, Returned v) ->
  outcome (requireRoleIn roleHierarchy requiredRole w) =
    if negb (JS.array_includes (map fst roleHierarchy) (userRole v))
    then Threw (NextRedirect "/unauthorized")
    else if JS.lt (userRole v ≫= rankOf roleHierarchy) (rankOf roleHierarchy requiredRole)
         then Threw (NextRedirect "/unauthorized")
         else Returned true.
Proof.
  intros Hv. unfold requireRoleIn, bind, outcome. rewrite Hv.
  destruct (negb (JS.array_includes (map fst roleHierarchy) (userRole v))); cbn;
    [reflexivity|].
  destruct (JS.lt (userRole v ≫= rankOf roleHierarchy) (rankOf roleHierarchy requiredRole));
    reflexivity.
Qed.

(** A label is among the keys of the table exactly when it has a rank. *)
Lemma rankOf_includes roleHierarchy a :
  JS.array_includes (map fst roleHierarchy) (Some a) = true
  <-> is_Some (rankOf roleHierarchy a).
Proof.
  cbn. induction roleHierarchy as [|[k n] rest IH]; cbn.
  - split; [discriminate|intros [? [=]]].
  - rewrite (String.eqb_sym a k). destruct (String.eqb k a); cbn; [|exact IH].
    split; eauto.
Qed.

(** For any table: two ranked labels pass the gate exactly when the
    session's rank is at least the required one. *)
Lemma requireRoleIn_ranked roleHierarchy a b ra rb w t v :
  verifySession w = (t, Returned v) ->
  userRole v = Some a ->
  rankOf roleHierarchy a = Some ra ->
  rankOf roleHierarchy b = Some rb ->
  outcome (requireRoleIn roleHierarchy b w) =
    if ra <? rb then Threw (NextRedirect "/unauthorized") else Returned true.
Proof.
  intros Hv Ha Hra Hrb. rewrite (requireRoleIn_outcome _ _ _ _ _ Hv), Ha.
  assert (Hin : JS.array_includes (map fst roleHierarchy) (Some a) = true).
  { apply rankOf_includes. rewrite Hra. eauto. }
  rewrite Hin. cbn. rewrite Hra, Hrb. reflexivity.
Qed.

Lemma requireRoleIn_unranked roleHierarchy b w t v :
  verifySession w = (t, Returned v) ->
  (forall a, userRole v = Some a -> rankOf roleHierarchy a = None) ->
  outcome (requireRoleIn roleHierarchy b w) = Threw (NextRedirect "/unauthorized").
Proof.
  intros Hv Hno. rewrite (requireRoleIn_outcome _ _ _ _ _ Hv).
  destruct (userRole v) as [a|] eqn:Ha; [|reflexivity].
  destruct (JS.array_includes (map fst roleHierarchy) (Some a)) eqn:Hin; [|reflexivity].
  apply rankOf_includes in Hin. rewrite (Hno a eq_refl) in Hin. destruct Hin as [? [=]].
Qed.

Lemma sifrex_rankOf_label r : rankOf SifrexDal.roleHierarchy (label r) = Some (rank r).
Proof. destruct r; reflexivity. Qed.

Lemma sifrex_rankOf_recognized a n :
  rankOf SifrexDal.roleHierarchy a = Some n -> recognized (Some a).
Proof.
  unfold SifrexDal.roleHierarchy. cbn [rankOf]. unfold recognized.
  repeat match goal with
         | |- context [String.eqb ?k a] =>
             destruct (String.eqb_spec k a) as [<-|_];
             [intros _;
              first [ exists BASIC; reflexivity | exists PLUS; reflexivity
                    | exists PREMIUM; reflexivity | exists PREMIUM_PLUS; reflexivity
                    | exists ADMIN; reflexivity | exists SUPER_ADMIN; reflexivity ]|]
         end.
  discriminate.
Qed.

(** C1. With the session resolved to role [a], the six-tier gate for a
    required role [b] of the six labels returns [true] exactly when
    [rank a >= rank b]; when [rank a < rank b] it does not return but
    redirects to "/unauthorized", and so it does when the session's role
    is not one of the six labels (or is missing). The ranks are those of
    the table in the source. *)
Theorem role_gate w t v (b : Role) :
  verifySession w = (t, Returned v) ->
  (forall a : Role,
      userRole v = Some (label a) ->
      (outcome (SifrexDal.requireRole (label b) w) = Returned true <-> rank a >= rank b)
      /\ (rank a < rank b ->
          outcome (SifrexDal.requireRole (label b) w) = Threw (NextRedirect "/unauthorized")))
  /\ (~ recognized (userRole v) ->
      outcome (SifrexDal.requireRole (label b) w) = Threw (NextRedirect "/unauthorized"))
  /\ (forall r, rankOf SifrexDal.roleHierarchy (label r) = Some (rank r)).
Proof.
  intros Hv. unfold SifrexDal.requireRole. split; [|split].
  - intros a Ha.
    rewrite (requireRoleIn_ranked _ _ _ _ _ _ _ _ Hv Ha
               (sifrex_rankOf_label a) (sifrex_rankOf_label b)).
    destruct (Z.ltb_spec (rank a) (rank b)).
    + split; [|reflexivity]. split; [discriminate|lia].
    + split; [|lia]. split; [lia|reflexivity].
  - intros Hnot. apply (requireRoleIn_unranked _ _ _ _ _ Hv).
    intros a Ha. destruct (rankOf SifrexDal.roleHierarchy a) as [n|] eqn:Hn; [|reflexivity].
    exfalso. apply Hnot. rewrite Ha. exact (sifrex_rankOf_recognized _ _ Hn).
  - exact sifrex_rankOf_label.
Qed.

(** The same gate over the three-tier table of the template copy. *)
Lemma template_role_gate a b ra rb w t v :
  verifySession w = (t, Returned v) ->
  userRole v = Some a ->
  rankOf TemplateDal.roleHierarchy a = Some ra ->
  rankOf TemplateDal.roleHierarchy b = Some rb ->
  (outcome (TemplateDal.requireRole b w) = Returned true <-> ra >= rb).
Proof.
  intros Hv Ha Hra Hrb. unfold TemplateDal.requireRole.
  rewrite (requireRoleIn_ranked _ _ _ _ _ _ _ _ Hv Ha Hra Hrb).
  destruct (Z.ltb_spec ra rb); split; try discriminate; try lia; reflexivity.
Qed.

End DalProperties.

(** ** The data-fetch template *)

Section SecureDataProperties.

Import Dal.

Context {T : Type}.
Implicit Types (dataFetcher : Fetcher T) (w : World).

Lemma getSecureData_redirected dataFetcher w t e :
  verifySession w = (t, Threw e) ->
  getSecureData dataFetcher w = (t, Threw e).
Proof. intros Hv. unfold getSecureData, bind. rewrite Hv. reflexivity. Qed.

Lemma getSecureData_returned dataFetcher w t v effects x :
  verifySession w = (t, Returned v) ->
  dataFetcher (userId v) w = (effects, Returned x) ->
  getSecureData dataFetcher w
  = (t ++ Invoke (userId v) :: map FetcherDid effects, Returned x).
Proof.
  intros Hv Hf. unfold getSecureData, bind, try_catch, call. rewrite Hv, Hf.
  reflexivity.
Qed.

Lemma getSecureData_threw dataFetcher w t v effects e :
  verifySession w = (t, Returned v) ->
  dataFetcher (userId v) w = (effects, Threw e) ->
  getSecureData dataFetcher w
  = (t ++ (Invoke (userId v) :: map FetcherDid effects)
       ++ [ConsoleError "DAL: Secure data fetch error:" e],
     Threw (JsError "Data access denied")).
Proof.
  intros Hv Hf. unfold getSecureData, bind, try_catch, call, emit, throw.
  rewrite Hv, Hf. reflexivity.
Qed.

Lemma fetcher_effects_not_invoke (effects : list string) :
  Forall (fun ev => forall uid, ev <> Invoke uid) (map FetcherDid effects).
Proof. induction effects; cbn; constructor; [discriminate|assumption]. Qed.

(** After a successful resolution the trace continues with the entry
    into the fetcher, and nothing later enters it again. *)
Lemma getSecureData_resolved dataFetcher w t v :
  verifySession w = (t, Returned v) ->
  exists tail,
    trace (getSecureData dataFetcher w) = t ++ Invoke (userId v) :: tail
    /\ Forall (fun ev => forall uid, ev <> Invoke uid) tail.
Proof.
  intros Hv. destruct (dataFetcher (userId v) w) as [effects [x|e]] eqn:Hf.
  - rewrite (getSecureData_returned _ _ _ _ _ _ Hv Hf). eexists. split; [reflexivity|].
    apply fetcher_effects_not_invoke.
  - rewrite (getSecureData_threw _ _ _ _ _ _ Hv Hf). eexists. split; [reflexivity|].
    apply Forall_app. split; [apply fetcher_effects_not_invoke|].
    repeat constructor. discriminate.
Qed.

(** Where an event that is not of the resolver sits in a trace that
    starts with the resolver's events. *)
Lemma split_after_session (t l pre post : list Event) ev :
  Forall sessionEvent t ->
  ~ sessionEvent ev ->
  t ++ l = pre ++ ev :: post ->
  exists mid, pre = t ++ mid /\ l = mid ++ ev :: post.
Proof.
  intros Ht Hev. revert pre. induction Ht as [|a t Ha Ht IH]; intros pre H.
  - exists pre. split; [reflexivity|exact H].
  - destruct pre as [|a' pre]; cbn in H; injection H as -> H.
    + contradiction.
    + destruct (IH pre H) as (mid & -> & ->). exists mid. split; reflexivity.
Qed.

(** C5. If session resolution ends in a redirect (or any throw),
    [getSecureData] ends the same way with the resolver's trace alone:
    the fetcher is never entered. If it succeeds, the fetcher is entered
    next, with the resolved user id. In every trace, whatever belongs to
    the fetcher (its entry or anything it does) comes after the complete
    trace of a successful resolution, the first such event being the
    entry with the user id that resolution produced. *)
Theorem fetcher_only_after_session dataFetcher w :
  (forall t e,
      verifySession w = (t, Threw e) ->
      getSecureData dataFetcher w = (t, Threw e)
      /\ Forall sessionEvent (trace (getSecureData dataFetcher w)))
  /\ (forall t v,
        verifySession w = (t, Returned v) ->
        exists tail, trace (getSecureData dataFetcher w) = t ++ Invoke (userId v) :: tail)
  /\ (forall pre ev post,
        trace (getSecureData dataFetcher w) = pre ++ ev :: post ->
        ~ sessionEvent ev ->
        exists t v rest,
          verifySession w = (t, Returned v)
          /\ pre ++ [ev] = t ++ Invoke (userId v) :: rest
          /\ (forall uid, ev = Invoke uid -> uid = userId v /\ pre = t)).
Proof.
  split; [|split].
  - intros t e Hv. rewrite (getSecureData_redirected _ _ _ _ Hv). split; [reflexivity|].
    pose proof (verifySession_events w) as H. rewrite Hv in H. exact H.
  - intros t v Hv. destruct (getSecureData_resolved dataFetcher w t v Hv) as (tail & H & _).
    eauto.
  - intros pre ev post Htrace Hev.
    pose proof (verifySession_events w) as Hsession.
    destruct (verifySession w) as [t [v|e]] eqn:Hv; cbn [trace fst] in Hsession.
    + destruct (getSecureData_resolved dataFetcher w t v Hv) as (tail & Htr & Htail).
      rewrite Htr in Htrace.
      destruct (split_after_session _ _ _ _ _ Hsession Hev Htrace) as (mid & -> & Hmid).
      exists t, v. destruct mid as [|m mid]; cbn in Hmid; injection Hmid as Hm Hmid.
      * exists []. subst ev. split; [reflexivity|]. split; [rewrite app_nil_r; reflexivity|].
        intros uid [= ->]. rewrite app_nil_r. split; reflexivity.
      * exists (mid ++ [ev]). subst m. split; [reflexivity|].
        split; [rewrite <- app_assoc; reflexivity|].
        intros uid ->. exfalso. rewrite Hmid in Htail.
        apply Forall_app in Htail as [_ Htail]. inversion Htail as [|? ? Hno _]; subst.
        exact (Hno uid eq_refl).
    + rewrite (getSecureData_redirected _ _ _ _ Hv) in Htrace. cbn [trace fst] in Htrace.
      exfalso. apply Hev. rewrite Htrace in Hsession.
      apply Forall_app in Hsession as [_ Hsession]. inversion Hsession; assumption.
Qed.

(** C6. When the fetcher throws, whatever it throws, [getSecureData]
    throws the one error 'Data access denied'; what the fetcher threw is
    written to the server console and is no part of the outcome. *)
Theorem fetcher_error_replaced dataFetcher w t v effects e :
  verifySession w = (t, Returned v) ->
  dataFetcher (userId v) w = (effects, Threw e) ->
  outcome (getSecureData dataFetcher w) = Threw (JsError "Data access denied")
  /\ trace (getSecureData dataFetcher w)
     = t ++ (Invoke (userId v) :: map FetcherDid effects)
         ++ [ConsoleError "DAL: Secure data fetch error:" e].
Proof.
  intros Hv Hf. rewrite (getSecureData_threw _ _ _ _ _ _ Hv Hf). split; reflexivity.
Qed.

End SecureDataProperties.

(** A fetcher that fails with a storage error: the caller gets the generic
    error only. *)
Lemma fetcher_error_replaced_witness :
  outcome (Dal.getSecureData Sample.failingFetcher Sample.adminWorld)
  = Threw (JsError "Data access denied").
Proof.
  refine (proj1 (fetcher_error_replaced Sample.failingFetcher Sample.adminWorld
                   _ _ _ _ _ _)); vm_compute; reflexivity.
Defined.

(** An anonymous request is redirected to the sign-in page and the fetcher
    is not entered; with a session the fetcher is entered with its id. *)
Lemma fetcher_only_after_session_witness :
  Dal.getSecureData Sample.countingFetcher Sample.anonymousWorld
  = (trace (Dal.verifySession Sample.anonymousWorld), Threw (NextRedirect "/es/signin"))
  /\ exists tail,
       trace (Dal.getSecureData Sample.countingFetcher Sample.adminWorld)
       = trace (Dal.verifySession Sample.adminWorld) ++ Invoke "u1" :: tail.
Proof.
  split.
  - refine (proj1 (proj1 (fetcher_only_after_session Sample.countingFetcher
                            Sample.anonymousWorld) _ _ _)).
    vm_compute; reflexivity.
  - refine (proj1 (proj2 (fetcher_only_after_session Sample.countingFetcher
                            Sample.adminWorld)) _
              {| Dal.isAuth := true; Dal.userId := "u1";
                 Dal.userEmail := Some "user@example.com";
                 Dal.userRole := Some "ADMIN" |} _).
    vm_compute; reflexivity.
Defined.

(** The spec's example: an ADMIN passes a PREMIUM gate. *)
Lemma role_gate_witness :
  outcome (SifrexDal.requireRole "PREMIUM" Sample.adminWorld) = Returned true.
Proof.
  refine (proj2 (proj1 (proj1 (role_gate Sample.adminWorld _ _ PREMIUM _) ADMIN _)) _).
  - vm_compute; reflexivity.
  - reflexivity.
  - cbn; lia.
Defined.

(** A BASIC user at an ADMIN gate is sent to "/unauthorized". *)
Example role_gate_basic_at_admin :
  outcome (SifrexDal.requireRole "ADMIN" Sample.basicWorld)
  = Threw (NextRedirect "/unauthorized").
Proof. vm_compute; reflexivity. Qed.

(** The local environment with the flag set takes the bypass path. *)
Lemma bypass_guard_witness :
  Dal.isDevelopmentBypass Sample.devEnv = true
  /\ outcome (Dal.verifySession {| env := Sample.devEnv; authResult := Returned None |})
     = Returned (Dal.bypassIdentity Sample.devEnv).
Proof.
  pose proof (bypass_guard Sample.devEnv) as (Hiff & _ & _ & _ & Hw).
  assert (Hb : Dal.isDevelopmentBypass Sample.devEnv = true).
  { apply Hiff. split; [reflexivity|]. split; [reflexivity|].
    split; [exists "postgresql://dev@", ":5432/app"; reflexivity|].
    repeat split; intros (v & Hv & _); discriminate. }
  split; [exact Hb|].
  specialize (Hw {| env := Sample.devEnv; authResult := Returned None |} eq_refl).
  rewrite Hb in Hw. exact (proj1 Hw).
Defined.

(** ** The credential verifier *)

Section AuthorizeProperties.

Import AuthConfig.

Variable Credentials : Type.
Variable safeParse : Credentials -> option (string * string).
Variable bcryptCompare : string -> string -> Outcome bool.

Local Abbreviation authorize := (authorize Credentials safeParse bcryptCompare).

(** The rate limiter is consulted first and does not look at the
    identity table. *)
Lemma authorize_store credentials email password w store :
  safeParse credentials = Some (email, password) ->
  snd (authorize credentials w store)
  = snd (RateLimiting.checkRateLimit (now w) email store).
Proof.
  intros Hp. unfold AuthConfig.authorize. rewrite Hp.
  destruct (RateLimiting.checkRateLimit (now w) email store) as [r store'].
  destruct (negb (RateLimiting.allowed r)); [reflexivity|].
  destruct (findUnique w email) as [[user|]|e]; try reflexivity.
  destruct (Prisma.password user) as [hash|]; [|reflexivity].
  destruct (String.eqb hash ""); [reflexivity|].
  destruct (bcryptCompare password hash) as [[|]|e]; reflexivity.
Qed.

(** C4. For credentials that pass the form check, made at the same time
    on the same rate-limit store, a table without the email and a table
    where the email has a password hash that does not match give the
    same thing back: [null], and the same rate-limit store. *)
Theorem authorize_uniform_failure credentials email password w1 w2 store user hash :
  safeParse credentials = Some (email, password) ->
  now w1 = now w2 ->
  findUnique w1 email = Returned None ->
  findUnique w2 email = Returned (Some user) ->
  Prisma.password user = Some hash ->
  hash <> "" ->
  bcryptCompare password hash = Returned false ->
  snd (fst (authorize credentials w1 store)) = None
  /\ snd (fst (authorize credentials w2 store)) = None
  /\ snd (authorize credentials w1 store) = snd (authorize credentials w2 store).
Proof.
  intros Hp Hnow H1 H2 Hpw Hne Hcmp.
  split; [|split].
  - unfold AuthConfig.authorize. rewrite Hp.
    destruct (RateLimiting.checkRateLimit (now w1) email store) as [r store'].
    destruct (negb (RateLimiting.allowed r)); [reflexivity|]. rewrite H1. reflexivity.
  - unfold AuthConfig.authorize. rewrite Hp.
    destruct (RateLimiting.checkRateLimit (now w2) email store) as [r store'].
    destruct (negb (RateLimiting.allowed r)); [reflexivity|]. rewrite H2, Hpw.
    apply String.eqb_neq in Hne. rewrite Hne, Hcmp. reflexivity.
  - rewrite !(authorize_store _ _ _ _ _ Hp), Hnow. reflexivity.
Qed.

(** Only a matching password makes [authorize] return a user. *)
Lemma authorize_success credentials w store u :
  snd (fst (authorize credentials w store)) = Some u ->
  exists email password user hash,
    safeParse credentials = Some (email, password)
    /\ findUnique w email = Returned (Some user)
    /\ Prisma.password user = Some hash
    /\ bcryptCompare password hash = Returned true
    /\ u = {| id := Prisma.id user; email := Prisma.email user;
              name := Prisma.name user; role := Prisma.role user |}.
Proof.
  unfold AuthConfig.authorize.
  destruct (safeParse credentials) as [[email password]|]; [|discriminate].
  destruct (RateLimiting.checkRateLimit (now w) email store) as [r store'].
  destruct (negb (RateLimiting.allowed r)); [discriminate|].
  destruct (findUnique w email) as [[user|]|e] eqn:Hf; try discriminate.
  destruct (Prisma.password user) as [hash|] eqn:Hpw; [|discriminate].
  destruct (String.eqb hash ""); [discriminate|].
  destruct (bcryptCompare password hash) as [[|]|e] eqn:Hc; try discriminate.
  cbn. intros [= <-]. exists email, password, user, hash. repeat split; assumption.
Qed.

End AuthorizeProperties.

(** An unknown email and Alice's email with a wrong password fail alike. *)
Lemma authorize_uniform_failure_witness :
  snd (fst (AuthConfig.authorize _ Sample.parse Sample.compare
              ("alice@example.com", "wrong") Sample.withNobody ∅)) = None
  /\ snd (fst (AuthConfig.authorize _ Sample.parse Sample.compare
                 ("alice@example.com", "wrong") Sample.withAlice ∅)) = None.
Proof.
  pose proof (authorize_uniform_failure _ Sample.parse Sample.compare
                ("alice@example.com", "wrong") "alice@example.com" "wrong"
                Sample.withNobody Sample.withAlice ∅ Sample.alice "hash:correct horse"
                eq_refl eq_refl eq_refl eq_refl eq_refl ltac:(discriminate) eq_refl)
    as (H1 & H2 & _).
  split; assumption.
Defined.

(** ** The edge request filter *)

Section MiddlewareProperties.

Import I18n.

Implicit Types (request : Next.Request) (p : string).

(** A path has a locale when it is "/es" or "/en" or continues one of
    them with a slash. *)
Lemma pathnameHasLocale_cases p :
  pathnameHasLocale p = true <->
  (exists r, p = "/es/" +:+ r) \/ p = "/es" \/ (exists r, p = "/en/" +:+ r) \/ p = "/en".
Proof.
  unfold pathnameHasLocale, locales. cbn [existsb].
  rewrite orb_false_r, !orb_true_iff, !startsWith_spec, !String.eqb_eq. cbn. tauto.
Qed.

(** Then its first segment is that locale, which is what the handler
    takes as the current locale. *)
Lemma firstSegment_locale p :
  pathnameHasLocale p = true -> firstSegment p = "es" \/ firstSegment p = "en".
Proof.
  rewrite pathnameHasLocale_cases. unfold firstSegment.
  intros [ [r ->] | [ -> | [ [r ->] | -> ] ] ]; cbn; auto.
Qed.

(** The first segment of a path is a supported locale exactly when the
    handler's prefix test says so. *)
Lemma localized_has_locale request :
  JS.startsWith (Next.pathname (Next.nextUrl request)) "/" = true ->
  pathnameHasLocale (Next.pathname (localized defaultLocale request)) = true.
Proof.
  rewrite startsWith_spec. intros [r Hr]. apply pathnameHasLocale_cases. left.
  exists r. unfold localized, defaultLocale. cbn. rewrite Hr. reflexivity.
Qed.

Lemma sifrex_without_locale request :
  pathnameHasLocale (Next.pathname (Next.nextUrl request)) = false ->
  SifrexMiddleware.middleware request = Next.redirect (localized defaultLocale request).
Proof. intros H. unfold SifrexMiddleware.middleware. rewrite H. reflexivity. Qed.

Lemma template_without_locale request :
  pathnameHasLocale (Next.pathname (Next.nextUrl request)) = false ->
  TemplateMiddleware.middleware request = Next.redirect (localized defaultLocale request).
Proof. intros H. unfold TemplateMiddleware.middleware. rewrite H. reflexivity. Qed.

(** The redirect to the dashboard of a localized path is not the locale
    redirect of that path. *)
Lemma dashboard_not_localized request :
  pathnameHasLocale (Next.pathname (Next.nextUrl request)) = true ->
  Next.newURL ("/" +:+ firstSegment (Next.pathname (Next.nextUrl request)) +:+ "/dashboard")
    (Next.nextUrl request)
  <> localized defaultLocale request.
Proof.
  intros H Heq. unfold localized, Next.newURL, defaultLocale in Heq.
  injection Heq as Heq. revert Heq.
  apply pathnameHasLocale_cases in H.
  destruct H as [ [r ->] | [ -> | [ [r ->] | -> ] ] ]; cbn; discriminate.
Qed.

Lemma sifrex_with_locale request :
  pathnameHasLocale (Next.pathname (Next.nextUrl request)) = true ->
  isLocaleRedirect request (SifrexMiddleware.middleware request) = false.
Proof.
  intros H. unfold isLocaleRedirect.
  change (prefixedWithDefault request) with (localized defaultLocale request).
  apply bool_decide_eq_false.
  unfold SifrexMiddleware.middleware. rewrite H. cbn [negb].
  destruct (negb _ && negb _); [cbn; intros [= _ Hq]; discriminate|].
  destruct (_ && _); [|cbn; discriminate].
  unfold Next.redirect. cbn [Next.kind]. intros Heq.
  apply (dashboard_not_localized request H). congruence.
Qed.

Lemma template_with_locale request :
  pathnameHasLocale (Next.pathname (Next.nextUrl request)) = true ->
  isLocaleRedirect request (TemplateMiddleware.middleware request) = false.
Proof.
  intros H. unfold isLocaleRedirect.
  change (prefixedWithDefault request) with (localized defaultLocale request).
  apply bool_decide_eq_false.
  unfold TemplateMiddleware.middleware. rewrite H. cbn [negb].
  destruct (_ && negb _); [cbn; intros [= _ Hq]; discriminate|].
  destruct (_ && _); [|cbn; discriminate].
  unfold Next.redirect. cbn [Next.kind]. intros Heq.
  apply (dashboard_not_localized request H). congruence.
Qed.

(** Joining the segments of a string gives the string back. *)
Lemma split_nonempty sep s : JS.split sep s <> [].
Proof.
  destruct s as [|a s]; cbn; [discriminate|].
  destruct (Ascii.eqb a sep); [discriminate|].
  destruct (JS.split sep s); discriminate.
Qed.

Lemma join_cons sep x l :
  l <> [] -> JS.join sep (x :: l) = x +:+ sep +:+ JS.join sep l.
Proof. destruct l; [contradiction|reflexivity]. Qed.

Lemma join_split sep s : JS.join (String sep "") (JS.split sep s) = s.
Proof.
  induction s as [|a s IH]; [reflexivity|]. cbn [JS.split].
  pose proof (split_nonempty sep s) as Hne.
  destruct (Ascii.eqb_spec a sep) as [->|_].
  - rewrite (join_cons _ _ _ Hne), IH. reflexivity.
  - destruct (JS.split sep s) as [|h t]; [contradiction|].
    destruct t as [|h' t].
    + cbn in *. rewrite IH. reflexivity.
    + rewrite join_cons in IH |- * by discriminate. rewrite <- IH. reflexivity.
Qed.

(** For a path that starts with a slash the prefix test of the handler
    and the test on the first segment (the one [getPathnameWithoutLocale]
    makes) agree. *)
Lemma pathnameHasLocale_first_segment p :
  JS.startsWith p "/" = true ->
  pathnameHasLocale p = true
  <-> JS.array_includes locales (JS.split "/" p !! 1%nat) = true.
Proof.
  rewrite startsWith_spec. intros [r Hr].
  change ("/" +:+ r) with (String "/" r) in Hr. subst p. split.
  - rewrite pathnameHasLocale_cases.
    intros [ [s H] | [ H | [ [s H] | H ] ] ]; cbn in H; injection H as ->; reflexivity.
  - cbn [JS.split]. change (Ascii.eqb "/" "/") with true. cbn [lookup list_lookup].
    pose proof (join_split "/" r) as Hj. pose proof (split_nonempty "/" r) as Hne.
    destruct (JS.split "/" r) as [|h t]; [contradiction|]. cbn [lookup list_lookup].
    unfold JS.array_includes, locales. cbn [existsb].
    rewrite orb_false_r, orb_true_iff, !String.eqb_eq.
    intros Hh. apply pathnameHasLocale_cases.
    destruct t as [|h' t]; [cbn in Hj|rewrite join_cons in Hj by discriminate]; subst r.
    + destruct Hh as [->| ->]; cbn; auto.
    + destruct Hh as [->| ->]; cbn; eauto.
Qed.

(** The prefix test of the handlers is the one of the claim: "es" or
    "en" behind a slash, alone or followed by a slash. *)
Lemma carriesSupportedPrefix_spec p : carriesSupportedPrefix p = pathnameHasLocale p.
Proof.
  unfold carriesSupportedPrefix, pathnameHasLocale, locales. cbn [existsb].
  change ("/" +:+ "es" +:+ "/") with "/es/". change ("/" +:+ "es") with "/es".
  change ("/" +:+ "en" +:+ "/") with "/en/". change ("/" +:+ "en") with "/en".
  destruct (String.eqb p "/es"), (JS.startsWith p "/es/"),
    (String.eqb p "/en"), (JS.startsWith p "/en/"); reflexivity.
Qed.

(** Whether a response is a locale redirect hangs on its kind alone, and
    the wrapper's cookies leave the kind. *)
Lemma isLocaleRedirect_appendCookies request cookies r :
  isLocaleRedirect request (NextAuthMiddleware.appendCookies cookies r)
  = isLocaleRedirect request r.
Proof. reflexivity. Qed.

Lemma auth_runsHandler authorized cookies handler request :
  NextAuthMiddleware.runsHandler authorized request = true ->
  NextAuthMiddleware.auth authorized cookies handler request
  = NextAuthMiddleware.appendCookies cookies (handler request).
Proof.
  unfold NextAuthMiddleware.runsHandler, NextAuthMiddleware.auth.
  destruct (authorized _ _); [reflexivity|reflexivity|discriminate].
Qed.

(** The callback of [auth.config.ts] leaves a request to the handler
    unless it is signed in and off the dashboard. *)
Lemma authorized_runsHandler request :
  NextAuthMiddleware.runsHandler AuthCallbacks.authorized request = true
  <-> (Next.auth request ≫= NextAuth.user = None
       \/ JS.includes (Next.pathname (Next.nextUrl request)) "/dashboard" = true).
Proof.
  unfold NextAuthMiddleware.runsHandler, AuthCallbacks.authorized.
  destruct (JS.includes _ "/dashboard").
  - case_bool_decide; split; auto.
  - case_bool_decide as Hu; split; try discriminate; auto.
    + intros [Hnone|]; [|discriminate]. rewrite Hnone in Hu. destruct Hu as [u Hu].
      discriminate.
    + intros _. left. destruct (Next.auth request ≫= NextAuth.user) as [u|] eqn:Hsome;
        [exfalso; apply Hu; eauto|reflexivity].
Qed.

(** On a path with a locale the callback's locale is that first segment,
    so its redirect goes to a dashboard and is no locale redirect. *)
Lemma authorized_not_locale_redirect request location :
  pathnameHasLocale (Next.pathname (Next.nextUrl request)) = true ->
  AuthCallbacks.authorized (Next.auth request) (Next.nextUrl request)
  = AuthCallbacks.Respond location ->
  isLocaleRedirect request (Next.redirect location) = false.
Proof.
  intros Hloc Ha. unfold isLocaleRedirect.
  change (prefixedWithDefault request) with (localized defaultLocale request).
  apply bool_decide_eq_false. cbn [Next.kind Next.redirect]. intros Heq.
  apply (dashboard_not_localized request Hloc).
  injection Heq as <-. unfold AuthCallbacks.authorized in Ha.
  destruct (JS.includes _ "/dashboard"); [destruct (bool_decide _); discriminate|].
  destruct (bool_decide _); [|discriminate]. injection Ha as <-.
  f_equal. f_equal. f_equal.
  apply pathnameHasLocale_cases in Hloc. unfold firstSegment.
  destruct Hloc as [ [r ->] | [ -> | [ [r ->] | -> ] ] ]; reflexivity.
Qed.

Lemma sifrexEdgeFilter_with_locale request cookies :
  pathnameHasLocale (Next.pathname (Next.nextUrl request)) = true ->
  isLocaleRedirect request (sifrexEdgeFilter cookies request) = false.
Proof.
  intros Hloc. unfold sifrexEdgeFilter, NextAuthMiddleware.auth.
  rewrite isLocaleRedirect_appendCookies.
  destruct (AuthCallbacks.authorized _ _) as [| |location] eqn:Ha.
  - exact (sifrex_with_locale request Hloc).
  - exact (sifrex_with_locale request Hloc).
  - exact (authorized_not_locale_redirect request location Hloc Ha).
Qed.

(** Counting the locale redirects a client follows. *)
Lemma localeRedirects_none handler fuel request :
  isLocaleRedirect request (handler request) = false ->
  localeRedirects handler fuel request = 0%nat.
Proof. intros H. destruct fuel; [reflexivity|]. cbn [localeRedirects]. rewrite H. reflexivity. Qed.

Lemma localeRedirects_one handler fuel request :
  isLocaleRedirect request (handler request) = true ->
  isLocaleRedirect (Next.follow request (prefixedWithDefault request))
    (handler (Next.follow request (prefixedWithDefault request))) = false ->
  localeRedirects handler (S fuel) request = 1%nat.
Proof.
  intros H1 H2. cbn [localeRedirects]. rewrite H1.
  rewrite (localeRedirects_none handler fuel _ H2). reflexivity.
Qed.

(** C8, as amended. The exported filter is the handler inside the session
    provider's wrapper, and the wrapper asks the [authorized] callback
    first. For a request the callback leaves to the handler (with the
    callback of [auth.config.ts]: every request that is not signed in or
    whose path contains "/dashboard") and whose path, which starts with a
    slash, carries neither "es" nor "en" as its prefix, the filter answers
    with a redirect to the same path behind "/es"; that target carries a
    supported prefix, and a client that follows locale redirects goes
    through exactly one. A request whose path carries "es" or "en" gets no
    locale redirect, from the handler or from the callback. The template's
    callback is not among the sources: its filter is covered for every
    callback, on the requests that callback leaves to the handler. The
    locale-only [middleware] has no wrapper and is covered for every
    request. *)
Theorem locale_redirect_once request cookies :
  JS.startsWith (Next.pathname (Next.nextUrl request)) "/" = true ->
  (NextAuthMiddleware.runsHandler AuthCallbacks.authorized request = true
   <-> (Next.auth request ≫= NextAuth.user = None
        \/ JS.includes (Next.pathname (Next.nextUrl request)) "/dashboard" = true))
  /\ (carriesSupportedPrefix (Next.pathname (Next.nextUrl request)) = false ->
      carriesSupportedPrefix (Next.pathname (prefixedWithDefault request)) = true
      /\ LocaleMiddleware.middleware request
         = Some (Next.redirect (prefixedWithDefault request))
      /\ (NextAuthMiddleware.runsHandler AuthCallbacks.authorized request = true ->
          Next.kind (sifrexEdgeFilter cookies request)
          = Next.Redirect
              {| Next.origin := Next.origin (Next.nextUrl request);
                 Next.pathname := "/es" +:+ Next.pathname (Next.nextUrl request);
                 Next.searchParams := [] |}
          /\ forall fuel,
               localeRedirects (sifrexEdgeFilter cookies) (S fuel) request = 1%nat)
      /\ (forall authorized,
            NextAuthMiddleware.runsHandler authorized request = true ->
            Next.kind (templateEdgeFilter authorized cookies request)
            = Next.Redirect
                {| Next.origin := Next.origin (Next.nextUrl request);
                   Next.pathname := "/es" +:+ Next.pathname (Next.nextUrl request);
                   Next.searchParams := [] |}
            /\ (NextAuthMiddleware.runsHandler authorized
                  (Next.follow request (prefixedWithDefault request)) = true ->
                forall fuel,
                  localeRedirects (templateEdgeFilter authorized cookies) (S fuel) request
                  = 1%nat)))
  /\ (carriesSupportedPrefix (Next.pathname (Next.nextUrl request)) = true ->
      isLocaleRedirect request (sifrexEdgeFilter cookies request) = false
      /\ LocaleMiddleware.middleware request = None
      /\ (forall fuel, localeRedirects (sifrexEdgeFilter cookies) fuel request = 0%nat)
      /\ (forall authorized,
            NextAuthMiddleware.runsHandler authorized request = true ->
            isLocaleRedirect request (templateEdgeFilter authorized cookies request) = false
            /\ forall fuel,
                 localeRedirects (templateEdgeFilter authorized cookies) fuel request
                 = 0%nat)).
Proof.
  intros Hslash. rewrite carriesSupportedPrefix_spec.
  split; [exact (authorized_runsHandler request)|]. split.
  - intros Hno.
    assert (pathnameHasLocale (Next.pathname (prefixedWithDefault request)) = true)
      as Htarget by exact (localized_has_locale request Hslash).
    split; [rewrite carriesSupportedPrefix_spec; exact Htarget|].
    split; [unfold LocaleMiddleware.middleware; rewrite Hno; reflexivity|].
    split.
    + intros Hruns.
      assert (Next.kind (sifrexEdgeFilter cookies request)
              = Next.Redirect (prefixedWithDefault request)) as Hkind.
      { unfold sifrexEdgeFilter. rewrite (auth_runsHandler _ _ _ _ Hruns).
        rewrite (sifrex_without_locale request Hno). reflexivity. }
      split; [exact Hkind|]. intros fuel. apply localeRedirects_one.
      * unfold isLocaleRedirect. rewrite Hkind. apply bool_decide_eq_true_2. reflexivity.
      * apply sifrexEdgeFilter_with_locale. exact Htarget.
    + intros authorized Hruns.
      assert (Next.kind (templateEdgeFilter authorized cookies request)
              = Next.Redirect (prefixedWithDefault request)) as Hkind.
      { unfold templateEdgeFilter. rewrite (auth_runsHandler _ _ _ _ Hruns).
        rewrite (template_without_locale request Hno). reflexivity. }
      split; [exact Hkind|]. intros Hruns' fuel. apply localeRedirects_one.
      * unfold isLocaleRedirect. rewrite Hkind. apply bool_decide_eq_true_2. reflexivity.
      * unfold templateEdgeFilter. rewrite (auth_runsHandler _ _ _ _ Hruns').
        rewrite isLocaleRedirect_appendCookies. apply template_with_locale. exact Htarget.
  - intros Hhas.
    pose proof (sifrexEdgeFilter_with_locale request cookies Hhas) as Hs.
    split; [exact Hs|].
    split; [unfold LocaleMiddleware.middleware; rewrite Hhas; reflexivity|].
    split; [intros fuel; exact (localeRedirects_none _ fuel request Hs)|].
    intros authorized Hruns.
    assert (isLocaleRedirect request (templateEdgeFilter authorized cookies request) = false)
      as Ht.
    { unfold templateEdgeFilter. rewrite (auth_runsHandler _ _ _ _ Hruns).
      rewrite isLocaleRedirect_appendCookies. exact (template_with_locale request Hhas). }
    split; [exact Ht|]. intros fuel. exact (localeRedirects_none _ fuel request Ht).
Qed.

End MiddlewareProperties.

(** An unauthenticated request for "/dashboard" is redirected once, to
    "/es/dashboard", by the filter of either copy (the template's taken
    without a callback). *)
Lemma locale_redirect_once_witness :
  Next.kind (sifrexEdgeFilter ["authjs.csrf-token=abc"] Sample.plainRequest)
  = Next.Redirect (Next.newURL "/es/dashboard" Sample.origin)
  /\ localeRedirects (sifrexEdgeFilter ["authjs.csrf-token=abc"]) 3 Sample.plainRequest
     = 1%nat
  /\ localeRedirects
       (templateEdgeFilter NextAuthMiddleware.noCallback ["authjs.csrf-token=abc"]) 3
       Sample.plainRequest
     = 1%nat.
Proof.
  destruct (locale_redirect_once Sample.plainRequest ["authjs.csrf-token=abc"] eq_refl)
    as (_ & Hno & _).
  destruct (Hno eq_refl) as (_ & _ & Hs & Ht).
  destruct (Hs eq_refl) as [Hkind Hfuel].
  destruct (Ht NextAuthMiddleware.noCallback eq_refl) as [_ Htfuel].
  split; [exact Hkind|]. split; [exact (Hfuel 2%nat)|exact (Htfuel eq_refl 2%nat)].
Defined.

(** A signed-in request for "/", a path without a locale, is answered by
    the callback with a redirect to "/es/dashboard", not to "/es/"; and a
    signed-in request for "/profile" with a redirect to
    "/profile/dashboard", whose path carries no supported locale either.
    Neither is a locale redirect. *)
Lemma locale_redirect_once_counterexample :
  carriesSupportedPrefix "/" = false
  /\ Next.kind (sifrexEdgeFilter [] Sample2.signedInRoot)
     = Next.Redirect (Next.newURL "/es/dashboard" Sample.origin)
  /\ Next.kind (sifrexEdgeFilter [] Sample2.signedInRoot)
     <> Next.Redirect (Next.newURL "/es/" Sample.origin)
  /\ localeRedirects (sifrexEdgeFilter []) 3 Sample2.signedInRoot = 0%nat
  /\ carriesSupportedPrefix "/profile" = false
  /\ Next.kind (sifrexEdgeFilter [] Sample2.signedInProfile)
     = Next.Redirect (Next.newURL "/profile/dashboard" Sample.origin)
  /\ carriesSupportedPrefix "/profile/dashboard" = false
  /\ localeRedirects (sifrexEdgeFilter []) 3 Sample2.signedInProfile = 0%nat.
Proof.
  repeat split; try reflexivity. vm_compute. discriminate.
Qed.

(** *** Headers *)

Section HeaderProperties.

Implicit Types (request : Next.Request).

(** The handler answers in one of three ways; it never hands replacement
    request headers on, so the cleaned copy of the request it builds
    reaches nobody. *)
Lemma sifrex_kind request :
  (exists location, Next.kind (SifrexMiddleware.middleware request) = Next.Redirect location)
  \/ Next.kind (SifrexMiddleware.middleware request) = Next.Continue None.
Proof.
  unfold SifrexMiddleware.middleware.
  destruct (negb (I18n.pathnameHasLocale _)); [left; eexists; reflexivity|].
  destruct (negb _ && negb _); [left; eexists; reflexivity|].
  destruct (_ && _); [left; eexists; reflexivity|].
  right. reflexivity.
Qed.

(** After a pass-through the next handler sees the inbound headers as
    they came. *)
Lemma sifrex_forwards_inbound_headers request h :
  Next.forwardedHeaders request (SifrexMiddleware.middleware request) = Some h ->
  h = Next.headers request.
Proof.
  unfold Next.forwardedHeaders.
  destruct (sifrex_kind request) as [[location ->]| ->]; [discriminate|].
  intros [= <-]. reflexivity.
Qed.

(** The cleaned copy itself has neither header. *)
Lemma cleanRequest_stripped request :
  Headers.has "x-middleware-subrequest"
    (Next.headers (SifrexMiddleware.cleanRequestOf request)) = false
  /\ Headers.has "x-forwarded-middleware"
       (Next.headers (SifrexMiddleware.cleanRequestOf request)) = false.
Proof.
  unfold SifrexMiddleware.cleanRequestOf, Headers.has, Headers.delete. cbn [Next.headers].
  split; apply not_true_is_false; intros H; apply existsb_exists in H as (p & Hin & Hp);
    repeat (apply filter_In in Hin as [Hin ?]);
    rewrite Hp in *; discriminate.
Qed.

(** C7 fails on the code. The signed-in request below carries
    [x-middleware-subrequest]; the handler lets it pass, and the headers
    the next handler sees are the inbound ones, forged header included.
    The cleaned copy of the request, which lacks the header, is built and
    dropped. *)
Theorem forged_header_reaches_downstream :
  Next.forwardedHeaders Sample.forgedRequest
    (SifrexMiddleware.middleware Sample.forgedRequest)
  = Some (Next.headers Sample.forgedRequest)
  /\ Headers.has "x-middleware-subrequest" (Next.headers Sample.forgedRequest) = true
  /\ Headers.has "x-middleware-subrequest"
       (Next.headers (SifrexMiddleware.cleanRequestOf Sample.forgedRequest)) = false.
Proof. repeat split; vm_compute; reflexivity. Qed.

(** C9, as the code has it. A pass-through response of the handler
    carries the five security headers with their fixed values; the
    redirects it answers with (to the localized path, to the sign-in
    page, to the dashboard) carry none of the five. *)
Theorem security_headers_on_pass_through request :
  match Next.kind (SifrexMiddleware.middleware request) with
  | Next.Continue _ =>
      carries securityHeaders (SifrexMiddleware.middleware request) = true
  | Next.Redirect _ =>
      Forall (fun p => Headers.get (fst p)
                         (Next.responseHeaders (SifrexMiddleware.middleware request)) = None)
        securityHeaders
  end.
Proof.
  unfold SifrexMiddleware.middleware.
  destruct (negb (I18n.pathnameHasLocale _)); [repeat constructor|].
  destruct (negb _ && negb _); [repeat constructor|].
  destruct (_ && _); [repeat constructor|].
  vm_compute. reflexivity.
Qed.

(** C9 as stated does not hold: the response to a request for
    "/dashboard" is the locale redirect, and it carries none of the five
    headers. *)
Lemma security_headers_counterexample :
  Next.kind (SifrexMiddleware.middleware Sample.plainRequest)
  = Next.Redirect (Next.newURL "/es/dashboard" Sample.origin)
  /\ carries securityHeaders (SifrexMiddleware.middleware Sample.plainRequest) = false
  /\ Forall (fun p => Headers.get (fst p)
                        (Next.responseHeaders
                           (SifrexMiddleware.middleware Sample.plainRequest)) = None)
       securityHeaders.
Proof.
  split; [vm_compute; reflexivity|]. split; [vm_compute; reflexivity|].
  repeat constructor.
Qed.

(** A pass-through does happen: a signed-in request for a localized
    dashboard page. *)
Example security_headers_present :
  Next.kind (SifrexMiddleware.middleware Sample.forgedRequest) = Next.Continue None
  /\ Headers.get "x-frame-options"
       (Next.responseHeaders (SifrexMiddleware.middleware Sample.forgedRequest))
     = Some "DENY"
  /\ Headers.get "Strict-Transport-Security"
       (Next.responseHeaders (SifrexMiddleware.middleware Sample.forgedRequest))
     = Some "max-age=31536000; includeSubDomains; preload".
Proof. repeat split; vm_compute; reflexivity. Qed.

End HeaderProperties.

(** ** Worked examples for the rate limiter *)

(** Six failed logins for user@example.com within fifteen minutes: the
    sixth is rejected with nothing remaining. *)
Lemma rate_limit_window_witness :
  exists r,
    RateLimiting.resultsFor "user@example.com"
      (fst (RateLimiting.run ((0, "user@example.com") :: Sample.laterCalls) ∅)) !! 5%nat
    = Some r
    /\ RateLimiting.allowed r = false
    /\ RateLimiting.remaining r = 0.
Proof.
  assert (Hfresh : RateLimiting.liveEntry 0 "user@example.com" ∅ = None) by reflexivity.
  assert (Hall : Forall (fun c => snd c = "user@example.com" ->
                                  fst c <= 0 + RateLimiting.RATE_LIMIT_WINDOW)
                   Sample.laterCalls).
  { unfold Sample.laterCalls, RateLimiting.RATE_LIMIT_WINDOW.
    repeat (constructor; [intros _; cbn; lia|]). constructor. }
  destruct (rate_limit_window "user@example.com" ∅ 0 Sample.laterCalls Hfresh Hall)
    as (_ & _ & Hk & _).
  eexists. split; [vm_compute; reflexivity|].
  refine (proj2 (proj2 (proj2 (Hk 5%nat _ _))) eq_refl).
  vm_compute; reflexivity.
Defined.

(** The rejected sixth call is counted too, and a seventh inside the window
    is rejected as well. *)
Lemma rate_limit_counts_every_call_witness :
  let store := snd (RateLimiting.run ((0, "user@example.com") :: Sample.laterCalls) ∅) in
  snd (RateLimiting.checkRateLimit 420000 "user@example.com" store)
    !! RateLimiting.storeKey "user@example.com"
  = Some {| RateLimiting.count := 7; RateLimiting.resetTime := 900000 |}
  /\ RateLimiting.allowed
       (fst (RateLimiting.checkRateLimit 420000 "user@example.com" store)) = false.
Proof.
  intros store.
  destruct (rate_limit_counts_every_call "user@example.com" store 420000 []) as [[Hc _] _].
  split; [rewrite Hc; vm_compute; reflexivity|vm_compute; reflexivity].
Defined.

(** * Further properties *)

(** ** Computations *)

Section EffFacts.

Context {A B : Type}.

Lemma outcome_bind (m : M A) (k : A -> M B) w :
  outcome (Eff.bind m k w)
  = match outcome (m w) with
    | Returned a => outcome (k a w)
    | Threw e => Threw e
    end.
Proof.
  unfold Eff.bind, outcome. destruct (m w) as [t [a|e]]; [|reflexivity].
  cbn. destruct (k a w). reflexivity.
Qed.

Lemma trace_bind (m : M A) (k : A -> M B) w :
  trace (Eff.bind m k w)
  = trace (m w) ++ match outcome (m w) with
                   | Returned a => trace (k a w)
                   | Threw e => []
                   end.
Proof.
  unfold Eff.bind, outcome, trace. destruct (m w) as [t [a|e]]; cbn.
  - destruct (k a w). reflexivity.
  - rewrite app_nil_r. reflexivity.
Qed.

Lemma bind_threw (m : M A) (k : A -> M B) w t e :
  m w = (t, Threw e) -> Eff.bind m k w = (t, Threw e).
Proof. intros H. unfold Eff.bind. rewrite H. reflexivity. Qed.

Lemma outcome_bind_returned (m : M A) (k : A -> M B) w t a :
  m w = (t, Returned a) -> outcome (Eff.bind m k w) = outcome (k a w).
Proof. intros H. rewrite outcome_bind. unfold outcome at 1. rewrite H. reflexivity. Qed.

Lemma bind_returned (m : M A) (k : A -> M B) w t a :
  m w = (t, Returned a) ->
  Eff.bind m k w = (t ++ trace (k a w), outcome (k a w)).
Proof. intros H. unfold Eff.bind. rewrite H. destruct (k a w). reflexivity. Qed.

End EffFacts.

(** ** The data functions of the layer *)

Section DalDataProperties.

Import Dal DalData.

Implicit Types (db : Db) (w : World).

(** The outcome of [getCurrentUser] once the session is resolved. *)
Lemma getCurrentUser_outcome db w t v :
  verifySession w = (t, Returned v) ->
  outcome (getCurrentUser db w)
  = if devFlags (env w) && negb (connected db)
    then Returned (Some (simulatedUser (env w) (userId v) "Dev Bypass User"))
    else if connected db
         then match findUnique db (userId v) with
              | Returned (Some u) => Returned (Some u)
              | Returned None =>
                  if devFlags (env w)
                  then Returned (Some (simulatedUser (env w) (userId v)
                                         "Dev Bypass User (from DB check)"))
                  else Returned None
              | Threw _ => Returned None
              end
         else Returned None.
Proof.
  intros Hv. unfold getCurrentUser, Eff.bind, try_catch, query, getEnv, outcome.
  rewrite Hv. cbn.
  destruct (devFlags (env w)), (connected db); cbn; try reflexivity;
    destruct (findUnique db (userId v)) as [[u|]|e]; reflexivity.
Qed.

(** [getCurrentUser] throws only what session resolution throws. Once the
    session is resolved it returns, a user or [null], whatever the database
    does: a query that throws gives [null], a row found is returned as it
    is. *)
Theorem getCurrentUser_catches_database_errors db w :
  (forall t e, verifySession w = (t, Threw e) -> getCurrentUser db w = (t, Threw e))
  /\ (forall t v,
        verifySession w = (t, Returned v) ->
        (exists u, outcome (getCurrentUser db w) = Returned u)
        /\ (forall e, connected db = true ->
                      findUnique db (userId v) = Threw e ->
                      outcome (getCurrentUser db w) = Returned None)
        /\ (forall u, connected db = true ->
                      findUnique db (userId v) = Returned (Some u) ->
                      outcome (getCurrentUser db w) = Returned (Some u))).
Proof.
  split.
  - intros t e Hv. unfold getCurrentUser. apply bind_threw. exact Hv.
  - intros t v Hv. rewrite (getCurrentUser_outcome _ _ _ _ Hv). split; [|split].
    + destruct (devFlags (env w) && negb (connected db)); [eauto|].
      destruct (connected db); [|eauto].
      destruct (findUnique db (userId v)) as [[u|]|e]; eauto.
      destruct (devFlags (env w)); eauto.
    + intros e -> ->. rewrite andb_false_r. reflexivity.
    + intros u -> ->. rewrite andb_false_r. reflexivity.
Qed.

(** The simulated user of [getCurrentUser] hangs on two settings only, the
    run mode and the opt-in flag: with both set and the session resolved,
    a user without a row (or a missing client) gets the simulated user,
    whose role is the configured one or ADMIN, whatever the session's own
    role and whatever the other conditions of the bypass guard. Without
    the two settings the answer of the database is returned unchanged. *)
Theorem getCurrentUser_simulated_user db w t v :
  verifySession w = (t, Returned v) ->
  (devFlags (env w) = true ->
   connected db = false \/ findUnique db (userId v) = Returned None ->
   exists name,
     outcome (getCurrentUser db w)
     = Returned (Some (simulatedUser (env w) (userId v) name)))
  /\ (devFlags (env w) = false ->
      connected db = true ->
      forall row, findUnique db (userId v) = Returned row ->
                  outcome (getCurrentUser db w) = Returned row).
Proof.
  intros Hv. rewrite (getCurrentUser_outcome _ _ _ _ Hv). split.
  - intros -> Hcase. cbn [andb]. destruct (connected db); cbn [negb].
    + destruct Hcase as [[=]| ->]. eauto.
    + eauto.
  - intros -> -> row ->. cbn. destruct row; reflexivity.
Qed.

(** The outcome of [getUserTenantData] once the session is resolved. *)
Lemma getUserTenantData_outcome db tenantId w t v :
  verifySession w = (t, Returned v) ->
  outcome (getUserTenantData db tenantId w)
  = if devFlags (env w) && negb (connected db)
    then Returned (userId v, tenantId)
    else if connected db
         then match findFirst db (userId v) with
              | Returned (Some _) => Returned (userId v, tenantId)
              | Returned None => Threw (NextRedirect "/unauthorized")
              | Threw e => Threw e
              end
         else Threw (JsError
                       "TypeError: Cannot read properties of undefined (reading 'user')").
Proof.
  intros Hv. unfold getUserTenantData, Eff.bind, query, getEnv, outcome.
  rewrite Hv. cbn.
  destruct (devFlags (env w)), (connected db); cbn; try reflexivity;
    destruct (findFirst db (userId v)) as [[u|]|e]; reflexivity.
Qed.

(** [getUserTenantData] does not look at the tenant: asked about another
    tenant it ends the same way, and when it returns it returns the same
    user with the tenant it was asked about. *)
Theorem getUserTenantData_ignores_tenant db w tenant1 tenant2 :
  outcome (getUserTenantData db tenant2 w)
  = match outcome (getUserTenantData db tenant1 w) with
    | Returned (userId, _) => Returned (userId, tenant2)
    | Threw e => Threw e
    end.
Proof.
  destruct (verifySession w) as [t [v|e]] eqn:Hv.
  - rewrite !(getUserTenantData_outcome _ _ _ _ _ Hv).
    destruct (devFlags (env w) && negb (connected db)); [reflexivity|].
    destruct (connected db); [|reflexivity].
    destruct (findFirst db (userId v)) as [[u|]|e]; reflexivity.
  - unfold getUserTenantData. rewrite !(bind_threw _ _ _ _ _ Hv). reflexivity.
Qed.

(** With a client and a resolved session, [getUserTenantData] returns the
    session's user id when the user has a row, redirects to
    "/unauthorized" when it has none, and lets whatever the query throws
    through to its caller: this query is not wrapped in a [try]. *)
Theorem getUserTenantData_membership db tenantId w t v :
  verifySession w = (t, Returned v) ->
  connected db = true ->
  (forall e, findFirst db (userId v) = Threw e ->
             outcome (getUserTenantData db tenantId w) = Threw e)
  /\ (findFirst db (userId v) = Returned None ->
      outcome (getUserTenantData db tenantId w) = Threw (NextRedirect "/unauthorized"))
  /\ (forall row, findFirst db (userId v) = Returned (Some row) ->
                  outcome (getUserTenantData db tenantId w) = Returned (userId v, tenantId)).
Proof.
  intros Hv Hc. rewrite (getUserTenantData_outcome _ _ _ _ _ Hv), Hc, andb_false_r.
  split; [|split].
  - intros e ->. reflexivity.
  - intros ->. reflexivity.
  - intros row ->. reflexivity.
Qed.

(** The role gate only logs and calls [auth()]. *)
Lemma requireRoleIn_events roleHierarchy requiredRole w :
  Forall sessionEvent (trace (requireRoleIn roleHierarchy requiredRole w)).
Proof.
  unfold requireRoleIn. rewrite trace_bind. apply Forall_app. split.
  - apply verifySession_events.
  - destruct (outcome (verifySession w)) as [v|e]; [|constructor].
    unfold Eff.bind, emit, redirect, throw, ret, trace.
    destruct (negb (JS.array_includes (map fst roleHierarchy) (userRole v))); cbn;
      [repeat constructor|].
    destruct (JS.lt (userRole v ≫= rankOf roleHierarchy) (rankOf roleHierarchy requiredRole));
      cbn; repeat constructor.
Qed.

(** When the gate returns, the session is resolved and its role is a key
    of the table that is not ranked below the required role. *)
Lemma requireRoleIn_returned roleHierarchy requiredRole w x :
  outcome (requireRoleIn roleHierarchy requiredRole w) = Returned x ->
  exists t v a ra,
    verifySession w = (t, Returned v)
    /\ userRole v = Some a
    /\ rankOf roleHierarchy a = Some ra
    /\ (forall rb, rankOf roleHierarchy requiredRole = Some rb -> rb <= ra).
Proof.
  destruct (verifySession w) as [t [v|e]] eqn:Hv.
  - rewrite (requireRoleIn_outcome _ _ _ _ _ Hv).
    destruct (JS.array_includes (map fst roleHierarchy) (userRole v)) eqn:Hin;
      [|discriminate]. cbn [negb].
    destruct (userRole v) as [a|] eqn:Ha; [|discriminate].
    apply rankOf_includes in Hin as [ra Hra].
    cbn. rewrite Hra.
    destruct (rankOf roleHierarchy requiredRole) as [rb|] eqn:Hrb; cbn.
    + destruct (Z.ltb_spec ra rb); [discriminate|]. intros _.
      exists t, v, a, ra. repeat split; try assumption. intros ? [= <-]. assumption.
    + intros _. exists t, v, a, ra. repeat split; try assumption. discriminate.
  - unfold requireRoleIn, outcome. rewrite (bind_threw _ _ _ _ _ Hv). discriminate.
Qed.

(** [getAdminData] reaches its fetcher (the user count) only for a session
    whose role is ADMIN or SUPER_ADMIN, in the six-tier copy and in the
    three-tier copy alike: whatever belongs to the fetcher in a trace, and
    every returned value, comes with such a session. *)
Theorem getAdminData_admin_only roleHierarchy db w :
  roleHierarchy = SifrexDal.roleHierarchy \/ roleHierarchy = TemplateDal.roleHierarchy ->
  (exists ev, ev ∈ trace (getAdminDataIn roleHierarchy db w) /\ ~ sessionEvent ev)
  \/ (exists data, outcome (getAdminDataIn roleHierarchy db w) = Returned data) ->
  exists t v, verifySession w = (t, Returned v)
              /\ (userRole v = Some "ADMIN" \/ userRole v = Some "SUPER_ADMIN").
Proof.
  intros Htable Hseen.
  assert (Hgate : exists x, outcome (requireRoleIn roleHierarchy "ADMIN" w) = Returned x).
  { unfold getAdminDataIn in Hseen. destruct Hseen as [(ev & Hin & Hev)|[data Hd]].
    - rewrite trace_bind in Hin. apply elem_of_app in Hin as [Hin|Hin].
      + exfalso. apply Hev.
        pose proof (requireRoleIn_events roleHierarchy "ADMIN" w) as Hall.
        rewrite Forall_forall in Hall. exact (Hall _ Hin).
      + destruct (outcome (requireRoleIn roleHierarchy "ADMIN" w)); [eauto|].
        apply elem_of_nil in Hin. contradiction.
    - rewrite outcome_bind in Hd.
      destruct (outcome (requireRoleIn roleHierarchy "ADMIN" w)); [eauto|discriminate]. }
  destruct Hgate as [x Hx].
  apply requireRoleIn_returned in Hx as (t & v & a & ra & Hv & Ha & Hra & Hle).
  exists t, v. split; [exact Hv|]. rewrite Ha.
  destruct Htable as [-> | ->].
  - specialize (Hle 4 eq_refl). revert Hra.
    unfold SifrexDal.roleHierarchy. cbn [rankOf].
    repeat match goal with
           | |- context [String.eqb ?k a] =>
               destruct (String.eqb_spec k a) as [<-|_];
               [intros [= <-]; first [lia | auto]|]
           end.
    discriminate.
  - specialize (Hle 1 eq_refl). revert Hra.
    unfold TemplateDal.roleHierarchy. cbn [rankOf].
    repeat match goal with
           | |- context [String.eqb ?k a] =>
               destruct (String.eqb_spec k a) as [<-|_];
               [intros [= <-]; first [lia | auto]|]
           end.
    discriminate.
Qed.

(** The fetcher of [getDashboardData] and what it makes of the user. *)
Lemma asFetcher_outcome {T} (body : string -> M T) userId w :
  snd (asFetcher body userId w) = outcome (body userId w).
Proof. reflexivity. Qed.

Lemma getSecureData_outcome {T} (dataFetcher : Fetcher T) w t v :
  verifySession w = (t, Returned v) ->
  outcome (getSecureData dataFetcher w)
  = match snd (dataFetcher (userId v) w) with
    | Returned x => Returned x
    | Threw _ => Threw (JsError "Data access denied")
    end.
Proof.
  intros Hv. destruct (dataFetcher (userId v) w) as [effects [x|e]] eqn:Hf.
  - rewrite (getSecureData_returned _ _ _ _ _ _ Hv Hf). reflexivity.
  - rewrite (getSecureData_threw _ _ _ _ _ _ Hv Hf). reflexivity.
Qed.

(** [getDashboardData] never returns without a user. With the session
    resolved it returns the user [getCurrentUser] gives, and when that is
    [null] (no row, or a failed query) it throws 'Data access denied'; the
    message of the error thrown inside does not reach the caller. With the
    session unresolved it ends as session resolution does. *)
Theorem getDashboardData_needs_user db w :
  (forall t e, verifySession w = (t, Threw e) -> getDashboardData db w = (t, Threw e))
  /\ (forall t v,
        verifySession w = (t, Returned v) ->
        outcome (getDashboardData db w)
        = match outcome (getCurrentUser db w) with
          | Returned (Some u) => Returned u
          | _ => Threw (JsError "Data access denied")
          end).
Proof.
  split.
  - intros t e Hv. apply getSecureData_redirected. exact Hv.
  - intros t v Hv. unfold getDashboardData.
    rewrite (getSecureData_outcome _ _ _ _ Hv), asFetcher_outcome, outcome_bind.
    destruct (outcome (getCurrentUser db w)) as [[u|]|e]; reflexivity.
Qed.

(** The outcome of [getBusinessData] once the session is resolved. *)
Lemma getBusinessData_outcome db resourceId w t v :
  verifySession w = (t, Returned v) ->
  outcome (getBusinessData db resourceId w)
  = if devFlags (env w) && negb (connected db)
    then Returned (Some {| selectedId := resourceId;
                           selectedName := Some "Simulated Resource";
                           more := [("data", "Sample business data")] |})
    else if connected db
         then match findUnique db resourceId with
              | Returned row => Returned (selectIdName <$> row)
              | Threw _ => Threw (JsError "Data access denied")
              end
         else Threw (JsError "Data access denied").
Proof.
  intros Hv. unfold getBusinessData. rewrite (outcome_bind_returned _ _ _ _ _ Hv).
  rewrite (getSecureData_outcome _ _ _ _ Hv), asFetcher_outcome.
  unfold Eff.bind, getEnv, query, outcome. cbn.
  destruct (devFlags (env w)), (connected db); cbn; try reflexivity;
    destruct (findUnique db resourceId) as [row|e]; reflexivity.
Qed.

(** [getBusinessData] does not depend on who is signed in: in the same
    environment, two resolved sessions get the same answer for a resource
    id, and a row found is returned (its id and name) whoever asks. *)
Theorem getBusinessData_any_user db resourceId w1 w2 t1 v1 t2 v2 :
  env w1 = env w2 ->
  verifySession w1 = (t1, Returned v1) ->
  verifySession w2 = (t2, Returned v2) ->
  outcome (getBusinessData db resourceId w1) = outcome (getBusinessData db resourceId w2)
  /\ (forall row, connected db = true ->
                  findUnique db resourceId = Returned row ->
                  outcome (getBusinessData db resourceId w1)
                  = Returned (selectIdName <$> row)).
Proof.
  intros Henv Hv1 Hv2.
  rewrite (getBusinessData_outcome _ _ _ _ _ Hv1), (getBusinessData_outcome _ _ _ _ _ Hv2), Henv.
  split; [reflexivity|]. intros row -> ->. rewrite andb_false_r. reflexivity.
Qed.

(** The trace and outcome of [getHIPAACompliantData] once the session is
    resolved: the resolver's trace, the access log line, then whatever
    [getSecureData] does with the fetcher. *)
Lemma getHIPAACompliantData_resolved db timestamp patientId w t v :
  verifySession w = (t, Returned v) ->
  getHIPAACompliantData db timestamp patientId w
  = (t ++ ConsoleLog ("HIPAA ACCESS LOG: User " +:+ userId v +:+ " performed READ"
                      +:+ " on patient " +:+ patientId +:+ " at " +:+ timestamp)
       :: trace (getSecureData (patientFetcher db patientId) w),
     outcome (getSecureData (patientFetcher db patientId) w)).
Proof.
  intros Hv. unfold getHIPAACompliantData.
  rewrite (bind_returned _ _ _ _ _ Hv).
  unfold verifyHIPAAAccess, logHIPAAAccess, Eff.bind, getEnv, emit, ret, trace, outcome.
  cbn. destruct (devFlags (env w) && negb (connected db)); cbn;
    destruct (getSecureData (patientFetcher db patientId) w); reflexivity.
Qed.

(** In [getHIPAACompliantData] the access is logged before the data is
    fetched: wherever a trace shows the entry into the fetcher, the
    'HIPAA ACCESS LOG' line for the session's user and the patient comes
    before it. And the access check never denies: once the session is
    resolved the function does not redirect. *)
Theorem getHIPAACompliantData_logs_before_fetch db timestamp patientId w :
  (forall pre uid post,
      trace (getHIPAACompliantData db timestamp patientId w) = pre ++ Invoke uid :: post ->
      exists t v,
        verifySession w = (t, Returned v)
        /\ ConsoleLog ("HIPAA ACCESS LOG: User " +:+ userId v +:+ " performed READ"
                       +:+ " on patient " +:+ patientId +:+ " at " +:+ timestamp) ∈ pre)
  /\ (forall t v path,
        verifySession w = (t, Returned v) ->
        outcome (getHIPAACompliantData db timestamp patientId w) <> Threw (NextRedirect path)).
Proof.
  split.
  - intros pre uid post Htrace.
    pose proof (verifySession_events w) as Hsession.
    destruct (verifySession w) as [t [v|e]] eqn:Hv; cbn [trace fst] in Hsession.
    + exists t, v. split; [reflexivity|].
      rewrite (getHIPAACompliantData_resolved db timestamp patientId w t v Hv) in Htrace.
      cbn [trace fst] in Htrace.
      destruct (getSecureData_resolved (patientFetcher db patientId) w t v Hv)
        as (tail & Htr & _).
      fold (trace (getSecureData (patientFetcher db patientId) w)) in Htrace.
      rewrite Htr in Htrace.
      set (line := ConsoleLog _) in *.
      assert (Hprefix : Forall sessionEvent (t ++ line :: t)).
      { apply Forall_app. split; [exact Hsession|]. constructor; [exact I|exact Hsession]. }
      replace (t ++ line :: t ++ Invoke (userId v) :: tail)
        with ((t ++ line :: t) ++ Invoke (userId v) :: tail) in Htrace
        by (rewrite <- app_assoc; reflexivity).
      destruct (split_after_session _ _ _ _ (Invoke uid) Hprefix (fun H => H) Htrace)
        as (mid & -> & _).
      rewrite !elem_of_app, elem_of_cons. auto.
    + exfalso. unfold getHIPAACompliantData in Htrace.
      rewrite (bind_threw _ _ _ _ _ Hv) in Htrace. cbn [trace fst] in Htrace.
      rewrite Htrace in Hsession. apply Forall_app in Hsession as [_ Hsession].
      inversion Hsession as [|? ? Hev _]. exact Hev.
  - intros t v path Hv.
    rewrite (getHIPAACompliantData_resolved db timestamp patientId w t v Hv).
    unfold outcome at 1. cbn [snd]. rewrite (getSecureData_outcome _ _ _ _ Hv).
    destruct (snd (patientFetcher db patientId (userId v) w)); discriminate.
Qed.

(** The protected layout checks the locale before anything else: for a
    locale that is not supported it redirects to "/es" without entering
    session resolution. It renders only for "es" or "en" and a resolved
    session, and then with that session's user id; for a supported locale
    and an unresolved session it ends as session resolution does. *)
Theorem layout_renders_for_locale_and_session locale w :
  (JS.array_includes I18n.locales (Some locale) = false ->
   outcome (AppProtectedLocaleLayout locale w) = Threw (NextRedirect "/es")
   /\ length (trace (AppProtectedLocaleLayout locale w)) = 2%nat
   /\ AuthCalled ∉ trace (AppProtectedLocaleLayout locale w))
  /\ (forall rendered,
        outcome (AppProtectedLocaleLayout locale w) = Returned rendered ->
        (locale = "es" \/ locale = "en")
        /\ exists t v, verifySession w = (t, Returned v)
                       /\ rendered = (locale, isAuth v, userId v))
  /\ (forall t e,
        JS.array_includes I18n.locales (Some locale) = true ->
        verifySession w = (t, Threw e) ->
        outcome (AppProtectedLocaleLayout locale w) = Threw e).
Proof.
  assert (Hout : outcome (AppProtectedLocaleLayout locale w)
                 = if JS.array_includes I18n.locales (Some locale)
                   then match outcome (verifySession w) with
                        | Returned v => Returned (locale, isAuth v, userId v)
                        | Threw e => Threw e
                        end
                   else Threw (NextRedirect "/es")).
  { unfold AppProtectedLocaleLayout, Eff.bind, emit, redirect, throw, ret, outcome.
    destruct (verifySession w) as [t [v|e]];
      destruct (JS.array_includes I18n.locales (Some locale)); reflexivity. }
  rewrite Hout. split; [|split].
  - intros Hloc. rewrite Hloc. split; [reflexivity|].
    unfold AppProtectedLocaleLayout, Eff.bind, emit, redirect, throw, trace.
    rewrite Hloc. cbn [negb fst app length]. split; [reflexivity|].
    rewrite !elem_of_cons, elem_of_nil. intros [H|[H|[]]]; inversion H.
  - intros rendered.
    destruct (JS.array_includes I18n.locales (Some locale)) eqn:Hloc; [|discriminate].
    destruct (verifySession w) as [t [v|e]] eqn:Hv; cbn [outcome snd]; [|discriminate].
    intros [= <-]. split; [|eauto].
    unfold JS.array_includes, I18n.locales in Hloc. cbn in Hloc.
    rewrite orb_false_r, orb_true_iff, !String.eqb_eq in Hloc. exact Hloc.
  - intros t e -> Hv. rewrite Hv. reflexivity.
Qed.

End DalDataProperties.

(** ** The rest of the edge request filter *)

Section MiddlewareMore.

Import I18n.

Implicit Types (request : Next.Request) (p : string).

Lemma append_cons a (s t : string) : String a s +:+ t = String a (s +:+ t).
Proof. reflexivity. Qed.

Lemma append_nil_r (s : string) : s +:+ "" = s.
Proof. induction s as [|a s IH]; [reflexivity|]. rewrite append_cons, IH. reflexivity. Qed.

Lemma append_assoc (s t u : string) : (s +:+ t) +:+ u = s +:+ t +:+ u.
Proof. induction s as [|a s IH]; [reflexivity|]. rewrite !append_cons, IH. reflexivity. Qed.

(** Stripping the locale undoes the prefixing of the locale redirect: for
    a supported locale and a path that starts with a slash,
    [getPathnameWithoutLocale] gives the path back; the bare locale path
    gives "/"; and a path without a supported locale is left as it is. *)
Theorem getPathnameWithoutLocale_strips_prefix locale p :
  In locale locales ->
  JS.startsWith p "/" = true ->
  getPathnameWithoutLocale ("/" +:+ locale +:+ p) = p
  /\ getPathnameWithoutLocale ("/" +:+ locale) = "/"
  /\ (pathnameHasLocale p = false -> getPathnameWithoutLocale p = p).
Proof.
  intros Hloc Hp. split; [|split].
  - apply startsWith_spec in Hp as [r Hr].
    change ("/" +:+ r) with (String "/" r) in Hr. subst p.
    unfold getPathnameWithoutLocale.
    assert (Hsplit : JS.split "/" ("/" +:+ locale +:+ String "/" r)
                     = "" :: locale :: JS.split "/" r).
    { destruct Hloc as [<-|[<-|[]]]; reflexivity. }
    rewrite Hsplit. cbn [lookup list_lookup drop].
    assert (Hin : JS.array_includes locales (Some locale) = true).
    { destruct Hloc as [<-|[<-|[]]]; reflexivity. }
    rewrite Hin, drop_0, (join_split "/" r). reflexivity.
  - destruct Hloc as [<-|[<-|[]]]; reflexivity.
  - intros Hno. unfold getPathnameWithoutLocale.
    destruct (JS.array_includes locales (JS.split "/" p !! 1%nat)) eqn:Hin; [|reflexivity].
    apply (pathnameHasLocale_first_segment p Hp) in Hin. congruence.
Qed.

(** The header-sanitizing handler lets a request pass exactly when its
    path has a supported locale and the request is either signed in on a
    route that is not public, or not signed in on a public route. Without
    a session a localized path that is not public is answered with a
    redirect to the sign-in page of the same locale that carries the
    requested path as [callbackUrl]. *)
Theorem sifrex_pass_through_iff request :
  (Next.kind (SifrexMiddleware.middleware request) = Next.Continue None
   <-> pathnameHasLocale (Next.pathname (Next.nextUrl request)) = true
       /\ isPublicRoute (Next.pathname (Next.nextUrl request))
          = negb (bool_decide (is_Some (Next.auth request))))
  /\ (pathnameHasLocale (Next.pathname (Next.nextUrl request)) = true ->
      isPublicRoute (Next.pathname (Next.nextUrl request)) = false ->
      Next.auth request = None ->
      exists locale,
        In locale locales
        /\ Next.kind (SifrexMiddleware.middleware request)
           = Next.Redirect
               {| Next.origin := Next.origin (Next.nextUrl request);
                  Next.pathname := "/" +:+ locale +:+ "/auth/signin";
                  Next.searchParams :=
                    [("callbackUrl", Next.pathname (Next.nextUrl request))] |}).
Proof.
  unfold SifrexMiddleware.middleware, isPublicRoute. split.
  - destruct (pathnameHasLocale (Next.pathname (Next.nextUrl request))); cbn [negb].
    + destruct (existsb _ SifrexMiddleware.publicRoutes),
        (bool_decide (is_Some (Next.auth request))); cbn;
        split; try discriminate; try (intros [_ [=]]); auto.
    + cbn. split; [discriminate|intros [[=] _]].
  - intros Hloc Hpub Hauth. rewrite Hloc, Hpub, Hauth. cbn [negb andb].
    rewrite bool_decide_eq_false_2 by (intros [? [=]]). cbn [negb].
    destruct (firstSegment_locale _ Hloc) as [-> | ->].
    + exists "es". split; [left; reflexivity|reflexivity].
    + exists "en". split; [right; left; reflexivity|reflexivity].
Qed.

(** The template's handler lets a request pass exactly when its path has a
    supported locale, it is not an unauthenticated request for a protected
    route, and it is not a signed-in request for a sign-in, sign-up or
    forgot-password route. A path that is neither protected nor an auth
    route passes with or without a session. *)
Theorem template_pass_through_iff request :
  Next.kind (TemplateMiddleware.middleware request) = Next.Continue None
  <-> pathnameHasLocale (Next.pathname (Next.nextUrl request)) = true
      /\ (isProtectedRoute (Next.pathname (Next.nextUrl request)) = true ->
          is_Some (Next.auth request))
      /\ (isAuthRoute (Next.pathname (Next.nextUrl request)) = true ->
          Next.auth request = None).
Proof.
  unfold TemplateMiddleware.middleware, isProtectedRoute, isAuthRoute.
  destruct (pathnameHasLocale (Next.pathname (Next.nextUrl request))); cbn [negb].
  - destruct (existsb _ TemplateMiddleware.protectedRoutes),
      (existsb _ TemplateMiddleware.authRoutes),
      (Next.auth request) as [s|]; cbn; split;
      try discriminate; try reflexivity;
      try (intros _; repeat split; auto; discriminate);
      try (intros (_ & H1 & H2); try (specialize (H2 eq_refl); discriminate);
           try (destruct (H1 eq_refl) as [? [=]])).
  - cbn. split; [discriminate|intros [[=] _]].
Qed.

(** What the two handlers answer to a localized path. *)
Lemma sifrex_localized request :
  pathnameHasLocale (Next.pathname (Next.nextUrl request)) = true ->
  Next.kind (SifrexMiddleware.middleware request) = Next.Continue None
  \/ (exists locale,
        In locale locales /\ Next.auth request = None
        /\ Next.kind (SifrexMiddleware.middleware request)
           = Next.Redirect
               {| Next.origin := Next.origin (Next.nextUrl request);
                  Next.pathname := "/" +:+ locale +:+ "/auth/signin";
                  Next.searchParams :=
                    [("callbackUrl", Next.pathname (Next.nextUrl request))] |})
  \/ (exists locale,
        In locale locales /\ is_Some (Next.auth request)
        /\ Next.kind (SifrexMiddleware.middleware request)
           = Next.Redirect
               {| Next.origin := Next.origin (Next.nextUrl request);
                  Next.pathname := "/" +:+ locale +:+ "/dashboard";
                  Next.searchParams := [] |}).
Proof.
  intros Hloc. unfold SifrexMiddleware.middleware. rewrite Hloc. cbn [negb].
  assert (Hl : In (firstSegment (Next.pathname (Next.nextUrl request))) locales).
  { destruct (firstSegment_locale _ Hloc) as [-> | ->]; cbn; auto. }
  destruct (existsb _ SifrexMiddleware.publicRoutes),
    (Next.auth request) as [s|];
    [ right; right | left | left | right; left ];
    try reflexivity;
    exists (firstSegment (Next.pathname (Next.nextUrl request)));
    (split; [exact Hl|]); (split; [eauto|]); reflexivity.
Qed.

Lemma template_localized request :
  pathnameHasLocale (Next.pathname (Next.nextUrl request)) = true ->
  Next.kind (TemplateMiddleware.middleware request) = Next.Continue None
  \/ (exists locale,
        In locale locales /\ Next.auth request = None
        /\ Next.kind (TemplateMiddleware.middleware request)
           = Next.Redirect
               {| Next.origin := Next.origin (Next.nextUrl request);
                  Next.pathname := "/" +:+ locale +:+ "/auth/signin";
                  Next.searchParams :=
                    [("callbackUrl", Next.pathname (Next.nextUrl request))] |})
  \/ (exists locale,
        In locale locales /\ is_Some (Next.auth request)
        /\ Next.kind (TemplateMiddleware.middleware request)
           = Next.Redirect
               {| Next.origin := Next.origin (Next.nextUrl request);
                  Next.pathname := "/" +:+ locale +:+ "/dashboard";
                  Next.searchParams := [] |}).
Proof.
  intros Hloc. unfold TemplateMiddleware.middleware. rewrite Hloc. cbn [negb].
  assert (Hl : In (firstSegment (Next.pathname (Next.nextUrl request))) locales).
  { destruct (firstSegment_locale _ Hloc) as [-> | ->]; cbn; auto. }
  destruct (existsb _ TemplateMiddleware.protectedRoutes),
    (existsb _ TemplateMiddleware.authRoutes),
    (Next.auth request) as [s|];
    [ right; right | right; left | left | right; left
    | right; right | left | left | left ];
    try reflexivity;
    exists (firstSegment (Next.pathname (Next.nextUrl request)));
    (split; [exact Hl|]); (split; [eauto|]); reflexivity.
Qed.

(** The targets of the two optimistic redirects pass. *)
Lemma redirect_targets_pass request locale :
  In locale locales ->
  (Next.auth request = None ->
   forall origin search,
     let target := Next.follow request
                     {| Next.origin := origin;
                        Next.pathname := "/" +:+ locale +:+ "/auth/signin";
                        Next.searchParams := search |} in
     Next.kind (SifrexMiddleware.middleware target) = Next.Continue None
     /\ Next.kind (TemplateMiddleware.middleware target) = Next.Continue None)
  /\ (is_Some (Next.auth request) ->
      forall origin search,
        let target := Next.follow request
                        {| Next.origin := origin;
                           Next.pathname := "/" +:+ locale +:+ "/dashboard";
                           Next.searchParams := search |} in
        Next.kind (SifrexMiddleware.middleware target) = Next.Continue None
        /\ Next.kind (TemplateMiddleware.middleware target) = Next.Continue None).
Proof.
  intros Hl. split.
  - intros Hauth origin search target. subst target.
    unfold SifrexMiddleware.middleware, TemplateMiddleware.middleware, Next.follow.
    cbn [Next.nextUrl Next.pathname Next.auth]. rewrite Hauth.
    destruct Hl as [<-|[<-|[]]]; split; vm_compute; reflexivity.
  - intros [s Hauth] origin search target. subst target.
    unfold SifrexMiddleware.middleware, TemplateMiddleware.middleware, Next.follow.
    cbn [Next.nextUrl Next.pathname Next.auth]. rewrite Hauth.
    destruct Hl as [<-|[<-|[]]]; split; vm_compute; reflexivity.
Qed.

Lemma redirectsUntilPass_pass handler fuel request h :
  Next.kind (handler request) = Next.Continue h ->
  redirectsUntilPass handler fuel request = Some 0%nat.
Proof. intros H. destruct fuel; cbn [redirectsUntilPass]; rewrite H; reflexivity. Qed.

Lemma redirectsUntilPass_redirect handler fuel request location :
  Next.kind (handler request) = Next.Redirect location ->
  redirectsUntilPass handler (S fuel) request
  = S <$> redirectsUntilPass handler fuel (Next.follow request location).
Proof. intros H. cbn [redirectsUntilPass]. rewrite H. reflexivity. Qed.

(** Redirects do not loop. A client that follows the redirects of either
    handler, keeping its session, gets through after at most two of them:
    at most one to put the locale in front and at most one to the sign-in
    page or to the dashboard. *)
Theorem redirects_settle request :
  JS.startsWith (Next.pathname (Next.nextUrl request)) "/" = true ->
  (exists n, redirectsUntilPass SifrexMiddleware.middleware 2 request = Some n
             /\ (n <= 2)%nat
             /\ (pathnameHasLocale (Next.pathname (Next.nextUrl request)) = true ->
                 (n <= 1)%nat))
  /\ (exists n, redirectsUntilPass TemplateMiddleware.middleware 2 request = Some n
                /\ (n <= 2)%nat
                /\ (pathnameHasLocale (Next.pathname (Next.nextUrl request)) = true ->
                    (n <= 1)%nat)).
Proof.
  intros Hslash.
  assert (Hs : forall fuel r,
             pathnameHasLocale (Next.pathname (Next.nextUrl r)) = true ->
             exists n, redirectsUntilPass SifrexMiddleware.middleware (S fuel) r = Some n
                       /\ (n <= 1)%nat).
  { intros fuel r Hloc.
    destruct (sifrex_localized r Hloc)
      as [Hk|[(l & Hl & Hauth & Hk)|(l & Hl & Hauth & Hk)]].
    - exists 0%nat. split; [exact (redirectsUntilPass_pass _ _ _ _ Hk)|lia].
    - destruct (proj1 (redirect_targets_pass r l Hl) Hauth
                  (Next.origin (Next.nextUrl r))
                  [("callbackUrl", Next.pathname (Next.nextUrl r))]) as [Hpass _].
      exists 1%nat. split; [|lia].
      rewrite (redirectsUntilPass_redirect _ _ _ _ Hk),
        (redirectsUntilPass_pass _ _ _ _ Hpass). reflexivity.
    - destruct (proj2 (redirect_targets_pass r l Hl) Hauth
                  (Next.origin (Next.nextUrl r)) []) as [Hpass _].
      exists 1%nat. split; [|lia].
      rewrite (redirectsUntilPass_redirect _ _ _ _ Hk),
        (redirectsUntilPass_pass _ _ _ _ Hpass). reflexivity. }
  assert (Ht : forall fuel r,
             pathnameHasLocale (Next.pathname (Next.nextUrl r)) = true ->
             exists n, redirectsUntilPass TemplateMiddleware.middleware (S fuel) r = Some n
                       /\ (n <= 1)%nat).
  { intros fuel r Hloc.
    destruct (template_localized r Hloc)
      as [Hk|[(l & Hl & Hauth & Hk)|(l & Hl & Hauth & Hk)]].
    - exists 0%nat. split; [exact (redirectsUntilPass_pass _ _ _ _ Hk)|lia].
    - destruct (proj1 (redirect_targets_pass r l Hl) Hauth
                  (Next.origin (Next.nextUrl r))
                  [("callbackUrl", Next.pathname (Next.nextUrl r))]) as [_ Hpass].
      exists 1%nat. split; [|lia].
      rewrite (redirectsUntilPass_redirect _ _ _ _ Hk),
        (redirectsUntilPass_pass _ _ _ _ Hpass). reflexivity.
    - destruct (proj2 (redirect_targets_pass r l Hl) Hauth
                  (Next.origin (Next.nextUrl r)) []) as [_ Hpass].
      exists 1%nat. split; [|lia].
      rewrite (redirectsUntilPass_redirect _ _ _ _ Hk),
        (redirectsUntilPass_pass _ _ _ _ Hpass). reflexivity. }
  destruct (pathnameHasLocale (Next.pathname (Next.nextUrl request))) eqn:Hloc.
  - destruct (Hs 1%nat request Hloc) as (n & Hn & Hle).
    destruct (Ht 1%nat request Hloc) as (m & Hm & Hle').
    split; [exists n|exists m]; repeat split; auto; lia.
  - pose proof (localized_has_locale request Hslash) as Htarget.
    destruct (Hs 0%nat (Next.follow request (localized defaultLocale request)) Htarget)
      as (n & Hn & Hle).
    destruct (Ht 0%nat (Next.follow request (localized defaultLocale request)) Htarget)
      as (m & Hm & Hle').
    assert (Hks : Next.kind (SifrexMiddleware.middleware request)
                  = Next.Redirect (localized defaultLocale request))
      by (rewrite (sifrex_without_locale request Hloc); reflexivity).
    assert (Hkt : Next.kind (TemplateMiddleware.middleware request)
                  = Next.Redirect (localized defaultLocale request))
      by (rewrite (template_without_locale request Hloc); reflexivity).
    split.
    + exists (S n). rewrite (redirectsUntilPass_redirect _ _ _ _ Hks), Hn.
      repeat split; [lia|discriminate].
    + exists (S m). rewrite (redirectsUntilPass_redirect _ _ _ _ Hkt), Hm.
      repeat split; [lia|discriminate].
Qed.

End MiddlewareMore.

(** ** The callbacks of the session provider's configuration *)

Section AuthCallbackProperties.

Import AuthCallbacks.

(** The [authorized] callback does not loop either: the redirect it
    answers a signed-in request with goes to a dashboard path, which the
    callback allows for the same session. It denies only requests without
    a user for a path that contains "/dashboard", and it redirects only
    signed-in requests. *)
Theorem authorized_settles auth nextUrl :
  (forall location,
      authorized auth nextUrl = Respond location ->
      authorized auth location = Allow
      /\ is_Some (auth ≫= NextAuth.user)
      /\ JS.includes (Next.pathname nextUrl) "/dashboard" = false)
  /\ (authorized auth nextUrl = Deny
      <-> JS.includes (Next.pathname nextUrl) "/dashboard" = true
          /\ auth ≫= NextAuth.user = None).
Proof.
  unfold authorized. split.
  - intros location.
    destruct (JS.includes (Next.pathname nextUrl) "/dashboard") eqn:Hdash.
    + destruct (bool_decide _); discriminate.
    + destruct (bool_decide (is_Some (auth ≫= NextAuth.user))) eqn:Hin; [|discriminate].
      intros [= <-]. cbn [Next.pathname Next.newURL].
      assert (Hinc : forall l, JS.includes ("/" +:+ l +:+ "/dashboard") "/dashboard" = true).
      { intros l. apply includes_spec. exists ("/" +:+ l), "".
        rewrite append_assoc, append_nil_r. reflexivity. }
      rewrite Hinc. apply bool_decide_eq_true in Hin. auto.
  - destruct (JS.includes (Next.pathname nextUrl) "/dashboard");
      destruct (auth ≫= NextAuth.user) as [u|] eqn:Hu; cbn;
      split; try discriminate; try (intros [H1 H2]; discriminate); auto.
Qed.

Lemma refreshed_id n token : refreshed n token = token.
Proof. induction n as [|n IH]; [reflexivity|]. cbn. exact IH. Qed.

(** The role travels from sign-in to the session: the role the [jwt]
    callback puts into the token at sign-in is still there after any
    number of later [jwt] calls (which come without a user), and the
    [session] callback copies it onto the session's user, leaving the
    other fields. When the signed-in user has no role, the session's user
    is left as the provider built it. *)
Theorem role_reaches_session token user n signedInRole :
  (JS.truthy signedInRole = true ->
   session user (refreshed n (jwt token (Some signedInRole)))
   = {| NextAuth.id := NextAuth.id user;
        NextAuth.email := NextAuth.email user;
        NextAuth.role := signedInRole |})
  /\ (JS.truthy signedInRole = false ->
      session user (refreshed n (jwt token (Some signedInRole))) = user)
  /\ sub (refreshed n (jwt token (Some signedInRole))) = sub token.
Proof.
  rewrite refreshed_id. unfold session, jwt. cbn [role sub].
  split; [|split]; [intros ->; reflexivity|intros ->; reflexivity|reflexivity].
Qed.

End AuthCallbackProperties.

(** ** More on the rate limiter *)

Section RateLimitingMore.

Import RateLimiting.

Implicit Types (store : gmap string Entry) (calls : list (Z * string)).

(** Resetting an identifier forgets its attempts: the next call for it is
    allowed, leaves four attempts and opens a window at the time of the
    call, whatever was counted before. The entries of other identifiers are
    not touched. *)
Theorem reset_starts_over i store now :
  checkRateLimit now i (resetRateLimit i store)
  = ({| allowed := true; remaining := 4; resultResetTime := now + RATE_LIMIT_WINDOW |},
     <[storeKey i := {| count := 1; resetTime := now + RATE_LIMIT_WINDOW |}]> store)
  /\ resetRateLimit i store !! storeKey i = None
  /\ (forall j, j <> i -> resetRateLimit i store !! storeKey j = store !! storeKey j).
Proof.
  unfold resetRateLimit. split; [|split].
  - rewrite checkRateLimit_fresh.
    + rewrite insert_delete_eq. reflexivity.
    + unfold liveEntry. rewrite lookup_delete_eq. reflexivity.
  - apply lookup_delete_eq.
  - intros j Hne. apply lookup_delete_ne. intros H. apply Hne. symmetry.
    exact (storeKey_inj _ _ H).
Qed.

(** Identifiers do not interfere. A call for one identifier leaves the
    entry of every other identifier as it was, its result depends on its
    own entry only, and so a call for another identifier made in between
    does not change what a call returns. *)
Theorem identifiers_are_independent i j store now now' :
  i <> j ->
  snd (checkRateLimit now i store) !! storeKey j = store !! storeKey j
  /\ (forall store',
        store' !! storeKey i = store !! storeKey i ->
        fst (checkRateLimit now i store') = fst (checkRateLimit now i store))
  /\ fst (checkRateLimit now i (snd (checkRateLimit now' j store)))
     = fst (checkRateLimit now i store).
Proof.
  intros Hne.
  assert (Hlocal : forall s s',
             s' !! storeKey i = s !! storeKey i ->
             fst (checkRateLimit now i s') = fst (checkRateLimit now i s)).
  { intros s s' Heq.
    assert (Hlive : liveEntry now i s' = liveEntry now i s)
      by (unfold liveEntry; rewrite Heq; reflexivity).
    destruct (liveEntry now i s) as [e|] eqn:Hs.
    - rewrite (checkRateLimit_live _ _ _ _ Hs), (checkRateLimit_live _ _ _ _ Hlive).
      reflexivity.
    - rewrite (checkRateLimit_fresh _ _ _ Hs), (checkRateLimit_fresh _ _ _ Hlive).
      reflexivity. }
  split; [|split].
  - apply checkRateLimit_other. exact Hne.
  - intros store'. apply Hlocal.
  - apply Hlocal. apply checkRateLimit_other. intros H. apply Hne. symmetry. exact H.
Qed.

(** The limiter never drops an identifier: after a call the store holds
    the keys it held before and the key of the identifier asked about, and
    after a sequence of calls the keys it held plus those of all the
    identifiers asked about. Only [resetRateLimit] removes a key. *)
Theorem store_only_grows calls store :
  (forall now i, dom (snd (checkRateLimit now i store)) = dom store ∪ {[storeKey i]})
  /\ dom (snd (run calls store))
     = dom store ∪ list_to_set (map (fun c => storeKey (snd c)) calls).
Proof.
  assert (Hone : forall s now i,
             dom (snd (checkRateLimit now i s)) = dom s ∪ {[storeKey i]}).
  { intros s now i. destruct (checkRateLimit_writes now i s) as [e' ->].
    rewrite dom_insert_L. apply union_comm_L. }
  split; [apply Hone|].
  revert store. induction calls as [|[now i] calls IH]; intros store.
  - cbn. rewrite union_empty_r_L. reflexivity.
  - rewrite run_cons. cbn [snd map list_to_set]. rewrite IH, Hone.
    rewrite <- (assoc_L (∪)). reflexivity.
Qed.

(** The invariant holds of the empty store and is kept by both
    operations. *)
Lemma countedStore_kept store now i :
  countedStore store ->
  countedStore (snd (checkRateLimit now i store))
  /\ countedStore (resetRateLimit i store).
Proof.
  intros Hinv. split.
  - intros key e. destruct (liveEntry now i store) as [e0|] eqn:Hlive.
    + rewrite (checkRateLimit_live _ _ _ _ Hlive). cbn [snd].
      destruct (decide (key = storeKey i)) as [->|Hne].
      * rewrite lookup_insert_eq. intros [= <-]. cbn.
        unfold liveEntry in Hlive.
        destruct (store !! storeKey i) as [e1|] eqn:He1; [|discriminate].
        destruct (resetTime e1 <? now); [discriminate|]. injection Hlive as ->.
        specialize (Hinv _ _ He1). lia.
      * rewrite lookup_insert_ne by congruence. apply Hinv.
    + rewrite (checkRateLimit_fresh _ _ _ Hlive). cbn [snd].
      destruct (decide (key = storeKey i)) as [->|Hne].
      * rewrite lookup_insert_eq. intros [= <-]. cbn. lia.
      * rewrite lookup_insert_ne by congruence. apply Hinv.
  - intros key e. unfold resetRateLimit. intros H.
    apply lookup_delete_Some in H as [_ H]. exact (Hinv _ _ H).
Qed.

(** On a store whose counters have all counted at least one attempt, as
    every store built by the limiter has, a result is consistent: between
    zero and four attempts remain, a call that leaves attempts is allowed,
    a rejected call leaves none, and the reset timestamp is not in the
    past. The store after the call is again such a store. *)
Theorem result_is_consistent store now i :
  countedStore store ->
  let r := fst (checkRateLimit now i store) in
  0 <= remaining r <= 4
  /\ (0 < remaining r -> allowed r = true)
  /\ (allowed r = false -> remaining r = 0)
  /\ now <= resultResetTime r
  /\ countedStore (snd (checkRateLimit now i store)).
Proof.
  intros Hinv r. subst r.
  split; [|split; [|split; [|split]]]; try (apply countedStore_kept; exact Hinv);
    destruct (liveEntry now i store) as [e|] eqn:Hlive;
    try rewrite (checkRateLimit_live _ _ _ _ Hlive);
    try rewrite (checkRateLimit_fresh _ _ _ Hlive);
    cbn [fst resultAt allowed remaining resultResetTime]; unfold MAX_ATTEMPTS, RATE_LIMIT_WINDOW;
    unfold liveEntry in Hlive;
    try (destruct (store !! storeKey i) as [e1|] eqn:He1; [|discriminate];
         destruct (Z.ltb_spec (resetTime e1) now); [discriminate|];
         injection Hlive as ->; specialize (Hinv _ _ He1)).
  all: try lia.
  all: try (intros H; apply Z.leb_le; lia).
  all: try (intros H; apply Z.leb_gt in H; lia).
Qed.

End RateLimitingMore.

(** ** More on the credential verifier *)

Section AuthorizeMore.

Import AuthConfig.

Variable Credentials : Type.
Variable safeParse : Credentials -> option (string * string).

(** Once an email has used up its five attempts, [authorize] gives [null]
    until the window ends, whatever is in the identity table and whatever
    the password: the answer does not depend on the table or on the hash
    comparison, which are not consulted, and the rejected attempt is
    counted too. *)
Theorem authorize_locked_out bcryptCompare bcryptCompare' credentials email password
    w w' store e :
  safeParse credentials = Some (email, password) ->
  RateLimiting.liveEntry (now w) email store = Some e ->
  5 <= RateLimiting.count e ->
  NODE_ENV w' = NODE_ENV w ->
  now w' = now w ->
  snd (fst (authorize Credentials safeParse bcryptCompare credentials w store)) = None
  /\ authorize Credentials safeParse bcryptCompare' credentials w' store
     = authorize Credentials safeParse bcryptCompare credentials w store
  /\ snd (authorize Credentials safeParse bcryptCompare credentials w store)
       !! RateLimiting.storeKey email
     = Some {| RateLimiting.count := RateLimiting.count e + 1;
               RateLimiting.resetTime := RateLimiting.resetTime e |}.
Proof.
  intros Hp Hlive Hcount Henv Hnow.
  assert (Hrej : forall cmp (w0 : Surroundings),
             NODE_ENV w0 = NODE_ENV w -> now w0 = now w ->
             authorize Credentials safeParse cmp credentials w0 store
             = (devLog w ("Rate limit exceeded for " +:+ email), None,
                <[RateLimiting.storeKey email := RateLimiting.increment e]> store)).
  { intros cmp w0 Henv0 Hnow0. unfold authorize. rewrite Hp, Hnow0.
    rewrite (checkRateLimit_live _ _ _ _ Hlive).
    assert (Hno : RateLimiting.allowed
                    (RateLimiting.resultAt (RateLimiting.count e + 1)
                       (RateLimiting.resetTime e)) = false).
    { cbn. apply Z.leb_gt. unfold RateLimiting.MAX_ATTEMPTS. lia. }
    rewrite Hno. cbn [negb]. unfold devLog. rewrite Henv0. reflexivity. }
  rewrite (Hrej bcryptCompare w eq_refl eq_refl), (Hrej bcryptCompare' w' Henv Hnow).
  split; [reflexivity|]. split; [reflexivity|].
  cbn [snd]. apply lookup_insert_eq.
Qed.

(** [authorize] counts every attempt that passes the form check, the
    successful ones included, and no other: the store it leaves is the one
    [checkRateLimit] leaves for the email, so a sign-in that succeeds does
    not give its attempt back, and credentials that fail the form check
    leave the store as it was. *)
Theorem authorize_counts_attempts bcryptCompare credentials w store :
  (safeParse credentials = None ->
   authorize Credentials safeParse bcryptCompare credentials w store
   = (devLog w "Invalid credentials format", None, store))
  /\ (forall email password,
        safeParse credentials = Some (email, password) ->
        snd (authorize Credentials safeParse bcryptCompare credentials w store)
        = snd (RateLimiting.checkRateLimit (now w) email store)
        /\ snd (authorize Credentials safeParse bcryptCompare credentials w store)
             !! RateLimiting.storeKey email
           = Some {| RateLimiting.count :=
                       RateLimiting.attemptsSoFar (now w) email store + 1;
                     RateLimiting.resetTime :=
                       RateLimiting.resultResetTime
                         (fst (RateLimiting.checkRateLimit (now w) email store)) |}).
Proof.
  split.
  - intros Hp. unfold authorize. rewrite Hp. reflexivity.
  - intros email password Hp.
    rewrite (authorize_store _ _ _ _ _ _ _ _ Hp). split; [reflexivity|].
    unfold RateLimiting.attemptsSoFar.
    destruct (RateLimiting.liveEntry (now w) email store) as [e|] eqn:Hlive.
    + rewrite (checkRateLimit_live _ _ _ _ Hlive). cbn [fst snd].
      rewrite lookup_insert_eq. reflexivity.
    + rewrite (checkRateLimit_fresh _ _ _ Hlive). cbn [fst snd].
      rewrite lookup_insert_eq. reflexivity.
Qed.

(** [authorize] returns a user exactly when the credentials pass the form
    check, the rate limiter allows the attempt, the table has a row for
    the email with a non-empty password hash, and the hash comparison says
    the password matches; the user returned is the row's id, email, name
    and role, without the hash. *)
Theorem authorize_returns_user_iff bcryptCompare credentials w store u :
  snd (fst (authorize Credentials safeParse bcryptCompare credentials w store)) = Some u
  <-> exists email password row hash,
        safeParse credentials = Some (email, password)
        /\ RateLimiting.allowed
             (fst (RateLimiting.checkRateLimit (now w) email store)) = true
        /\ findUnique w email = Returned (Some row)
        /\ Prisma.password row = Some hash
        /\ hash <> ""
        /\ bcryptCompare password hash = Returned true
        /\ u = {| id := Prisma.id row; email := Prisma.email row;
                  name := Prisma.name row; role := Prisma.role row |}.
Proof.
  unfold authorize. split.
  - destruct (safeParse credentials) as [[email password]|]; [|discriminate].
    destruct (RateLimiting.checkRateLimit (now w) email store) as [r store'] eqn:Hrl.
    destruct (RateLimiting.allowed r) eqn:Hallowed; [|discriminate]. cbn [negb fst].
    destruct (findUnique w email) as [[row|]|e] eqn:Hf; try discriminate.
    destruct (Prisma.password row) as [hash|] eqn:Hpw; [|discriminate].
    destruct (String.eqb_spec hash "") as [->|Hne]; [discriminate|].
    destruct (bcryptCompare password hash) as [[|]|e] eqn:Hc; try discriminate.
    intros Hu. cbn [fst snd] in Hu. injection Hu as <-.
    exists email, password, row, hash. rewrite Hrl.
    repeat split; try assumption; reflexivity.
  - intros (email & password & row & hash & -> & Hallowed & Hf & Hpw & Hne & Hc & ->).
    destruct (RateLimiting.checkRateLimit (now w) email store) as [r store'].
    cbn [fst] in Hallowed. rewrite Hallowed, Hf, Hpw. cbn [negb].
    apply String.eqb_neq in Hne. rewrite Hne, Hc. reflexivity.
Qed.

End AuthorizeMore.

(** ** The server actions *)

Section ActionProperties.

Import AuthActions.

Variable FormData : Type.
Variable parseSignup : FormData -> list (string * list string) + (string * string * string).
Variable parseEmail : string -> option string.

Local Abbreviation signup := (signup FormData parseSignup).
Local Abbreviation checkEmailAvailability := (checkEmailAvailability parseEmail).
Local Abbreviation requestPasswordReset := (requestPasswordReset parseEmail).

(** [signup] writes a row at most once, and only after the form passed
    its check, the lookup found no row for the email and the password was
    hashed with twelve rounds: the row it writes has the parsed name and
    email, the hash in place of the password, and the role USER. *)
Theorem signup_creates_hashed_user formData b data :
  In (Create data) (fst (signup formData b)) ->
  (exists name email password hashed,
      parseSignup formData = inr (name, email, password)
      /\ findUnique b email = Ok None
      /\ hash b password 12 = Ok hashed
      /\ data = {| name := name; email := email; password := hashed; role := "USER" |}
      /\ exists rest, fst (signup formData b)
                      = FindUnique email :: Hash password 12 :: Create data :: rest
                      /\ forall data', ~ In (Create data') rest).
Proof.
  unfold AuthActions.signup.
  destruct (parseSignup formData) as [errors|[[name email] password]] eqn:Hp;
    [intros []|].
  destruct (findUnique b email) as [[id|]|e] eqn:Hf;
    [cbn; intros [[=]|[]] | | cbn; intros [[=]|[[=]|[]]]].
  destruct (hash b password 12) as [hashed|e] eqn:Hh;
    [|cbn; intros [[=]|[[=]|[[=]|[]]]]].
  destruct (create b _) as [[]|e] eqn:Hc; cbn.
  - intros [[=]|[[=]|[[= <-]|[]]]].
    exists name, email, password, hashed. repeat split; try assumption.
    exists []. split; [reflexivity|]. intros data' [].
  - intros [[=]|[[=]|[[= <-]|[[=]|[]]]]].
    exists name, email, password, hashed. repeat split; try assumption.
    eexists. split; [reflexivity|]. intros data' [[=]|[]].
Qed.

(** What the [catch] of [signup] answers: the message for a taken email
    for the unique-constraint error P2002 and for no other error. *)
Lemma signupCaught_cases e :
  (e = KnownRequestError "P2002" -> signupCaught e = Message emailTaken)
  /\ (e <> KnownRequestError "P2002" -> signupCaught e = Message unexpected).
Proof.
  split.
  - intros ->. reflexivity.
  - intros Hne. destruct e as [code|message]; [|reflexivity]. cbn.
    destruct (String.eqb_spec code "P2002") as [->|_]; [contradiction|reflexivity].
Qed.

(** [signup] says the account was created exactly when the row was
    written. An email that is taken gets the same message whether the
    lookup finds the row or the write fails on the unique constraint
    (P2002). Whichever step fails (the lookup, the hashing or the write)
    and whatever it fails with, the answer is decided by the error alone:
    the message for a taken email for P2002, and the one generic message
    for every other error, a known request error with another code
    included. *)
Theorem signup_messages formData b :
  (snd (signup formData b) = Message accountCreated
   <-> exists name email password hashed,
         parseSignup formData = inr (name, email, password)
         /\ findUnique b email = Ok None
         /\ hash b password 12 = Ok hashed
         /\ create b {| name := name; email := email;
                        password := hashed; role := "USER" |} = Ok tt)
  /\ (forall name email password,
        parseSignup formData = inr (name, email, password) ->
        (forall id, findUnique b email = Ok (Some id) ->
                    snd (signup formData b) = Message emailTaken)
        /\ (forall hashed,
              findUnique b email = Ok None ->
              hash b password 12 = Ok hashed ->
              create b {| name := name; email := email;
                          password := hashed; role := "USER" |}
              = Failed (KnownRequestError "P2002") ->
              snd (signup formData b) = Message emailTaken)
        /\ (forall e,
              findUnique b email = Failed e
              \/ (findUnique b email = Ok None /\ hash b password 12 = Failed e)
              \/ (exists hashed,
                    findUnique b email = Ok None
                    /\ hash b password 12 = Ok hashed
                    /\ create b {| name := name; email := email;
                                   password := hashed; role := "USER" |} = Failed e) ->
              (e = KnownRequestError "P2002" ->
               snd (signup formData b) = Message emailTaken)
              /\ (e <> KnownRequestError "P2002" ->
                  snd (signup formData b) = Message unexpected)
              /\ In (LogError "Signup error:" e) (fst (signup formData b)))).
Proof.
  split.
  - unfold AuthActions.signup. split.
    + destruct (parseSignup formData) as [errors|[[name email] password]]; [discriminate|].
      destruct (findUnique b email) as [[id|]|e] eqn:Hf; cbn [snd].
      * discriminate.
      * destruct (hash b password 12) as [hashed|e] eqn:Hh; cbn [snd].
        -- destruct (create b _) as [[]|e] eqn:Hc; cbn [snd].
           ++ intros _. exists name, email, password, hashed. auto.
           ++ destruct e as [code|m]; cbn; [destruct (String.eqb code "P2002")|];
                discriminate.
        -- destruct e as [code|m]; cbn; [destruct (String.eqb code "P2002")|];
             discriminate.
      * destruct e as [code|m]; cbn; [destruct (String.eqb code "P2002")|]; discriminate.
    + intros (name & email & password & hashed & -> & -> & -> & ->). reflexivity.
  - intros name email password Hparse. split; [|split].
    + intros id Hf. unfold AuthActions.signup. rewrite Hparse, Hf. reflexivity.
    + intros hashed Hf Hh Hc. unfold AuthActions.signup.
      rewrite Hparse, Hf, Hh. cbn zeta. rewrite Hc. reflexivity.
    + intros e Hfail.
      assert (snd (signup formData b) = signupCaught e
              /\ In (LogError "Signup error:" e) (fst (signup formData b))) as [Hs Hl].
      { unfold AuthActions.signup. rewrite Hparse.
        destruct Hfail as [Hf | [ [Hf Hh] | (hashed & Hf & Hh & Hc) ] ].
        - rewrite Hf. split; [reflexivity|right; left; reflexivity].
        - rewrite Hf, Hh. split; [reflexivity|right; right; left; reflexivity].
        - rewrite Hf, Hh. cbn zeta. rewrite Hc.
          split; [reflexivity|right; right; right; left; reflexivity]. }
      destruct (signupCaught_cases e) as [Hyes Hno].
      split; [|split]; [intros He|intros He|exact Hl]; rewrite Hs; auto.
Qed.

(** [checkEmailAvailability] says an email is free only when it is a
    well-formed email and the lookup ran and found no row; a malformed
    email and a failed lookup both count as taken. *)
Theorem email_available_iff email b :
  snd (checkEmailAvailability email b) = true
  <-> exists data, parseEmail email = Some data /\ findUnique b data = Ok None.
Proof.
  unfold AuthActions.checkEmailAvailability. split.
  - destruct (parseEmail email) as [data|]; [|discriminate].
    destruct (findUnique b data) as [[id|]|e] eqn:Hf; cbn; try discriminate.
    intros _. eauto.
  - intros (data & -> & ->). reflexivity.
Qed.

(** [requestPasswordReset] does not tell whether an account exists: for a
    well-formed email, two identity tables whose lookups both run give the
    same answer, the one message, whether the row is there or not. *)
Theorem password_reset_does_not_tell email data b1 b2 r1 r2 :
  parseEmail email = Some data ->
  findUnique b1 data = Ok r1 ->
  findUnique b2 data = Ok r2 ->
  requestPasswordReset email b1 = requestPasswordReset email b2
  /\ snd (requestPasswordReset email b1) = Message resetSent.
Proof.
  intros Hp H1 H2. unfold AuthActions.requestPasswordReset. rewrite Hp, H1, H2.
  destruct r1, r2; split; reflexivity.
Qed.

End ActionProperties.

(** ** The shared database client *)

Section PrismaModuleProperties.

Import PrismaModule.

Lemma evaluations_with_global n NODE_ENV g c :
  prisma g = Some c ->
  fst (evaluations n NODE_ENV g) = repeat c n
  /\ constructed (snd (evaluations n NODE_ENV g)) = constructed g.
Proof.
  revert g. induction n as [|n IH]; intros g Hg; [split; reflexivity|].
  cbn [evaluations]. unfold evaluate. rewrite Hg.
  destruct (negb (JS.strict_eq NODE_ENV "production")).
  - destruct (evaluations n NODE_ENV _) as [clients g2] eqn:He.
    destruct (IH {| prisma := Some c; constructed := constructed g |} eq_refl) as [H1 H2].
    rewrite He in H1, H2. cbn in *. subst clients. split; [reflexivity|exact H2].
  - destruct (evaluations n NODE_ENV g) as [clients g2] eqn:He.
    destruct (IH g Hg) as [H1 H2]. rewrite He in H1, H2. cbn in *. subst clients.
    split; [reflexivity|exact H2].
Qed.

(** Outside production the module hands out one client however often it
    is evaluated: starting without a global client, [n + 1] evaluations
    construct exactly one client and all export it. In production nothing
    is stored, so every evaluation constructs a client of its own. *)
Theorem one_client_outside_production n NODE_ENV g :
  prisma g = None ->
  (NODE_ENV <> Some "production" ->
   fst (evaluations (S n) NODE_ENV g) = repeat (constructed g) (S n)
   /\ constructed (snd (evaluations (S n) NODE_ENV g)) = S (constructed g))
  /\ (NODE_ENV = Some "production" ->
      fst (evaluations n NODE_ENV g) = seq (constructed g) n
      /\ constructed (snd (evaluations n NODE_ENV g)) = (constructed g + n)%nat).
Proof.
  intros Hg. split.
  - intros Hdev.
    assert (Hneg : negb (JS.strict_eq NODE_ENV "production") = true).
    { apply negb_true_iff, not_true_is_false. rewrite strict_eq_spec. exact Hdev. }
    cbn [evaluations]. unfold evaluate. rewrite Hg, Hneg. cbn [constructed].
    destruct (evaluations n NODE_ENV _) as [clients g2] eqn:He.
    destruct (evaluations_with_global n NODE_ENV
                {| prisma := Some (constructed g); constructed := S (constructed g) |}
                (constructed g) eq_refl) as [H1 H2].
    rewrite He in H1, H2. cbn in *. subst clients. split; [reflexivity|exact H2].
  - intros ->. revert g Hg. induction n as [|n IH]; intros g Hg.
    + cbn. split; [reflexivity|lia].
    + cbn [evaluations]. unfold evaluate. rewrite Hg. cbn [JS.strict_eq negb].
      change (String.eqb "production" "production") with true. cbn [negb].
      destruct (evaluations n (Some "production") _) as [clients g2] eqn:He.
      destruct (IH {| prisma := None; constructed := S (constructed g) |} eq_refl)
        as [H1 H2].
      rewrite He in H1, H2. cbn in *. subst clients. split; [reflexivity|lia].
Qed.

End PrismaModuleProperties.

(** ** Worked examples *)

(** On a hosting platform with the two development settings left on, a
    BASIC user without a row is handed the simulated user, whose role is
    ADMIN, although the bypass guard is off. *)
Lemma getCurrentUser_simulated_user_witness :
  Dal.isDevelopmentBypass Sample2.platformDevEnv = false
  /\ exists name,
       outcome (DalData.getCurrentUser Sample2.oneUserDb Sample2.platformDevWorld)
       = Returned (Some {| DalData.id := "u9"; DalData.name := Some name;
                           DalData.email := "dev-dal-default@example.com";
                           DalData.role := "ADMIN" |}).
Proof.
  split; [vm_compute; reflexivity|].
  edestruct (getCurrentUser_simulated_user Sample2.oneUserDb Sample2.platformDevWorld)
    as [H _].
  { vm_compute; reflexivity. }
  destruct H as [name H]; [vm_compute; reflexivity|right; reflexivity|].
  exists name. vm_compute in H |- *. exact H.
Defined.

Lemma getUserTenantData_membership_witness :
  outcome (DalData.getUserTenantData Sample2.oneUserDb "tenant-7" Sample.adminWorld)
  = Returned ("u1", "tenant-7").
Proof.
  edestruct (getUserTenantData_membership Sample2.oneUserDb "tenant-7" Sample.adminWorld)
    as (_ & _ & H).
  { vm_compute; reflexivity. }
  { reflexivity. }
  exact (H "u1" eq_refl).
Defined.

Lemma getAdminData_admin_only_witness :
  exists t v,
    Dal.verifySession Sample.adminWorld = (t, Returned v)
    /\ (Dal.userRole v = Some "ADMIN" \/ Dal.userRole v = Some "SUPER_ADMIN").
Proof.
  apply (getAdminData_admin_only SifrexDal.roleHierarchy Sample2.oneUserDb
           Sample.adminWorld (or_introl eq_refl)).
  right. eexists. vm_compute. reflexivity.
Defined.

Lemma getBusinessData_any_user_witness :
  outcome (DalData.getBusinessData Sample2.oneUserDb "u1" Sample.adminWorld)
  = outcome (DalData.getBusinessData Sample2.oneUserDb "u1" Sample.basicWorld).
Proof.
  refine (proj1 (getBusinessData_any_user Sample2.oneUserDb "u1"
                   Sample.adminWorld Sample.basicWorld _ _ _ _ eq_refl _ _));
    vm_compute; reflexivity.
Defined.

Lemma getPathnameWithoutLocale_strips_prefix_witness :
  I18n.getPathnameWithoutLocale "/es/dashboard" = "/dashboard".
Proof.
  exact (proj1 (getPathnameWithoutLocale_strips_prefix "es" "/dashboard"
                  (or_introl eq_refl) eq_refl)).
Defined.

Lemma redirects_settle_witness :
  exists n, redirectsUntilPass SifrexMiddleware.middleware 2 Sample.plainRequest = Some n
            /\ (n <= 2)%nat.
Proof.
  destruct (proj1 (redirects_settle Sample.plainRequest eq_refl)) as (n & Hn & Hle & _).
  exists n. split; assumption.
Defined.

Lemma identifiers_are_independent_witness :
  fst (RateLimiting.checkRateLimit 2000 "user@example.com"
         (snd (RateLimiting.checkRateLimit 1000 "other@example.com" ∅)))
  = fst (RateLimiting.checkRateLimit 2000 "user@example.com" ∅).
Proof.
  refine (proj2 (proj2 (identifiers_are_independent "user@example.com" "other@example.com"
                          ∅ 2000 1000 _))).
  discriminate.
Defined.

Lemma result_is_consistent_witness :
  0 <= RateLimiting.remaining (fst (RateLimiting.checkRateLimit 1000 "user@example.com" ∅))
  <= 4.
Proof.
  refine (proj1 (result_is_consistent ∅ 1000 "user@example.com" _)).
  intros key e H. rewrite lookup_empty in H. discriminate.
Defined.

(** Alice's correct password is turned away once her email has used its
    five attempts. *)
Lemma authorize_locked_out_witness :
  snd (fst (AuthConfig.authorize _ Sample.parse Sample.compare
              ("alice@example.com", "correct horse") Sample.withAlice
              Sample2.exhaustedStore)) = None.
Proof.
  refine (proj1 (authorize_locked_out _ Sample.parse Sample.compare Sample.compare
                   ("alice@example.com", "correct horse")
                   "alice@example.com" "correct horse"
                   Sample.withAlice Sample.withAlice Sample2.exhaustedStore
                   {| RateLimiting.count := 5; RateLimiting.resetTime := 900000 |}
                   eq_refl _ _ eq_refl eq_refl)).
  - vm_compute; reflexivity.
  - cbn; lia.
Defined.

Lemma signup_creates_hashed_user_witness :
  exists rest,
    fst (AuthActions.signup _ Sample2.parseForm
           ("Bob", "bob@example.com", "s3cret!pw") Sample2.emptyBackend)
    = AuthActions.FindUnique "bob@example.com"
        :: AuthActions.Hash "s3cret!pw" 12
        :: AuthActions.Create {| AuthActions.name := "Bob";
                                 AuthActions.email := "bob@example.com";
                                 AuthActions.password := "$2a$12$s3cret!pw";
                                 AuthActions.role := "USER" |}
        :: rest.
Proof.
  destruct (signup_creates_hashed_user _ Sample2.parseForm
              ("Bob", "bob@example.com", "s3cret!pw") Sample2.emptyBackend
              {| AuthActions.name := "Bob"; AuthActions.email := "bob@example.com";
                 AuthActions.password := "$2a$12$s3cret!pw";
                 AuthActions.role := "USER" |})
    as (name & email & password & hashed & Hp & _ & _ & _ & rest & Hrest & _).
  - cbn. auto.
  - injection Hp as <- <- <-. exists rest. exact Hrest.
Defined.

Lemma password_reset_does_not_tell_witness :
  AuthActions.requestPasswordReset Sample2.parseEmail "bob@example.com" Sample2.emptyBackend
  = AuthActions.requestPasswordReset Sample2.parseEmail "bob@example.com" Sample2.fullBackend.
Proof.
  exact (proj1 (password_reset_does_not_tell Sample2.parseEmail "bob@example.com"
                  "bob@example.com" Sample2.emptyBackend Sample2.fullBackend
                  None (Some "u1") eq_refl eq_refl eq_refl)).
Defined.

Lemma one_client_outside_production_witness :
  fst (PrismaModule.evaluations 3 (Some "development")
         {| PrismaModule.prisma := None; PrismaModule.constructed := 0 |})
  = [0; 0; 0]%nat.
Proof.
  refine (proj1 (proj1 (one_client_outside_production 2 (Some "development")
                          {| PrismaModule.prisma := None; PrismaModule.constructed := 0 |}
                          eq_refl) _)).
  discriminate.
Defined.
